(** * FMCSA carrier dashboard: the scraping fallback and the storage boundary

    A shallow embedding of [src/services/mockService.ts],
    [src/services/supabaseClient.ts], the data loader of
    [src/pages/FMCSARegister.tsx] and the handlers of the register page
    ([src/unnamed/part_000]).

    - A JavaScript string is the list of its UTF-16 code units ([list Z]).
    - A JavaScript object is a finite map from property names to values.
    - An [async] function is a function into [outcome]: the promise either
      fulfils ([Normal]) or rejects ([Throw]); [await] is the bind.
    - A handler of a component is a function of the component state into the
      state it leaves and an outcome ([act]).
    - The browser and the remote services (fetch, the DOM parser, the
      backend, the database client and the API client) are the fields of a
      [Host]. *)

From Stdlib Require Import ZArith Lia Ascii String.
From stdpp Require Import base option list gmap strings.
From Equations Require Import Equations.

Local Open Scope Z_scope.
Set Warnings "-register-all".

(** ** JavaScript strings *)

Abbreviation jsstring := (list Z).

(** A string literal of the source. *)
Definition lit (s : string) : jsstring :=
  (fun a => Z.of_N (N_of_ascii a)) <$> list_ascii_of_string s.

Definition inRange (lo hi c : Z) : bool := (lo <=? c) && (c <=? hi).

(** The code units matched by the regular expression class [\s] and removed by
    [String.prototype.trim]: WhiteSpace and LineTerminator of ECMAScript. *)
Definition isWhiteSpace (c : Z) : bool :=
  inRange 9 13 c || (c =? 32) || (c =? 160) || (c =? 5760)
  || inRange 8192 8202 c || (c =? 8232) || (c =? 8233) || (c =? 8239)
  || (c =? 8287) || (c =? 12288) || (c =? 65279).

Fixpoint dropWhile {A} (p : A -> bool) (l : list A) : list A :=
  match l with
  | [] => []
  | x :: l' => if p x then dropWhile p l' else l
  end.

Definition trimStart (s : jsstring) : jsstring := dropWhile isWhiteSpace s.
Definition trimEnd (s : jsstring) : jsstring :=
  reverse (dropWhile isWhiteSpace (reverse s)).
(** [s.trim()] *)
Definition trim (s : jsstring) : jsstring := trimEnd (trimStart s).

(** [s.replace(/c/g, d)] for a single code unit [c]. *)
Definition replaceChar (c d : Z) (s : jsstring) : jsstring :=
  (fun x => if x =? c then d else x) <$> s.

(** [s.replace(/\s+/g, ' ')]: every maximal run of white space becomes one
    space.  [inRun] tells that the previous code unit was white space. *)
Fixpoint collapseFrom (inRun : bool) (s : jsstring) : jsstring :=
  match s with
  | [] => []
  | c :: s' =>
      if isWhiteSpace c
      then (if inRun then collapseFrom true s' else 32 :: collapseFrom true s')
      else c :: collapseFrom false s'
  end.
Definition collapseSpaces (s : jsstring) : jsstring := collapseFrom false s.

Fixpoint isPrefix (p s : jsstring) : bool :=
  match p, s with
  | [], _ => true
  | a :: p', b :: s' => (a =? b) && isPrefix p' s'
  | _ :: _, [] => false
  end.

(** [s.includes(sub)] *)
Fixpoint includes (s sub : jsstring) : bool :=
  isPrefix sub s ||
  match s with
  | [] => false
  | _ :: s' => includes s' sub
  end.

(** [s.replace(pat, '')] with a string pattern: the first occurrence goes. *)
Fixpoint removeFirst (pat s : jsstring) : jsstring :=
  if isPrefix pat s then drop (length pat) s
  else match s with
       | [] => []
       | c :: s' => c :: removeFirst pat s'
       end.

(** [s.substr(start, len)] for non-negative arguments. *)
Definition substr (s : jsstring) (start len : nat) : jsstring :=
  take len (drop start s).

(** ** Numbers

    The numbers that occur here are integers or NaN. *)

Inductive number :=
  | Num (z : Z)
  | NaN.

Global Instance number_eq_dec : EqDecision number.
Proof. solve_decision. Defined.

(** ToInt32 and ToUint16 of ECMAScript. *)
Definition toInt32 (x : number) : Z :=
  match x with
  | Num z => (z + 2147483648) mod 4294967296 - 2147483648
  | NaN => 0
  end.

Definition toUint16 (x : number) : Z :=
  match x with
  | Num z => z mod 65536
  | NaN => 0
  end.

(** [a ^ b] *)
Definition bitXor (a b : number) : number :=
  Num (Z.lxor (toInt32 a) (toInt32 b)).

(** [String.fromCharCode(c)] is the one-unit string of this code unit. *)
Definition fromCharCode (c : number) : Z := toUint16 c.

Definition hexVal (c : Z) : option Z :=
  if inRange 48 57 c then Some (c - 48)
  else if inRange 97 102 c then Some (c - 87)
  else if inRange 65 70 c then Some (c - 55)
  else None.

(** The value of the longest prefix of hexadecimal digits; [acc] is the value
    read so far, [None] when no digit was read. *)
Fixpoint hexPrefix (acc : option Z) (s : jsstring) : option Z :=
  match s with
  | [] => acc
  | c :: s' =>
      match hexVal c with
      | Some d => hexPrefix (Some (16 * default 0 acc + d)) s'
      | None => acc
      end
  end.

(** [parseInt(s, 16)]: leading white space is skipped, then an optional sign,
    then an optional [0x] or [0X], then the longest run of hexadecimal digits;
    NaN when that run is empty.  (Negative zero is read as zero, which is what
    every use below makes of it.) *)
Definition parseInt16 (s : jsstring) : number :=
  let s1 := trimStart s in
  let sign := match s1 with c :: _ => if c =? 45 then -1 else 1 | [] => 1 end in
  let s2 := match s1 with
            | c :: t => if (c =? 45) || (c =? 43) then t else s1
            | [] => s1
            end in
  let s3 := match s2 with
            | z :: x :: t =>
                if (z =? 48) && ((x =? 120) || (x =? 88)) then t else s2
            | _ => s2
            end in
  match hexPrefix None s3 with
  | Some v => Num (sign * v)
  | None => NaN
  end.

(** ** JavaScript values *)

Inductive JsValue :=
  | JUndefined
  | JNull
  | JBool (b : bool)
  | JNum (n : number)
  | JStr (s : jsstring)
  | JArr (items : list JsValue)
  | JObj (props : gmap string JsValue).

(** ToBoolean, as applied by [if (v)], [!v] and [v || w]. *)
Definition truthy (v : JsValue) : bool :=
  match v with
  | JUndefined | JNull => false
  | JBool b => b
  | JNum (Num z) => negb (z =? 0)
  | JNum NaN => false
  | JStr s => match s with [] => false | _ => true end
  | JArr _ | JObj _ => true
  end.

(** [a || b] *)
Definition orElse (a b : JsValue) : JsValue := if truthy a then a else b.

(** [typeof v === 'string'] *)
Definition isString (v : JsValue) : bool :=
  match v with JStr _ => true | _ => false end.

(** ** Outcomes of a computation *)

(** What is thrown: an error object, with its message and whatever other
    properties it carries. *)
Record JsError := {
  message : jsstring;
  payload : gmap string JsValue
}.

(** [new Error(msg)] *)
Definition mkError (msg : jsstring) : JsError :=
  {| message := msg; payload := ∅ |}.

(** The error object as a value. *)
Definition errorValue (e : JsError) : JsValue :=
  JObj (<["message" := JStr (message e)]> (payload e)).

Inductive outcome (A : Type) :=
  | Normal (a : A)
  | Throw (e : JsError).
Arguments Normal {A} a.
Arguments Throw {A} e.

Definition bind {A B} (c : outcome A) (k : A -> outcome B) : outcome B :=
  match c with
  | Normal a => k a
  | Throw e => Throw e
  end.

(** [try { body } catch (e) { handler }] *)
Definition tryCatch {A} (body : outcome A) (handler : JsError -> outcome A)
  : outcome A :=
  match body with
  | Throw e => handler e
  | other => other
  end.

Declare Scope js_scope.
Delimit Scope js_scope with js.
Notation "x <- c ;; k" := (bind c (fun x => k))
  (at level 100, c at next level, right associativity) : js_scope.
Local Open Scope js_scope.

(** ** [cleanText] *)

(** The argument type [string | null | undefined]. *)
Inductive JsText :=
  | TNull
  | TUndefined
  | TStr (s : jsstring).

Definition cleanText (text : JsText) : jsstring :=
  match text with
  | TStr (c :: s) =>
      trim (collapseSpaces (replaceChar 10 32 (replaceChar 160 32 (c :: s))))
  | _ => []
  end.

(** ** [cfDecodeEmail] *)

(** The [for] loop of [cfDecodeEmail]: [n] is the loop index and [email] the
    accumulator.  Every iteration brings [n] closer to [encoded.length]. *)
Equations cfLoop (encoded : jsstring) (r : number) (n : nat) (email : jsstring)
  : jsstring by wf (length encoded - n)%nat lt :=
  cfLoop encoded r n email with decide (n < length encoded)%nat => {
    | left _ =>
        let c := bitXor (parseInt16 (substr encoded n 2)) r in
        cfLoop encoded r (n + 2) (email ++ [fromCharCode c]);
    | right _ => email
  }.
Next Obligation. lia. Qed.

Definition cfDecodeEmail (encoded : jsstring) : outcome jsstring :=
  tryCatch
    (let r := parseInt16 (substr encoded 0 2) in
     Normal (cfLoop encoded r 2 []))
    (fun _ => Normal []).

(** The encoding that [cfDecodeEmail] undoes: the key byte, then every
    character xored with it, each as two hexadecimal digits.  [upper] chooses
    the case of the digits above nine. *)
Definition hexDigit (upper : bool) (d : Z) : Z :=
  if d <? 10 then 48 + d else if upper then 55 + d else 87 + d.
Definition hex2 (upper : bool) (b : Z) : jsstring :=
  [hexDigit upper (b / 16); hexDigit upper (b mod 16)].
Definition cfEncodeEmail (upper : bool) (r : Z) (s : jsstring) : jsstring :=
  hex2 upper r ++ concat ((fun c => hex2 upper (Z.lxor c r)) <$> s).

(** ** Reading properties *)

(** The TypeError of reading the property [k] of null or of undefined: its
    text names the value and the property. *)
Definition cannotRead (what k : string) : JsError :=
  mkError (lit "Cannot read properties of " ++ lit what
           ++ lit " (reading '" ++ lit k ++ lit "')").

(** [v.k] for a property name [k] that no primitive and no array has of its
    own: reading it from null or undefined throws a TypeError. *)
Definition getProp (v : JsValue) (k : string) : outcome JsValue :=
  match v with
  | JUndefined => Throw (cannotRead "undefined" k)
  | JNull => Throw (cannotRead "null" k)
  | JObj m => Normal (default JUndefined (m !! k))
  | _ => Normal JUndefined
  end.

(** An object literal. *)
Definition object (fields : list (string * JsValue)) : gmap string JsValue :=
  list_to_map (reverse fields).

(** [v?.k] *)
Definition optProp (v : JsValue) (k : string) : JsValue :=
  match v with
  | JObj m => default JUndefined (m !! k)
  | _ => JUndefined
  end.

(** ** The DOM *)

Inductive Node :=
  | TextNode (data : jsstring)
  | CommentNode (data : jsstring)
  | Element (tag : string) (attrs : list (string * jsstring))
      (children : list Node).

(** A document is the list of the children of its document node; an element
    is referred to by its path, the child indices from the document node. *)
Abbreviation Document := (list Node).
Abbreviation path := (list nat).

Definition isElement (n : Node) : bool :=
  match n with Element _ _ _ => true | _ => false end.

Definition childrenOf (n : Node) : list Node :=
  match n with Element _ _ cs => cs | _ => [] end.

Fixpoint nodeAt (ns : list Node) (p : path) : option Node :=
  match p with
  | [] => None
  | i :: p' =>
      match ns !! i with
      | Some n => match p' with
                  | [] => Some n
                  | _ => nodeAt (childrenOf n) p'
                  end
      | None => None
      end
  end.

(** The children of the node at [p]; of the document node when [p] is empty. *)
Definition childrenAt (doc : Document) (p : path) : list Node :=
  match p with
  | [] => doc
  | _ => from_option childrenOf [] (nodeAt doc p)
  end.

(** [el.textContent]: the data of the descendant text nodes, in tree order. *)
Fixpoint textOf (n : Node) : jsstring :=
  match n with
  | TextNode d => d
  | CommentNode _ => []
  | Element _ _ cs =>
      (fix kids (cs : list Node) : jsstring :=
         match cs with
         | [] => []
         | c :: cs' => textOf c ++ kids cs'
         end) cs
  end.

Definition textContent (doc : Document) (p : path) : jsstring :=
  from_option textOf [] (nodeAt doc p).

(** The elements of a subtree in tree order (the order of
    [querySelectorAll]), each as its path. *)
Fixpoint elementsOf (n : Node) (p : path) : list path :=
  match n with
  | Element _ _ cs =>
      p :: (fix kids (cs : list Node) (i : nat) : list path :=
              match cs with
              | [] => []
              | c :: cs' => elementsOf c (p ++ [i]) ++ kids cs' (S i)
              end) cs 0%nat
  | _ => []
  end.

Fixpoint elementsOfList (ns : list Node) (p : path) (i : nat) : list path :=
  match ns with
  | [] => []
  | c :: cs => elementsOf c (p ++ [i]) ++ elementsOfList cs p (S i)
  end.

Definition allElements (doc : Document) : list path :=
  elementsOfList doc [] 0%nat.

Fixpoint assoc {A} (k : string) (l : list (string * A)) : option A :=
  match l with
  | [] => None
  | (k', v) :: l' => if String.eqb k k' then Some v else assoc k l'
  end.

(** [el.getAttribute(name)] *)
Definition getAttribute (doc : Document) (p : path) (name : string)
  : option jsstring :=
  match nodeAt doc p with
  | Some (Element _ attrs _) => assoc name attrs
  | _ => None
  end.

Definition jsEqb (a b : jsstring) : bool := bool_decide (a = b).

(** The tokens of a [class] attribute. *)
Definition isAsciiSpace (c : Z) : bool :=
  (c =? 9) || (c =? 10) || (c =? 12) || (c =? 13) || (c =? 32).

Fixpoint tokensFrom (cur : jsstring) (s : jsstring) : list jsstring :=
  match s with
  | [] => match cur with [] => [] | _ => [cur] end
  | c :: s' =>
      if isAsciiSpace c
      then match cur with
           | [] => tokensFrom [] s'
           | _ => cur :: tokensFrom [] s'
           end
      else tokensFrom (cur ++ [c]) s'
  end.

(** The selectors that the source uses. *)
Inductive simpleSel :=
  | SelTag (t : string)                    (* [th] *)
  | SelAttrEq (a : string) (v : jsstring)  (* [[summary="..."]] *)
  | SelHasAttr (a : string)                (* [[data-cfemail]] *)
  | SelClass (c : jsstring).               (* [.sumData] *)

(** A compound selector is a list of simple ones, all of which must match; a
    complex selector is a list of compounds joined by the descendant
    combinator; a selector list is a list of complex selectors. *)
Abbreviation compoundSel := (list simpleSel).
Abbreviation complexSel := (list compoundSel).
Abbreviation selector := (list complexSel).

Definition matchSimple (n : Node) (s : simpleSel) : bool :=
  match n with
  | Element tag attrs _ =>
      match s with
      | SelTag t => String.eqb tag t
      | SelAttrEq a v => from_option (jsEqb v) false (assoc a attrs)
      | SelHasAttr a => bool_decide (is_Some (assoc a attrs))
      | SelClass c =>
          from_option (fun v => existsb (jsEqb c) (tokensFrom [] v)) false
            (assoc "class" attrs)
      end
  | _ => false
  end.

Definition matchCompound (doc : Document) (p : path) (c : compoundSel) : bool :=
  from_option (fun n => forallb (matchSimple n) c) false (nodeAt doc p).

(** The paths of the proper ancestors of [p], nearest first. *)
Fixpoint ancestors (p : path) (k : nat) : list path :=
  match k with
  | O => []
  | S k' => take k p :: ancestors p k'
  end.
Definition properAncestors (p : path) : list path :=
  ancestors p (length p - 1).

(** [revSel] is a complex selector, subject first. *)
Fixpoint matchComplexRev (doc : Document) (revSel : list compoundSel)
    (p : path) : bool :=
  match revSel with
  | [] => true
  | c :: outer =>
      matchCompound doc p c &&
      match outer with
      | [] => true
      | _ => existsb (matchComplexRev doc outer) (properAncestors p)
      end
  end.

Definition matchSelector (doc : Document) (sel : selector) (p : path) : bool :=
  existsb (fun cx => matchComplexRev doc (reverse cx) p) sel.

Fixpoint isProperPrefix (a p : path) : bool :=
  match a, p with
  | [], _ :: _ => true
  | x :: a', y :: p' => (x =? y)%nat && isProperPrefix a' p'
  | _, [] => false
  end.

(** [scope.querySelectorAll(sel)]; the scope is the document when [scope] is
    the empty path, and the element at that path otherwise. *)
Definition querySelectorAll (doc : Document) (scope : path) (sel : selector)
  : list path :=
  filter (fun p => isProperPrefix scope p && matchSelector doc sel p)
    (allElements doc).

Definition querySelector (doc : Document) (scope : path) (sel : selector)
  : option path :=
  head (querySelectorAll doc scope sel).

Definition tagSel (t : string) : selector := [[[SelTag t]]].

(** [doc.getElementById(id)] *)
Definition getElementById (doc : Document) (id : jsstring) : option path :=
  head (filter (fun p => bool_decide (getAttribute doc p "id" = Some id))
          (allElements doc)).

(** The index of the first element among [ns], counted from [i]. *)
Fixpoint firstElementIndex (ns : list Node) (i : nat) : option nat :=
  match ns with
  | [] => None
  | n :: ns' => if isElement n then Some i else firstElementIndex ns' (S i)
  end.

Definition parentPath (p : path) : path := take (length p - 1) p.

(** [el.nextElementSibling] *)
Definition nextElementSibling (doc : Document) (p : path) : option path :=
  match last p with
  | None => None
  | Some i =>
      match firstElementIndex (drop (S i) (childrenAt doc (parentPath p))) (S i) with
      | Some j => Some (parentPath p ++ [j])
      | None => None
      end
  end.

(** [el.parentElement]: the parent, when it is an element. *)
Definition parentElement (p : path) : option path :=
  match parentPath p with
  | [] => None
  | q => Some q
  end.

(** ** [encodeURIComponent] *)

(** The characters that [encodeURIComponent] leaves as they are: letters,
    digits and [- _ . ! ~ * ' ( )]. *)
Definition isUnreserved (c : Z) : bool :=
  inRange 65 90 c || inRange 97 122 c || inRange 48 57 c
  || (c =? 45) || (c =? 95) || (c =? 46) || (c =? 33) || (c =? 126)
  || (c =? 42) || (c =? 39) || (c =? 40) || (c =? 41).

(** The UTF-8 octets of a code point. *)
Definition utf8 (cp : Z) : list Z :=
  if cp <? 128 then [cp]
  else if cp <? 2048 then [192 + cp / 64; 128 + cp mod 64]
  else if cp <? 65536 then
    [224 + cp / 4096; 128 + (cp / 64) mod 64; 128 + cp mod 64]
  else [240 + cp / 262144; 128 + (cp / 4096) mod 64;
        128 + (cp / 64) mod 64; 128 + cp mod 64].

Definition percentEncode (cp : Z) : jsstring :=
  concat ((fun b => 37 :: hex2 true b) <$> utf8 cp).

Definition uriError : JsError := mkError (lit "URI malformed").

(** A lone surrogate makes it throw a URIError. *)
Fixpoint encodeURIComponent (s : jsstring) : outcome jsstring :=
  match s with
  | [] => Normal []
  | c :: s' =>
      if isUnreserved c then (r <- encodeURIComponent s';; Normal (c :: r))
      else if inRange 56320 57343 c then Throw uriError
      else if inRange 55296 56319 c then
        match s' with
        | d :: s'' =>
            if inRange 56320 57343 d then
              r <- encodeURIComponent s'';;
              Normal (percentEncode ((c - 55296) * 1024 + (d - 56320) + 65536) ++ r)
            else Throw uriError
        | [] => Throw uriError
        end
      else (r <- encodeURIComponent s';; Normal (percentEncode c ++ r))
  end.

(** ** The host: browser and remote services *)

(** What the source reads of a [fetch] response. *)
Record Response := {
  resp_ok : bool;                          (* [response.ok] *)
  resp_contentType : option jsstring;      (* [headers.get("content-type")] *)
  resp_text : outcome jsstring;            (* [await response.text()] *)
  resp_json : outcome JsValue              (* [await response.json()] *)
}.

(** The calls of the query builder of the database client. *)
Inductive QueryOp :=
  | QIlike (column : string) (pattern : jsstring)
  | QNot (column operator : string) (value : JsValue)
  | QIs (column : string) (value : JsValue)
  | QOr (filters : jsstring)
  | QOrder (column : string) (ascending : bool)
  | QLimit (count : number).

Record Query := {
  q_table : string;
  q_select : string;
  q_ops : list QueryOp
}.

(** The [{ data, error }] that awaiting a query gives. *)
Record QueryResult := {
  q_data : option (list JsValue);
  q_error : option JsError
}.

Record Host := {
  fetch : jsstring -> outcome Response;
  JSON_parse : jsstring -> outcome JsValue;
  (** [new DOMParser().parseFromString(html, 'text/html')] *)
  parseFromString : jsstring -> Document;
  innerText : Document -> path -> jsstring;
  (** [new Date().toLocaleDateString('en-US')] *)
  todayLocaleDate : jsstring;
  (** [new Date().toLocaleString()] *)
  nowLocaleString : jsstring;
  (** [new Date(v).toLocaleDateString()] *)
  dateToLocaleDate : JsValue -> jsstring;
  (** [backendService], whose source is not part of the development *)
  fetchCarrierFromBackend : jsstring -> outcome JsValue;
  fetchSafetyFromBackend : jsstring -> outcome JsValue;
  (** [supabase.from(table).upsert(record, { onConflict })] *)
  upsert : string -> gmap string JsValue -> string -> outcome (option JsError);
  (** awaiting a built query *)
  runQuery : Query -> outcome QueryResult;
  (** [client.apiCall.invoke({ url, method, data })] of [@/lib/api] *)
  apiInvoke : jsstring -> jsstring -> JsValue -> outcome JsValue;
  (** ToNumber of ECMAScript on a value that is not a number *)
  toNumber : JsValue -> number
}.

Fixpoint mapM {A B} (f : A -> outcome B) (l : list A) : outcome (list B) :=
  match l with
  | [] => Normal []
  | x :: l' => y <- f x;; ys <- mapM f l';; Normal (y :: ys)
  end.

(** ** Handlers that write component state

    A handler of a component is a function of the state that the setters
    write; a throw leaves the state as the setters called so far made it. *)

Definition act (S A : Type) : Type := S -> S * outcome A.

Definition aret {S A} (a : A) : act S A := fun s => (s, Normal a).

Definition abind {S A B} (c : act S A) (k : A -> act S B) : act S B :=
  fun s => match c s with
           | (s', Normal a) => k a s'
           | (s', Throw e) => (s', Throw e)
           end.

(** A computation that does not touch the state, such as an awaited call. *)
Definition lift {S A} (c : outcome A) : act S A := fun s => (s, c).

(** A call of a setter. *)
Definition modify {S} (f : S -> S) : act S unit := fun s => (f s, Normal tt).

(** [try { body } catch (e) { handler } finally { finalizer }] *)
Definition tryCatchFinally {S A} (body : act S A) (handler : JsError -> act S A)
    (finalizer : act S unit) : act S A :=
  fun s =>
    let '(s1, r) := match body s with
                    | (s', Throw e) => handler e s'
                    | done => done
                    end in
    match finalizer s1 with
    | (s2, Normal _) => (s2, r)
    | (s2, Throw e) => (s2, Throw e)
    end.

Notation "x <~ c ;; k" := (abind c (fun x => k))
  (at level 100, c at next level, right associativity) : js_scope.
Notation "c ;;; k" := (abind c (fun _ => k))
  (at level 100, right associativity) : js_scope.

Section MockService.
Context (H : Host).

(** *** Helper functions *)

Definition findValueByLabel (doc : Document) (label : jsstring) : jsstring :=
  let ths := querySelectorAll doc [] (tagSel "th") in
  let targetTh :=
    List.find (fun th => includes (cleanText (TStr (textContent doc th))) label)
      ths in
  match targetTh with
  | Some th =>
      match nextElementSibling doc th with
      | Some nextTd =>
          let val := match innerText H doc nextTd with
                     | [] => textContent doc nextTd
                     | t => t
                     end in
          cleanText (TStr val)
      | None => []
      end
  | None => []
  end.

(** *** Network layer *)

(** The [if (!useProxy)] block: [Some v] when it returns [v], [None] when
    control falls through to the proxies. *)
Definition directAttempt (targetUrl : jsstring) : outcome (option JsValue) :=
  tryCatch
    (response <- fetch H targetUrl;;
     if resp_ok response then
       if from_option (fun ct => includes ct (lit "application/json")) false
            (resp_contentType response)
       then (v <- resp_json response;; Normal (Some v))
       else (t <- resp_text response;; Normal (Some (JStr t)))
     else Normal None)
    (fun _ => Normal (Some JNull)).

Definition allorigins (url : jsstring) : outcome jsstring :=
  e <- encodeURIComponent url;;
  Normal (lit "https://api.allorigins.win/raw?url=" ++ e).

Definition codetabs (url : jsstring) : outcome jsstring :=
  e <- encodeURIComponent url;;
  Normal (lit "https://api.codetabs.com/v1/proxy?quest=" ++ e).

Definition proxyGenerators : list (jsstring -> outcome jsstring) :=
  [allorigins; codetabs].

(** The body of the [for ... of] loop: [Some v] when it returns [v], [None]
    when the loop goes on. *)
Definition proxyAttempt (generateProxyUrl : jsstring -> outcome jsstring)
    (targetUrl : jsstring) : outcome (option JsValue) :=
  tryCatch
    (proxyUrl <- generateProxyUrl targetUrl;;
     response <- fetch H proxyUrl;;
     if resp_ok response then
       text <- resp_text response;;
       tryCatch (v <- JSON_parse H text;; Normal (Some v))
                (fun _ => Normal (Some (JStr text)))
     else Normal None)
    (fun _ => Normal None).

Fixpoint proxyLoop (generators : list (jsstring -> outcome jsstring))
    (targetUrl : jsstring) : outcome JsValue :=
  match generators with
  | [] => Normal JNull
  | generateProxyUrl :: rest =>
      r <- proxyAttempt generateProxyUrl targetUrl;;
      match r with
      | Some v => Normal v
      | None => proxyLoop rest targetUrl
      end
  end.

Definition fetchUrl (targetUrl : jsstring) (useProxy : bool) : outcome JsValue :=
  r <- (if negb useProxy then directAttempt targetUrl else Normal None);;
  match r with
  | Some v => Normal v
  | None => proxyLoop proxyGenerators targetUrl
  end.

(** *** Scraper logic *)

(** The three template literals that name the scraped pages. *)
Definition profileUrl (dot : jsstring) : jsstring :=
  lit "https://ai.fmcsa.dot.gov/SMS/Carrier/" ++ dot
  ++ lit "/CompleteProfile.aspx".

Definition registrationUrl (dotNumber : jsstring) : jsstring :=
  lit "https://ai.fmcsa.dot.gov/SMS/Carrier/" ++ dotNumber
  ++ lit "/CarrierRegistration.aspx".

Definition snapshotUrl (mcNumber : jsstring) : jsstring :=
  lit "https://safer.fmcsa.dot.gov/query.asp?searchtype=ANY&query_type=queryCarrierSnapshot&query_param=MC_MX&query_string="
  ++ mcNumber.

Definition categories : list jsstring :=
  [lit "Unsafe Driving"; lit "Crash Indicator"; lit "HOS Compliance";
   lit "Vehicle Maintenance"; lit "Controlled Substances";
   lit "Hazmat Compliance"; lit "Driver Fitness"].

(** The [cells.forEach((cell, i) => ...)] of [fetchSafetyData]. *)
Fixpoint scoreCells (doc : Document) (cells : list path) (i : nat)
  : list JsValue :=
  match cells with
  | [] => []
  | cell :: rest =>
      let valSpan :=
        querySelector doc cell [[[SelTag "span"; SelClass (lit "val")]]] in
      let val := match valSpan with
                 | Some sp => cleanText (TStr (textContent doc sp))
                 | None => cleanText (TStr (textContent doc cell))
                 end in
      match categories !! i with
      | Some category =>
          if truthy (JStr category)
          then [JObj (object [("category", JStr category);
                              ("measure", orElse (JStr val) (JStr (lit "0.00")))])]
          else []
      | None => []
      end ++ scoreCells doc rest (S i)
  end.

(** The [rows.forEach(row => ...)] of [fetchSafetyData]. *)
Fixpoint oosRows (doc : Document) (rows : list path) : list JsValue :=
  match rows with
  | [] => []
  | row :: rest =>
      let cols := querySelectorAll doc row [[[SelTag "th"]]; [[SelTag "td"]]] in
      match cols with
      | c0 :: c1 :: c2 :: _ =>
          [JObj (object
             [("type", JStr (cleanText (TStr (textContent doc c0))));
              ("rate", JStr (cleanText (TStr (textContent doc c1))));
              ("nationalAvg", JStr (cleanText (TStr (textContent doc c2))))])]
      | _ => []
      end ++ oosRows doc rest
  end.

(** The part of [fetchSafetyData] after the backend yielded nothing. *)
Definition fetchSafetyData_fallback (dot : jsstring) : outcome JsValue :=
  let url := profileUrl dot in
  html <- fetchUrl url true;;
  match html with
  | JStr html =>
      let doc := parseFromString H html in
      let rating := match getElementById doc (lit "Rating") with
                    | Some ratingEl => cleanText (TStr (textContent doc ratingEl))
                    | None => lit "N/A"
                    end in
      let ratingDate :=
        match getElementById doc (lit "RatingDate") with
        | Some ratingDateEl =>
            removeFirst (lit ")")
              (removeFirst (lit "(")
                 (removeFirst (lit "Rating Date:")
                    (cleanText (TStr (textContent doc ratingDateEl)))))
        | None => lit "N/A"
        end in
      let basicScores :=
        match querySelector doc [] [[[SelTag "tr"; SelClass (lit "sumData")]]] with
        | Some sumDataRow =>
            scoreCells doc (querySelectorAll doc sumDataRow (tagSel "td")) 0
        | None => []
        end in
      let oosTable :=
        match getElementById doc (lit "SafetyRating") with
        | Some safetyDiv => querySelector doc safetyDiv (tagSel "table")
        | None => None
        end in
      let oosRates :=
        match oosTable with
        | Some t =>
            oosRows doc
              (querySelectorAll doc t [[[SelTag "tbody"]; [SelTag "tr"]]])
        | None => []
        end in
      Normal (JObj (object [("rating", JStr rating);
                            ("ratingDate", JStr ratingDate);
                            ("basicScores", JArr basicScores);
                            ("oosRates", JArr oosRates)]))
  | _ => Throw (mkError (lit "Could not fetch safety data"))
  end.

Definition fetchSafetyData (dot : jsstring) : outcome JsValue :=
  backendResult <- fetchSafetyFromBackend H dot;;
  if truthy backendResult then Normal backendResult
  else fetchSafetyData_fallback dot.

(** The body of the [for] loop over the labels of
    [fetchCarrierEmailFromSMS]: [Some s] when the iteration returns [s],
    [None] when the loop goes on. *)
Definition emailOfLabel (doc : Document) (label : path)
  : outcome (option jsstring) :=
  if includes (textContent doc label) (lit "Email:") then
    match parentElement label with
    | Some parent =>
        match querySelector doc parent [[[SelHasAttr "data-cfemail"]]] with
        | Some cfEmail =>
            e <- cfDecodeEmail
                   (default [] (getAttribute doc cfEmail "data-cfemail"));;
            Normal (Some e)
        | None =>
            let text :=
              cleanText
                (TStr (removeFirst (lit "Email:") (textContent doc parent))) in
            if truthy (JStr text) && includes text (lit "@")
            then Normal (Some text)
            else Normal None
        end
    | None => Normal None
    end
  else Normal None.

(** The loop itself; after the last label the function returns the empty
    string. *)
Fixpoint emailFromLabels (doc : Document) (labels : list path)
  : outcome jsstring :=
  match labels with
  | [] => Normal []
  | label :: rest =>
      r <- emailOfLabel doc label;;
      match r with
      | Some s => Normal s
      | None => emailFromLabels doc rest
      end
  end.

Definition fetchCarrierEmailFromSMS (dotNumber : jsstring) (useProxy : bool)
  : outcome jsstring :=
  if negb (truthy (JStr dotNumber)) || jsEqb dotNumber (lit "UNKNOWN")
     || jsEqb dotNumber []
  then Normal []
  else
    let smsUrl := registrationUrl dotNumber in
    result <- fetchUrl smsUrl useProxy;;
    match result with
    | JStr result =>
        let doc := parseFromString H result in
        emailFromLabels doc (querySelectorAll doc [] (tagSel "label"))
    | _ => Normal []
    end.

(** The [table.querySelectorAll('td').forEach(cell => ...)] of [findMarked]. *)
Fixpoint markedCells (doc : Document) (cells : list path) : list jsstring :=
  match cells with
  | [] => []
  | cell :: rest =>
      (if jsEqb (trim (textContent doc cell)) (lit "X") then
         match nextElementSibling doc cell with
         | Some next => [cleanText (TStr (textContent doc next))]
         | None => []
         end
       else []) ++ markedCells doc rest
  end.

Definition findMarked (doc : Document) (summary : string) : list jsstring :=
  match querySelector doc []
          [[[SelTag "table"; SelAttrEq "summary" (lit summary)]]] with
  | None => []
  | Some table => markedCells doc (querySelectorAll doc table (tagSel "td"))
  end.

(** The object literal [carrier] of [scrapeRealCarrier]. *)
Definition carrierLiteral (doc : Document) (mcNumber : jsstring)
  : gmap string JsValue :=
  let getVal label := JStr (findValueByLabel doc (lit label)) in
  let marked summary := JArr (JStr <$> findMarked doc summary) in
  object
    [("mcNumber", JStr mcNumber);
     ("dotNumber", getVal "USDOT Number:");
     ("legalName", getVal "Legal Name:");
     ("dbaName", getVal "DBA Name:");
     ("entityType", getVal "Entity Type:");
     ("status", getVal "Operating Authority Status:");
     ("email", JStr []);
     ("phone", getVal "Phone:");
     ("powerUnits", getVal "Power Units:");
     ("drivers", getVal "Drivers:");
     ("physicalAddress", getVal "Physical Address:");
     ("mailingAddress", getVal "Mailing Address:");
     ("dateScraped", JStr (todayLocaleDate H));
     ("mcs150Date", getVal "MCS-150 Form Date:");
     ("mcs150Mileage", getVal "MCS-150 Mileage (Year):");
     ("operationClassification", marked "Operation Classification");
     ("carrierOperation", marked "Carrier Operation");
     ("cargoCarried", marked "Cargo Carried");
     ("outOfServiceDate", getVal "Out of Service Date:");
     ("stateCarrierId", getVal "State Carrier ID Number:");
     ("dunsNumber", getVal "DUNS Number:")].

(** The part of [scrapeRealCarrier] after the backend yielded nothing. *)
Definition scrapeRealCarrier_fallback (mcNumber : jsstring) (useProxy : bool)
  : outcome JsValue :=
  let url := snapshotUrl mcNumber in
  html <- fetchUrl url useProxy;;
  match html with
  | JStr html =>
      let doc := parseFromString H html in
      match querySelector doc [] (tagSel "center") with
      | None => Normal JNull
      | Some _ =>
          let carrier := carrierLiteral doc mcNumber in
          let dotNumber := findValueByLabel doc (lit "USDOT Number:") in
          if truthy (JStr dotNumber) then
            email <- fetchCarrierEmailFromSMS dotNumber useProxy;;
            Normal (JObj (<["email" := JStr email]> carrier))
          else Normal (JObj carrier)
      end
  | _ => Normal JNull
  end.

Definition scrapeRealCarrier (mcNumber : jsstring) (useProxy : bool)
  : outcome JsValue :=
  backendResult <- fetchCarrierFromBackend H mcNumber;;
  if truthy backendResult then Normal backendResult
  else scrapeRealCarrier_fallback mcNumber useProxy.

End MockService.

(** ** [supabaseClient.ts] *)

Section SupabaseClient.
Context (H : Host).

(** The object literal [record] of [saveCarrierToSupabase], one line per
    property: the column, the property of [carrier] it is read from, and the
    right operand of [||] when there is one. *)
Definition recordFields : list (string * string * option JsValue) :=
  [("mc_number", "mcNumber", None);
   ("dot_number", "dotNumber", None);
   ("legal_name", "legalName", None);
   ("dba_name", "dbaName", Some JNull);
   ("entity_type", "entityType", None);
   ("status", "status", None);
   ("email", "email", Some JNull);
   ("phone", "phone", Some JNull);
   ("power_units", "powerUnits", Some JNull);
   ("drivers", "drivers", Some JNull);
   ("non_cmv_units", "nonCmvUnits", Some JNull);
   ("physical_address", "physicalAddress", Some JNull);
   ("mailing_address", "mailingAddress", Some JNull);
   ("date_scraped", "dateScraped", None);
   ("mcs150_date", "mcs150Date", Some JNull);
   ("mcs150_mileage", "mcs150Mileage", Some JNull);
   ("operation_classification", "operationClassification", Some (JArr []));
   ("carrier_operation", "carrierOperation", Some (JArr []));
   ("cargo_carried", "cargoCarried", Some (JArr []));
   ("out_of_service_date", "outOfServiceDate", Some JNull);
   ("state_carrier_id", "stateCarrierId", Some JNull);
   ("duns_number", "dunsNumber", Some JNull);
   ("safety_rating", "safetyRating", Some JNull);
   ("safety_rating_date", "safetyRatingDate", Some JNull);
   ("basic_scores", "basicScores", Some JNull);
   ("oos_rates", "oosRates", Some JNull);
   ("insurance_policies", "insurancePolicies", Some JNull)].

(** One property of an object literal: [target: source.prop] or
    [target: source.prop || dflt]. *)
Definition readField (source : JsValue) (f : string * string * option JsValue)
  : outcome (string * JsValue) :=
  let '(target, prop, dflt) := f in
  v <- getProp source prop;;
  Normal (target, match dflt with Some d => orElse v d | None => v end).

Definition carrierRecord (carrier : JsValue) : outcome (gmap string JsValue) :=
  fields <- mapM (readField carrier) recordFields;;
  Normal (object fields).

(** The result type [{ success: boolean; error?: string }]. *)
Record SaveResult := {
  success : bool;
  save_error : option jsstring
}.

Definition saveCarrierToSupabase (carrier : JsValue) : outcome SaveResult :=
  tryCatch
    (record <- carrierRecord carrier;;
     error <- upsert H "carriers" record "mc_number";;
     match error with
     | Some e => Normal {| success := false; save_error := Some (message e) |}
     | None => Normal {| success := true; save_error := None |}
     end)
    (fun err => Normal {| success := false; save_error := Some (message err) |}).

Record CarrierFilters := {
  f_mcNumber : option jsstring;
  f_dotNumber : option jsstring;
  f_legalName : option jsstring;
  f_active : option jsstring;
  f_state : option jsstring;
  f_hasEmail : option jsstring;
  f_powerUnitsMin : option number;
  f_powerUnitsMax : option number;
  f_driversMin : option number;
  f_driversMax : option number;
  f_limit : option number
}.

(** The default argument [{}]. *)
Definition noFilters : CarrierFilters :=
  {| f_mcNumber := None; f_dotNumber := None; f_legalName := None;
     f_active := None; f_state := None; f_hasEmail := None;
     f_powerUnitsMin := None; f_powerUnitsMax := None;
     f_driversMin := None; f_driversMax := None; f_limit := None |}.

(** An optional property as the value that reading it gives. *)
Definition optStr (o : option jsstring) : JsValue := from_option JStr JUndefined o.
Definition optNum (o : option number) : JsValue := from_option JNum JUndefined o.

(** The template literal [`%${s}%`]. *)
Definition contains (s : option jsstring) : jsstring :=
  [37] ++ default [] s ++ [37].

Definition strIs (o : option jsstring) (s : string) : bool :=
  bool_decide (o = Some (lit s)).

(** The query that [fetchCarriersFromSupabase] builds, call by call. *)
Definition carrierQuery (filters : CarrierFilters) : Query :=
  let q0 : list QueryOp := [] in
  let q1 := if truthy (optStr (f_mcNumber filters))
            then q0 ++ [QIlike "mc_number" (contains (f_mcNumber filters))]
            else q0 in
  let q2 := if truthy (optStr (f_dotNumber filters))
            then q1 ++ [QIlike "dot_number" (contains (f_dotNumber filters))]
            else q1 in
  let q3 := if truthy (optStr (f_legalName filters))
            then q2 ++ [QIlike "legal_name" (contains (f_legalName filters))]
            else q2 in
  let q4 := if strIs (f_active filters) "true"
            then q3 ++ [QIlike "status" (lit "%AUTHORIZED%");
                        QNot "status" "ilike" (JStr (lit "%NOT%"))]
            else if strIs (f_active filters) "false"
            then q3 ++ [QOr (lit "status.ilike.%NOT%,status.not.ilike.%AUTHORIZED%")]
            else q3 in
  let q5 := if truthy (optStr (f_state filters))
            then q4 ++ [QIlike "physical_address" (contains (f_state filters))]
            else q4 in
  let q6 := if strIs (f_hasEmail filters) "true"
            then q5 ++ [QNot "email" "is" JNull]
            else if strIs (f_hasEmail filters) "false"
            then q5 ++ [QIs "email" JNull]
            else q5 in
  let q7 := q6 ++ [QOrder "created_at" false] in
  let q8 := if truthy (optNum (f_limit filters))
            then q7 ++ [QLimit (default NaN (f_limit filters))]
            else q7 ++ [QLimit (Num 200)] in
  {| q_table := "carriers"; q_select := "*"; q_ops := q8 |}.

(** The object literal that each row is mapped to: the property, the column
    it is read from, and the right operand of [||] when there is one. *)
Definition carrierFields : list (string * string * option JsValue) :=
  [("mcNumber", "mc_number", None);
   ("dotNumber", "dot_number", None);
   ("legalName", "legal_name", None);
   ("dbaName", "dba_name", None);
   ("entityType", "entity_type", None);
   ("status", "status", None);
   ("email", "email", None);
   ("phone", "phone", None);
   ("powerUnits", "power_units", None);
   ("drivers", "drivers", None);
   ("nonCmvUnits", "non_cmv_units", None);
   ("physicalAddress", "physical_address", None);
   ("mailingAddress", "mailing_address", None);
   ("dateScraped", "date_scraped", None);
   ("mcs150Date", "mcs150_date", None);
   ("mcs150Mileage", "mcs150_mileage", None);
   ("operationClassification", "operation_classification", Some (JArr []));
   ("carrierOperation", "carrier_operation", Some (JArr []));
   ("cargoCarried", "cargo_carried", Some (JArr []));
   ("outOfServiceDate", "out_of_service_date", None);
   ("stateCarrierId", "state_carrier_id", None);
   ("dunsNumber", "duns_number", None);
   ("safetyRating", "safety_rating", None);
   ("safetyRatingDate", "safety_rating_date", None);
   ("basicScores", "basic_scores", None);
   ("oosRates", "oos_rates", None);
   ("insurancePolicies", "insurance_policies", None)].

Definition toCarrier (record : JsValue) : outcome JsValue :=
  fields <- mapM (readField record) carrierFields;;
  Normal (JObj (object fields)).

Definition fetchCarriersFromSupabase (filters : CarrierFilters)
  : outcome (list JsValue) :=
  tryCatch
    (res <- runQuery H (carrierQuery filters);;
     match q_error res with
     | Some _ => Normal []
     | None => mapM toCarrier (default [] (q_data res))
     end)
    (fun _ => Normal []).

End SupabaseClient.

(** ** The loader of [FMCSARegister.tsx] *)

Module FMCSARegister.
Section Loader.
Context (H : Host).

(** The state of the component that the loader writes. *)
Record State := {
  registerData : list JsValue;
  isLoading : bool;
  lastUpdated : jsstring;
  error : jsstring
}.

Definition setRegisterData (v : list JsValue) (st : State) : State :=
  {| registerData := v; isLoading := isLoading st;
     lastUpdated := lastUpdated st; error := error st |}.
Definition setIsLoading (v : bool) (st : State) : State :=
  {| registerData := registerData st; isLoading := v;
     lastUpdated := lastUpdated st; error := error st |}.
Definition setLastUpdated (v : jsstring) (st : State) : State :=
  {| registerData := registerData st; isLoading := isLoading st;
     lastUpdated := v; error := error st |}.
Definition setError (v : jsstring) (st : State) : State :=
  {| registerData := registerData st; isLoading := isLoading st;
     lastUpdated := lastUpdated st; error := v |}.

Definition registerQuery : Query :=
  {| q_table := "fmcsa_register"; q_select := "*";
     q_ops := [QOrder "published_date" false; QLimit (Num 2000)] |}.

Definition mockData : list JsValue :=
  [JObj (object [("number", JStr (lit "FF-40152"));
                 ("title", JStr (lit "PFL TRANSPORTATION SOLUTIONS INC - SURREY, BC"));
                 ("decided", JStr (lit "02/20/2026"));
                 ("category", JStr (lit "NAME CHANGE"))]);
   JObj (object [("number", JStr (lit "MC-19745"));
                 ("title", JStr (lit "MACON SIX TRANSPORT LLC - LANSING, IL"));
                 ("decided", JStr (lit "02/20/2026"));
                 ("category", JStr (lit "GRANT DECISION NOTICES"))])].

Definition loadMockData : act State unit :=
  modify (setRegisterData mockData);;;
  modify (setLastUpdated (nowLocaleString H)).

(** The callback of [data.map]. *)
Definition toEntry (item : JsValue) : outcome JsValue :=
  number <- getProp item "docket_number";;
  title <- getProp item "carrier_name";;
  published <- getProp item "published_date";;
  category <- getProp item "category";;
  Normal (JObj (object
    [("number", number);
     ("title", title);
     ("decided", JStr (dateToLocaleDate H published));
     ("category", orElse category (JStr (lit "GRANT DECISION NOTICES")))])).

Definition fetchRegisterData : act State unit :=
  modify (setIsLoading true);;;
  modify (setError []);;;
  tryCatchFinally
    (res <~ lift (runQuery H registerQuery);;
     match q_error res with
     | Some sbError => lift (Throw sbError)
     | None =>
         match q_data res with
         | Some (item :: items) =>
             mappedData <~ lift (mapM toEntry (item :: items));;
             modify (setRegisterData mappedData);;;
             modify (setLastUpdated (nowLocaleString H))
         | _ => lift (Throw (mkError (lit "No entries found in Supabase.")))
         end
     end)
    (fun err =>
       modify (setError
                 (lit "Database Error: "
                  ++ match message err with
                     | [] => lit "Check connection"
                     | m => m
                     end
                  ++ lit ". Showing mock data."));;;
       loadMockData)
    (modify (setIsLoading false)).

End Loader.
End FMCSARegister.

(** ** The handlers of the register page ([src/unnamed/part_000]) *)

Module RegisterPage.
Section Handlers.
Context (H : Host).

(** The state variables that the handlers set, and the toasts shown. *)
Record State := {
  records : JsValue;
  totalRecords : JsValue;
  categories : JsValue;
  availableDates : JsValue;
  storedDates : JsValue;
  selectedDate : JsValue;
  isLoading : bool;
  isScraping : bool;
  isLoadingDates : bool;
  toasts : list (string * JsValue)
}.

Definition setRecords (v : JsValue) (st : State) : State :=
  {| records := v; totalRecords := totalRecords st; categories := categories st;
     availableDates := availableDates st; storedDates := storedDates st;
     selectedDate := selectedDate st; isLoading := isLoading st;
     isScraping := isScraping st; isLoadingDates := isLoadingDates st;
     toasts := toasts st |}.
Definition setTotalRecords (v : JsValue) (st : State) : State :=
  {| records := records st; totalRecords := v; categories := categories st;
     availableDates := availableDates st; storedDates := storedDates st;
     selectedDate := selectedDate st; isLoading := isLoading st;
     isScraping := isScraping st; isLoadingDates := isLoadingDates st;
     toasts := toasts st |}.
Definition setCategories (v : JsValue) (st : State) : State :=
  {| records := records st; totalRecords := totalRecords st; categories := v;
     availableDates := availableDates st; storedDates := storedDates st;
     selectedDate := selectedDate st; isLoading := isLoading st;
     isScraping := isScraping st; isLoadingDates := isLoadingDates st;
     toasts := toasts st |}.
Definition setAvailableDates (v : JsValue) (st : State) : State :=
  {| records := records st; totalRecords := totalRecords st;
     categories := categories st;
     availableDates := v; storedDates := storedDates st;
     selectedDate := selectedDate st; isLoading := isLoading st;
     isScraping := isScraping st; isLoadingDates := isLoadingDates st;
     toasts := toasts st |}.
Definition setStoredDates (v : JsValue) (st : State) : State :=
  {| records := records st; totalRecords := totalRecords st;
     categories := categories st;
     availableDates := availableDates st; storedDates := v;
     selectedDate := selectedDate st; isLoading := isLoading st;
     isScraping := isScraping st; isLoadingDates := isLoadingDates st;
     toasts := toasts st |}.
Definition setSelectedDate (v : JsValue) (st : State) : State :=
  {| records := records st; totalRecords := totalRecords st;
     categories := categories st;
     availableDates := availableDates st; storedDates := storedDates st;
     selectedDate := v; isLoading := isLoading st;
     isScraping := isScraping st; isLoadingDates := isLoadingDates st;
     toasts := toasts st |}.
Definition setIsLoading (v : bool) (st : State) : State :=
  {| records := records st; totalRecords := totalRecords st;
     categories := categories st;
     availableDates := availableDates st; storedDates := storedDates st;
     selectedDate := selectedDate st; isLoading := v;
     isScraping := isScraping st; isLoadingDates := isLoadingDates st;
     toasts := toasts st |}.
Definition setIsScraping (v : bool) (st : State) : State :=
  {| records := records st; totalRecords := totalRecords st;
     categories := categories st;
     availableDates := availableDates st; storedDates := storedDates st;
     selectedDate := selectedDate st; isLoading := isLoading st;
     isScraping := v; isLoadingDates := isLoadingDates st;
     toasts := toasts st |}.
Definition setIsLoadingDates (v : bool) (st : State) : State :=
  {| records := records st; totalRecords := totalRecords st;
     categories := categories st;
     availableDates := availableDates st; storedDates := storedDates st;
     selectedDate := selectedDate st; isLoading := isLoading st;
     isScraping := isScraping st; isLoadingDates := v;
     toasts := toasts st |}.

(** [toast.error(v)], [toast.success(v)], [toast.warning(v)] *)
Definition toast (kind : string) (v : JsValue) : act State unit :=
  modify (fun st =>
    {| records := records st; totalRecords := totalRecords st;
       categories := categories st;
       availableDates := availableDates st; storedDates := storedDates st;
       selectedDate := selectedDate st; isLoading := isLoading st;
       isScraping := isScraping st; isLoadingDates := isLoadingDates st;
       toasts := toasts st ++ [(kind, v)] |}).

(** [v > 0] *)
Definition positive (v : JsValue) : bool :=
  match (match v with JNum n => n | _ => toNumber H v end) with
  | Num z => 0 <? z
  | NaN => false
  end.

(** [v.length], for a value that is not null or undefined. *)
Definition lengthOf (v : JsValue) : JsValue :=
  match v with
  | JArr items => JNum (Num (Z.of_nat (length items)))
  | JStr s => JNum (Num (Z.of_nat (length s)))
  | _ => optProp v "length"
  end.

(** [v[0]], for a value that is not null or undefined. *)
Definition first (v : JsValue) : JsValue :=
  match v with
  | JArr items => default JUndefined (head items)
  | JStr s => match s with c :: _ => JStr [c] | [] => JUndefined end
  | _ => optProp v "0"
  end.

Definition emptyObject : JsValue := JObj ∅.

(** The handlers close over the state variables of the render that made
    them; these are their first arguments. *)

Definition fetchAvailableDates (selectedDate : jsstring) : act State unit :=
  modify (setIsLoadingDates true);;;
  tryCatchFinally
    (response <~ lift (apiInvoke H (lit "/api/v1/fmcsa/dates") (lit "GET") emptyObject);;
     data <~ lift (getProp response "data");;
     let dates := orElse (optProp data "dates") (JArr []) in
     modify (setAvailableDates dates);;;
     storedResp <~ lift (apiInvoke H (lit "/api/v1/fmcsa/stored-dates") (lit "GET")
                           emptyObject);;
     storedData <~ lift (getProp storedResp "data");;
     let stored := orElse (optProp storedData "dates") (JArr []) in
     modify (setStoredDates stored);;;
     if positive (lengthOf dates) && negb (truthy (JStr selectedDate))
     then (d <~ lift (getProp (first dates) "fmcsa_date");;
           modify (setSelectedDate d))
     else aret tt)
    (fun err => toast "error" (JStr (lit "Failed to fetch available dates")))
    (modify (setIsLoadingDates false)).

Definition recordsParams (selectedDate selectedCategory searchQuery : jsstring)
  : gmap string JsValue :=
  let params := object [("register_date", JStr selectedDate);
                        ("limit", JStr (lit "1000"))] in
  let params := if truthy (JStr selectedCategory)
                   && negb (jsEqb selectedCategory (lit "ALL"))
                then <["category" := JStr selectedCategory]> params
                else params in
  if truthy (JStr (trim searchQuery))
  then <["search" := JStr (trim searchQuery)]> params
  else params.

Definition fetchRecords (selectedDate selectedCategory searchQuery : jsstring)
  : act State unit :=
  if negb (truthy (JStr selectedDate)) then aret tt
  else
    modify (setIsLoading true);;;
    tryCatchFinally
      (let params := recordsParams selectedDate selectedCategory searchQuery in
       response <~ lift (apiInvoke H (lit "/api/v1/fmcsa/records") (lit "GET")
                           (JObj params));;
       data <~ lift (getProp response "data");;
       modify (setRecords (orElse (optProp data "items") (JArr [])));;;
       modify (setTotalRecords (orElse (optProp data "total") (JNum (Num 0))));;;
       modify (setCategories (orElse (optProp data "categories") (JArr []))))
      (fun err =>
         modify (setRecords (JArr []));;;
         modify (setTotalRecords (JNum (Num 0))))
      (modify (setIsLoading false)).

Definition handleScrape (selectedDate selectedCategory searchQuery : jsstring)
  : act State unit :=
  if negb (truthy (JStr selectedDate))
  then toast "error" (JStr (lit "Please select a date first"))
  else
    modify (setIsScraping true);;;
    tryCatchFinally
      (response <~ lift (apiInvoke H (lit "/api/v1/fmcsa/scrape") (lit "POST")
                           (JObj (object [("pd_date", JStr selectedDate)])));;
       result <~ lift (getProp response "data");;
       count <~ lift (getProp result "records_count");;
       if positive count then
         msg <~ lift (getProp result "message");;
         toast "success" msg;;;
         storedResp <~ lift (apiInvoke H (lit "/api/v1/fmcsa/stored-dates") (lit "GET")
                               emptyObject);;
         storedData <~ lift (getProp storedResp "data");;
         modify (setStoredDates (orElse (optProp storedData "dates") (JArr [])));;;
         fetchRecords selectedDate selectedCategory searchQuery
       else
         (msg <~ lift (getProp result "message");;
          toast "warning" msg))
      (fun err =>
         let e := errorValue err in
         let detail :=
           orElse (optProp (optProp e "data") "detail")
             (orElse (optProp (optProp (optProp e "response") "data") "detail")
                (orElse (optProp e "message") (JStr (lit "Scrape failed")))) in
         toast "error" detail)
      (modify (setIsScraping false)).

End Handlers.
End RegisterPage.

(** ** Auxiliary notions used in the statements *)

(** No two neighbours are both white space. *)
Fixpoint noWsPair (s : jsstring) : Prop :=
  match s with
  | a :: t => match t with
              | b :: _ => isWhiteSpace a && isWhiteSpace b = false
              | [] => True
              end /\ noWsPair t
  | [] => True
  end.

(** What [cleanText] leaves: the only white space is the space, never two in
    a row, none at either end. *)
Definition cleaned (s : jsstring) : Prop :=
  (forall c, c ∈ s -> isWhiteSpace c = true -> c = 32) /\
  noWsPair s /\
  (forall c, head s = Some c -> isWhiteSpace c = false) /\
  (forall c, last s = Some c -> isWhiteSpace c = false).


(** The code unit that the iteration of [cfDecodeEmail] at index [n] appends,
    and the number of iterations run from index [n] on. *)
Definition cfChar (encoded : jsstring) (r : number) (n : nat) : Z :=
  fromCharCode (bitXor (parseInt16 (substr encoded n 2)) r).
Definition cfIterations (encoded : jsstring) (n : nat) : nat :=
  ((length encoded - n + 1) / 2)%nat.

(** [el.innerText || el.textContent], the text that [findValueByLabel] reads
    of the cell. *)
Definition cellText (H : Host) (doc : Document) (p : path) : jsstring :=
  match innerText H doc p with
  | [] => textContent doc p
  | t => t
  end.

(** The header cell [th] holds the label. *)
Definition holdsLabel (doc : Document) (label : jsstring) (th : path) : bool :=
  includes (cleanText (TStr (textContent doc th))) label.

(** A computation completes normally. *)
Definition returns {A} (c : outcome A) : Prop := exists a, c = Normal a.

(** A request fails: [fetch] rejects, or the response is not ok, or reading
    its text rejects. *)
Definition requestFails (H : Host) (url : jsstring) : Prop :=
  match fetch H url with
  | Throw _ => True
  | Normal response =>
      resp_ok response = false \/ exists e, resp_text response = Throw e
  end.

(** The body that the direct request reads of an ok response. *)
Definition directBody (response : Response) : outcome JsValue :=
  if from_option (fun ct => includes ct (lit "application/json")) false
       (resp_contentType response)
  then resp_json response
  else (t <- resp_text response;; Normal (JStr t)).

(** The direct request fails: [fetch] rejects, or the response is not ok, or
    reading its body rejects. *)
Definition directFails (H : Host) (url : jsstring) : Prop :=
  match fetch H url with
  | Throw _ => True
  | Normal response =>
      resp_ok response = false \/ exists e, directBody response = Throw e
  end.

(** A proxy attempt fails: the proxy URL cannot be built, or the request to
    it fails. *)
Definition proxyFails (H : Host) (proxyUrl : outcome jsstring) : Prop :=
  match proxyUrl with
  | Throw _ => True
  | Normal url => requestFails H url
  end.

(** What a proxy attempt returns for the text [text] of an ok response. *)
Definition parsedOrText (H : Host) (text : jsstring) : JsValue :=
  match JSON_parse H text with
  | Normal v => v
  | Throw _ => JStr text
  end.

(** ** Sample inputs *)

Definition failedToFetch : JsError := mkError (lit "Failed to fetch").

Definition textResponse (body : jsstring) : Response :=
  {| resp_ok := true;
     resp_contentType := Some (lit "text/html");
     resp_text := Normal body;
     resp_json := Throw (mkError (lit "Unexpected token <")) |}.

(** A browser without network, in front of a backend and a database that
    hold nothing; no text is JSON. *)
Definition offline : Host :=
  {| fetch := fun _ => Throw failedToFetch;
     JSON_parse := fun _ => Throw (mkError (lit "Unexpected token"));
     parseFromString := fun _ => [];
     innerText := textContent;
     todayLocaleDate := lit "11/2/2026";
     nowLocaleString := lit "11/2/2026, 9:00:00 AM";
     dateToLocaleDate := fun _ => lit "Invalid Date";
     fetchCarrierFromBackend := fun _ => Normal JNull;
     fetchSafetyFromBackend := fun _ => Normal JNull;
     upsert := fun _ _ _ => Normal None;
     runQuery := fun _ => Normal {| q_data := Some []; q_error := None |};
     apiInvoke := fun _ _ _ => Throw failedToFetch;
     toNumber := fun _ => NaN |}.

Definition withNetwork (net : jsstring -> outcome Response)
    (parse : jsstring -> Document) (H : Host) : Host :=
  {| fetch := net;
     JSON_parse := JSON_parse H;
     parseFromString := parse;
     innerText := innerText H;
     todayLocaleDate := todayLocaleDate H;
     nowLocaleString := nowLocaleString H;
     dateToLocaleDate := dateToLocaleDate H;
     fetchCarrierFromBackend := fetchCarrierFromBackend H;
     fetchSafetyFromBackend := fetchSafetyFromBackend H;
     upsert := upsert H;
     runQuery := runQuery H;
     apiInvoke := apiInvoke H;
     toNumber := toNumber H |}.

Definition withBackend (carrier safety : jsstring -> outcome JsValue)
    (H : Host) : Host :=
  {| fetch := fetch H;
     JSON_parse := JSON_parse H;
     parseFromString := parseFromString H;
     innerText := innerText H;
     todayLocaleDate := todayLocaleDate H;
     nowLocaleString := nowLocaleString H;
     dateToLocaleDate := dateToLocaleDate H;
     fetchCarrierFromBackend := carrier;
     fetchSafetyFromBackend := safety;
     upsert := upsert H;
     runQuery := runQuery H;
     apiInvoke := apiInvoke H;
     toNumber := toNumber H |}.

Definition withDatabase (run : Query -> outcome QueryResult) (H : Host) : Host :=
  {| fetch := fetch H;
     JSON_parse := JSON_parse H;
     parseFromString := parseFromString H;
     innerText := innerText H;
     todayLocaleDate := todayLocaleDate H;
     nowLocaleString := nowLocaleString H;
     dateToLocaleDate := dateToLocaleDate H;
     fetchCarrierFromBackend := fetchCarrierFromBackend H;
     fetchSafetyFromBackend := fetchSafetyFromBackend H;
     upsert := upsert H;
     runQuery := run;
     apiInvoke := apiInvoke H;
     toNumber := toNumber H |}.

Definition el (tag : string) (children : list Node) : Node :=
  Element tag [] children.
Definition txt (s : string) : Node := TextNode (lit s).

(** A carrier snapshot page: labelled rows inside [center], one header cell
    without a cell after it, and a table of marked cargo classes. *)
Definition snapshotDoc : Document :=
  [el "html"
     [el "body"
        [el "center"
           [el "table"
              [el "tr" [el "th" [txt "USDOT Number:"];
                        TextNode [10; 32];
                        el "td" [TextNode ([160; 32] ++ lit "123" ++ [10])]];
               el "tr" [el "th" [txt "Legal "; el "a" [txt "Name:"]];
                        el "td" [txt "ACME"; el "br" []; TextNode [10];
                                 txt "  TRUCKING"]];
               el "tr" [el "td" [txt "n/a"]; el "th" [txt "DBA Name:"]]];
            Element "table" [("summary", lit "Cargo Carried")]
              [el "tr" [el "td" [txt "X"]; el "td" [txt "General Freight"];
                        el "td" [txt " "]; el "td" [txt "Household Goods"]]]]]]].

(** The same rows without the [center] element. *)
Definition bareDoc : Document :=
  [el "html"
     [el "body"
        [el "table"
           [el "tr" [el "th" [txt "USDOT Number:"]; el "td" [txt "123"]]]]]].

(** A registration page with the obfuscated address under its label. *)
Definition smsDoc : Document :=
  [el "html"
     [el "body"
        [el "div"
           [el "label" [txt "Email:"];
            el "span"
              [Element "a" [("href", lit "/cdn-cgi/l/email-protection");
                            ("data-cfemail", lit "422302206c2d")]
                 [txt "[email protected]"]]]]]].

(** A registration page with a plain address under a first label and an
    obfuscated one under a second. *)
Definition mixedSmsDoc : Document :=
  [el "div" [el "label" [txt "Email:"]; txt " plain@x.com "];
   el "div"
     [el "label" [txt "Email:"];
      Element "a" [("data-cfemail", lit "422302206c2d")]
        [txt "[email protected]"]]].

(** The element at [q] is the next sibling element of the one at [p]. *)
Definition immediatelyFollows (doc : Document) (p q : path) : Prop :=
  exists par i j,
    p = par ++ [i] /\ q = par ++ [j] /\ (i < j)%nat /\
    (exists n, childrenAt doc par !! j = Some n /\ isElement n = true) /\
    (forall k n, (i < k < j)%nat ->
                 childrenAt doc par !! k = Some n -> isElement n = false).

(** No element comes after the one at [p] among its siblings. *)
Definition noFollowingElement (doc : Document) (p : path) : Prop :=
  forall par i k n,
    p = par ++ [i] -> (i < k)%nat ->
    childrenAt doc par !! k = Some n -> isElement n = false.

(** Only the first proxy answers. *)
Definition behindProxy : Host :=
  withNetwork
    (fun url => if jsEqb url (lit "https://api.allorigins.win/raw?url=page")
                then Normal (textResponse (lit "hello"))
                else Throw failedToFetch)
    (fun _ => [])
    offline.





(** The state that a handler leaves. *)
Definition after {S A} (c : act S A) (s : S) : S := (c s).1.

Definition emptyPage : RegisterPage.State :=
  {| RegisterPage.records := JArr [JStr (lit "stale")];
     RegisterPage.totalRecords := JNum (Num 1);
     RegisterPage.categories := JArr [];
     RegisterPage.availableDates := JArr [];
     RegisterPage.storedDates := JArr [];
     RegisterPage.selectedDate := JStr (lit "2026-02-20");
     RegisterPage.isLoading := false;
     RegisterPage.isScraping := false;
     RegisterPage.isLoadingDates := true;
     RegisterPage.toasts := [] |}.

(** The snapshot and the registration page can be fetched directly. *)
Definition liveHost : Host :=
  withNetwork
    (fun url => if isPrefix (lit "https://safer.fmcsa.dot.gov/") url
                then Normal (textResponse (lit "snapshot"))
                else if isPrefix (lit "https://ai.fmcsa.dot.gov/SMS/Carrier/") url
                then Normal (textResponse (lit "registration"))
                else Throw failedToFetch)
    (fun html => if jsEqb html (lit "snapshot") then snapshotDoc
                 else if jsEqb html (lit "registration") then smsDoc
                 else [])
    offline.

(** Every page is the snapshot without [center]. *)
Definition bareHost : Host :=
  withNetwork (fun _ => Normal (textResponse (lit "snapshot")))
    (fun _ => bareDoc) offline.

(** The backend knows the carrier and its safety record. *)
Definition backendCarrier : JsValue :=
  JObj (object [("mcNumber", JStr (lit "999"));
                ("legalName", JStr (lit "BACKEND CARRIER"))]).
Definition backendSafety : JsValue :=
  JObj (object [("rating", JStr (lit "Satisfactory"))]).
Definition backedHost : Host :=
  withBackend (fun _ => Normal backendCarrier) (fun _ => Normal backendSafety)
    liveHost.

(** The properties of the scraped record that a label lookup fills, with
    their labels, and those that a table of marks fills, with the summary of
    the table. *)
Definition labelledFields : list (string * string) :=
  [("dotNumber", "USDOT Number:");
   ("legalName", "Legal Name:");
   ("dbaName", "DBA Name:");
   ("entityType", "Entity Type:");
   ("status", "Operating Authority Status:");
   ("phone", "Phone:");
   ("powerUnits", "Power Units:");
   ("drivers", "Drivers:");
   ("physicalAddress", "Physical Address:");
   ("mailingAddress", "Mailing Address:");
   ("mcs150Date", "MCS-150 Form Date:");
   ("mcs150Mileage", "MCS-150 Mileage (Year):");
   ("outOfServiceDate", "Out of Service Date:");
   ("stateCarrierId", "State Carrier ID Number:");
   ("dunsNumber", "DUNS Number:")].

Definition markedFields : list (string * string) :=
  [("operationClassification", "Operation Classification");
   ("carrierOperation", "Carrier Operation");
   ("cargoCarried", "Cargo Carried")].

Section LinearReading.
Context (H : Host).

(** The fallback as the specification words it: fetch, parse, look the
    fields up, decode the obfuscated field, shape the record, and nothing
    else.  The lookups and the shape are those of the source. *)
Definition scrapeLinear_spec (mcNumber : jsstring) (useProxy : bool)
  : outcome JsValue :=
  html <- fetchUrl H (snapshotUrl mcNumber) useProxy;;
  match html with
  | JStr html =>
      let doc := parseFromString H html in
      let carrier := carrierLiteral H doc mcNumber in
      email <- match querySelector doc [] [[[SelHasAttr "data-cfemail"]]] with
               | Some cfEmail =>
                   cfDecodeEmail (default [] (getAttribute doc cfEmail "data-cfemail"))
               | None => Normal []
               end;;
      Normal (JObj (<["email" := JStr email]> carrier))
  | _ => Normal JNull
  end.

End LinearReading.

(** The optional text columns of [CarrierRecord], the optional columns of
    any type, and the list columns, each with the property of the carrier
    object that it mirrors. *)
Definition optionalScalars : list (string * string) :=
  [("dba_name", "dbaName");
   ("email", "email");
   ("phone", "phone");
   ("power_units", "powerUnits");
   ("drivers", "drivers");
   ("non_cmv_units", "nonCmvUnits");
   ("physical_address", "physicalAddress");
   ("mailing_address", "mailingAddress");
   ("mcs150_date", "mcs150Date");
   ("mcs150_mileage", "mcs150Mileage");
   ("out_of_service_date", "outOfServiceDate");
   ("state_carrier_id", "stateCarrierId");
   ("duns_number", "dunsNumber");
   ("safety_rating", "safetyRating");
   ("safety_rating_date", "safetyRatingDate");
   ("basic_scores", "basicScores");
   ("oos_rates", "oosRates");
   ("insurance_policies", "insurancePolicies")].

Definition listFields : list (string * string) :=
  [("operation_classification", "operationClassification");
   ("carrier_operation", "carrierOperation");
   ("cargo_carried", "cargoCarried")].

(** What [obj.prop] gives for an object. *)
Definition prop (obj : gmap string JsValue) (name : string) : JsValue :=
  default JUndefined (obj !! name).

(** The value of one line of an object literal read from an object. *)
Definition fieldOf (obj : gmap string JsValue)
    (f : string * string * option JsValue) : string * JsValue :=
  let '(target, name, dflt) := f in
  (target, match dflt with
           | Some d => orElse (prop obj name) d
           | None => prop obj name
           end).

(** The row limit that applies to a filter object. *)
Definition applicableLimit (filters : CarrierFilters) : Z :=
  match f_limit filters with
  | Some (Num n) => if n =? 0 then 200 else n
  | _ => 200
  end.

Definition isFilterOp (op : QueryOp) : bool :=
  match op with
  | QOrder _ _ | QLimit _ => false
  | _ => true
  end.

(** The database returns no more rows than the limit that ends a query. *)
Definition honoursLimit (H : Host) : Prop :=
  forall q ops n res rows,
    runQuery H q = Normal res -> q_data res = Some rows ->
    q_ops q = ops ++ [QLimit (Num n)] ->
    Z.of_nat (length rows) <= Z.max 0 n.

(** A database of carriers that holds [rows], newest first, and applies the
    limit that ends a query; it refuses a negative limit. *)
Definition database (rows : list JsValue) : Host :=
  withDatabase
    (fun q =>
       match last (q_ops q) with
       | Some (QLimit (Num n)) =>
           if n <? 0
           then Normal {| q_data := None;
                          q_error := Some (mkError (lit "invalid range")) |}
           else Normal {| q_data := Some (take (Z.to_nat n) rows);
                          q_error := None |}
       | _ => Normal {| q_data := Some rows; q_error := None |}
       end)
    offline.

Definition storedRow (mc : string) : JsValue :=
  JObj (object [("mc_number", JStr (lit mc)); ("email", JNull)]).

Definition threeRows : list JsValue :=
  [storedRow "3"; storedRow "2"; storedRow "1"].

Definition limitFilter (n : number) : CarrierFilters :=
  {| f_mcNumber := None; f_dotNumber := None; f_legalName := None;
     f_active := None; f_state := None; f_hasEmail := None;
     f_powerUnitsMin := None; f_powerUnitsMax := None;
     f_driversMin := None; f_driversMax := None; f_limit := Some n |}.

(** A scraped carrier without address, email or cargo classes. *)
Definition sparseCarrier : gmap string JsValue :=
  object [("mcNumber", JStr (lit "999"));
          ("dotNumber", JStr (lit "123"));
          ("legalName", JStr (lit "ACME TRUCKING"));
          ("entityType", JStr (lit "CARRIER"));
          ("status", JStr (lit "AUTHORIZED"));
          ("email", JStr []);
          ("phone", JStr (lit "555"));
          ("dateScraped", JStr (lit "11/2/2026"));
          ("carrierOperation", JArr [JStr (lit "Interstate")])].

(** Membership in a list that is written out. *)
Ltac listed :=
  repeat first [apply list_elem_of_here | apply list_elem_of_further].

(** ** Further notions used in the statements *)

(** The code units of a string that are not white space, in order. *)
Definition visible (s : jsstring) : jsstring :=
  List.filter (fun c => negb (isWhiteSpace c)) s.

(** A hexadecimal digit, of either case, and a code unit of one byte. *)
Definition isHexDigit (c : Z) : bool :=
  match hexVal c with Some _ => true | None => false end.
Definition isByte (c : Z) : bool := (0 <=? c) && (c <? 256).

(** A number that is a byte, or NaN. *)
Definition byteOrNaN (x : number) : bool :=
  match x with Num z => isByte z | NaN => true end.

(** A string of UTF-16 code units. *)
Definition wellFormed (s : jsstring) : Prop :=
  Forall (fun c => 0 <= c < 65536) s.

(** A code unit that needs no escaping inside a query value: one that
    [encodeURIComponent] leaves alone, or the percent sign of an escape. *)
Definition querySafe (c : Z) : bool := isUnreserved c || (c =? 37).

(** The property names of the record that [scrapeRealCarrier] shapes. *)
Definition carrierKeys : list string :=
  ["mcNumber"; "dotNumber"; "legalName"; "dbaName"; "entityType"; "status";
   "email"; "phone"; "powerUnits"; "drivers"; "physicalAddress";
   "mailingAddress"; "dateScraped"; "mcs150Date"; "mcs150Mileage";
   "operationClassification"; "carrierOperation"; "cargoCarried";
   "outOfServiceDate"; "stateCarrierId"; "dunsNumber"].

(** A page with seven score cells, the third one empty. *)
Definition scoreDoc : Document :=
  [el "table"
     [Element "tr" [("class", lit "odd sumData")]
        [el "td" [Element "span" [("class", lit "val")] [txt " 1.25 "]];
         el "td" [txt "0.5"];
         el "td" [txt " "];
         el "td" [txt "3"]; el "td" [txt "4"]; el "td" [txt "5"];
         el "td" [txt "6"]; el "td" [txt "7"]; el "td" [txt "8"]]]].

(** A registration page with the address in plain text. *)
Definition plainSmsDoc : Document :=
  [el "div" [el "label" [txt "Email:"]; txt " dispatch@acme.example "]].

(** The columns of the record that [saveCarrierToSupabase] writes. *)
Definition recordColumns : list string := (fun f => f.1.1) <$> recordFields.

(** A value of a flat record: a string, or a list of strings. *)
Definition flatValue (v : JsValue) : bool :=
  match v with
  | JStr _ => true
  | JArr items => forallb isString items
  | _ => false
  end.

(** The text filters and the limit of a filter object, the four numeric
    range filters being replaced. *)
Definition withRanges (filters : CarrierFilters)
    (powerUnitsMin powerUnitsMax driversMin driversMax : option number)
  : CarrierFilters :=
  {| f_mcNumber := f_mcNumber filters; f_dotNumber := f_dotNumber filters;
     f_legalName := f_legalName filters; f_active := f_active filters;
     f_state := f_state filters; f_hasEmail := f_hasEmail filters;
     f_powerUnitsMin := powerUnitsMin; f_powerUnitsMax := powerUnitsMax;
     f_driversMin := driversMin; f_driversMax := driversMax;
     f_limit := f_limit filters |}.

(** A text filter that is set to the empty string, read as not set. *)
Definition unsetEmpty (o : option jsstring) : option jsstring :=
  match o with
  | Some [] => None
  | _ => o
  end.

Definition withoutEmpty (filters : CarrierFilters) : CarrierFilters :=
  {| f_mcNumber := unsetEmpty (f_mcNumber filters);
     f_dotNumber := unsetEmpty (f_dotNumber filters);
     f_legalName := unsetEmpty (f_legalName filters);
     f_active := f_active filters;
     f_state := unsetEmpty (f_state filters);
     f_hasEmail := f_hasEmail filters;
     f_powerUnitsMin := f_powerUnitsMin filters;
     f_powerUnitsMax := f_powerUnitsMax filters;
     f_driversMin := f_driversMin filters;
     f_driversMax := f_driversMax filters;
     f_limit := f_limit filters |}.

(** A row that is null or undefined. *)
Definition nullish (v : JsValue) : bool :=
  match v with JNull | JUndefined => true | _ => false end.

(** ** The update operations of [supabaseClient.ts] *)

Section Updates.
(** [supabase.from(table).update(values).eq(column, value)], awaited, and
    [new Date().toISOString()]. *)
Context (update : string -> gmap string JsValue -> string -> jsstring
                  -> outcome (option JsError))
        (nowISOString : jsstring).

Definition updateCarrierInsurance (dotNumber : jsstring) (insuranceData : JsValue)
  : outcome SaveResult :=
  tryCatch
    (policies <- getProp insuranceData "policies";;
     error <- update "carriers"
                (object [("insurance_policies", policies);
                         ("updated_at", JStr nowISOString)])
                "dot_number" dotNumber;;
     match error with
     | Some e => Normal {| success := false; save_error := Some (message e) |}
     | None => Normal {| success := true; save_error := None |}
     end)
    (fun err => Normal {| success := false; save_error := Some (message err) |}).

Definition updateCarrierSafety (dotNumber : jsstring) (safetyData : JsValue)
  : outcome SaveResult :=
  tryCatch
    (rating <- getProp safetyData "rating";;
     ratingDate <- getProp safetyData "ratingDate";;
     basicScores <- getProp safetyData "basicScores";;
     oosRates <- getProp safetyData "oosRates";;
     error <- update "carriers"
                (object [("safety_rating", rating);
                         ("safety_rating_date", ratingDate);
                         ("basic_scores", basicScores);
                         ("oos_rates", oosRates);
                         ("updated_at", JStr nowISOString)])
                "dot_number" dotNumber;;
     match error with
     | Some e => Normal {| success := false; save_error := Some (message e) |}
     | None => Normal {| success := true; save_error := None |}
     end)
    (fun err => Normal {| success := false; save_error := Some (message err) |}).

End Updates.

(** An update that succeeds for the carrier 123 and finds a constraint
    violated for every other one. *)
Definition sampleUpdate (table : string) (values : gmap string JsValue)
    (column : string) (value : jsstring) : outcome (option JsError) :=
  if jsEqb value (lit "123") then Normal None
  else Normal (Some (mkError (lit "violates check constraint"))).

(** ** The filtered view of [FMCSARegister.tsx] *)

Module RegisterView.
Section View.
(** [String.prototype.toLowerCase] *)
Context (toLowerCase : jsstring -> jsstring).

(** [v?.toLowerCase() || ""], where [what] is the text of the expression
    [v]: calling the method on a value that is neither a string nor null nor
    undefined throws a TypeError, whose text names the expression. *)
Definition lowered (what : string) (v : JsValue) : outcome jsstring :=
  match v with
  | JUndefined | JNull => Normal []
  | JStr s => Normal (toLowerCase s)
  | _ => Throw (mkError (lit what ++ lit "?.toLowerCase is not a function"))
  end.

(** [v === s] for a string [s] *)
Definition isTheString (v : JsValue) (s : jsstring) : bool :=
  match v with
  | JStr t => jsEqb t s
  | _ => false
  end.

(** The callback of [registerData.filter]. *)
Definition matchesEntry (selectedCategory searchTerm : jsstring) (entry : JsValue)
  : outcome bool :=
  matchesCategory <-
    (if jsEqb selectedCategory (lit "all") then Normal true
     else (category <- getProp entry "category";;
           Normal (isTheString category selectedCategory)));;
  title <- getProp entry "title";;
  loweredTitle <- lowered "entry.title" title;;
  matchesSearch <-
    (if includes loweredTitle (toLowerCase searchTerm) then Normal true
     else (number <- getProp entry "number";;
           loweredNumber <- lowered "entry.number" number;;
           Normal (includes loweredNumber (toLowerCase searchTerm))));;
  Normal (matchesCategory && matchesSearch).

Fixpoint filterM {A} (f : A -> outcome bool) (l : list A) : outcome (list A) :=
  match l with
  | [] => Normal []
  | x :: l' =>
      keep <- f x;;
      rest <- filterM f l';;
      Normal (if keep then x :: rest else rest)
  end.

Definition filteredData (registerData : list JsValue)
    (selectedCategory searchTerm : jsstring) : outcome (list JsValue) :=
  filterM (matchesEntry selectedCategory searchTerm) registerData.

(** The rows of the table: [filteredData.slice(0, 500)]. *)
Definition shownRows (filtered : list JsValue) : list JsValue := take 500 filtered.

End View.
End RegisterView.

(** Lower case of the letters A to Z, other code units unchanged. *)
Definition asciiLower (s : jsstring) : jsstring :=
  (fun c => if inRange 65 90 c then c + 32 else c) <$> s.

(** The proxies answer with a profile page. *)
Definition proxiedHost : Host :=
  withNetwork
    (fun url => if isPrefix (lit "https://api.allorigins.win/raw?url=") url
                then Normal (textResponse (lit "profile"))
                else Throw failedToFetch)
    (fun _ => scoreDoc) offline.

Definition numericItem : gmap string JsValue :=
  object [("docket_number", JStr (lit "MC-1"));
          ("carrier_name", JNum (Num 42));
          ("published_date", JStr (lit "2026-02-20"));
          ("category", JStr (lit "REVOCATION"))].

(** The API answers every call with [{ data: { records_count: 0, message } }]. *)
Definition nothingScraped : Host :=
  {| fetch := fetch offline;
     JSON_parse := JSON_parse offline;
     parseFromString := parseFromString offline;
     innerText := innerText offline;
     todayLocaleDate := todayLocaleDate offline;
     nowLocaleString := nowLocaleString offline;
     dateToLocaleDate := dateToLocaleDate offline;
     fetchCarrierFromBackend := fetchCarrierFromBackend offline;
     fetchSafetyFromBackend := fetchSafetyFromBackend offline;
     upsert := upsert offline;
     runQuery := runQuery offline;
     apiInvoke := fun _ _ _ =>
       Normal (JObj (object
         [("data", JObj (object [("records_count", JNum (Num 0));
                                 ("message", JStr (lit "No records"))]))]));
     toNumber := toNumber offline |}.

(** The dates that [datesKnown] offers. *)
Definition knownDates : JsValue :=
  JArr [JObj (object [("fmcsa_date", JStr (lit "2026-02-27"))]);
        JObj (object [("fmcsa_date", JStr (lit "2026-02-20"))])].

(** The API answers every call with [{ data: { dates } }]. *)
Definition datesKnown : Host :=
  {| fetch := fetch offline;
     JSON_parse := JSON_parse offline;
     parseFromString := parseFromString offline;
     innerText := innerText offline;
     todayLocaleDate := todayLocaleDate offline;
     nowLocaleString := nowLocaleString offline;
     dateToLocaleDate := dateToLocaleDate offline;
     fetchCarrierFromBackend := fetchCarrierFromBackend offline;
     fetchSafetyFromBackend := fetchSafetyFromBackend offline;
     upsert := upsert offline;
     runQuery := runQuery offline;
     apiInvoke := fun _ _ _ =>
       Normal (JObj (object [("data", JObj (object [("dates", knownDates)]))]));
     toNumber := toNumber offline |}.

(** * Properties *)

(** ** Strings *)

Section StringFacts.

Lemma dropWhile_suffix {A} (p : A -> bool) (l : list A) :
  exists pre, l = pre ++ dropWhile p l.
Proof.
  induction l as [|x l IH]; simpl.
  - exists []. reflexivity.
  - destruct (p x).
    + destruct IH as [pre Hpre]. exists (x :: pre). simpl. congruence.
    + exists []. reflexivity.
Qed.

Lemma dropWhile_head {A} (p : A -> bool) (l : list A) (x : A) :
  head (dropWhile p l) = Some x -> p x = false.
Proof.
  induction l as [|y l IH]; simpl; [discriminate|].
  destruct (p y) eqn:Hy; [exact IH|].
  simpl. intros [= ->]. exact Hy.
Qed.

Lemma dropWhile_id {A} (p : A -> bool) (l : list A) :
  (forall x, head l = Some x -> p x = false) -> dropWhile p l = l.
Proof.
  destruct l as [|y l]; simpl; [reflexivity|].
  intros Hh. rewrite (Hh y eq_refl). reflexivity.
Qed.

Lemma trimStart_suffix (s : jsstring) : exists pre, s = pre ++ trimStart s.
Proof. apply dropWhile_suffix. Qed.

Lemma trimEnd_prefix (s : jsstring) : exists post, s = trimEnd s ++ post.
Proof.
  unfold trimEnd.
  destruct (dropWhile_suffix isWhiteSpace (reverse s)) as [pre Hpre].
  exists (reverse pre).
  rewrite <- reverse_app, <- Hpre, reverse_involutive. reflexivity.
Qed.

Lemma trimEnd_last (s : jsstring) (c : Z) :
  last (trimEnd s) = Some c -> isWhiteSpace c = false.
Proof.
  unfold trimEnd. rewrite last_reverse. apply dropWhile_head.
Qed.

Lemma trimEnd_id (s : jsstring) :
  (forall c, last s = Some c -> isWhiteSpace c = false) -> trimEnd s = s.
Proof.
  intros Hl. unfold trimEnd. rewrite dropWhile_id.
  - apply reverse_involutive.
  - intros x Hx. apply Hl. rewrite <- Hx, head_reverse. reflexivity.
Qed.

Lemma trim_sub (s : jsstring) : exists pre post, s = pre ++ trim s ++ post.
Proof.
  unfold trim.
  destruct (trimStart_suffix s) as [pre Hpre].
  destruct (trimEnd_prefix (trimStart s)) as [post Hpost].
  exists pre, post. rewrite <- Hpost. exact Hpre.
Qed.

Lemma trim_head (s : jsstring) (c : Z) :
  head (trim s) = Some c -> isWhiteSpace c = false.
Proof.
  unfold trim. intros Hh.
  destruct (trimEnd_prefix (trimStart s)) as [post Hpost].
  apply (dropWhile_head isWhiteSpace s). fold (trimStart s).
  rewrite Hpost. destruct (trimEnd (trimStart s)); [discriminate|exact Hh].
Qed.

Lemma trim_last (s : jsstring) (c : Z) :
  last (trim s) = Some c -> isWhiteSpace c = false.
Proof. apply trimEnd_last. Qed.

Lemma trim_id (s : jsstring) :
  (forall c, head s = Some c -> isWhiteSpace c = false) ->
  (forall c, last s = Some c -> isWhiteSpace c = false) ->
  trim s = s.
Proof.
  intros Hh Hl. unfold trim, trimStart.
  rewrite (dropWhile_id _ _ Hh). apply trimEnd_id, Hl.
Qed.

Lemma noWsPair_app_r (a b : jsstring) : noWsPair (a ++ b) -> noWsPair b.
Proof.
  induction a as [|x a IH]; simpl; [tauto|]. intros [_ Hr]. auto.
Qed.

Lemma noWsPair_app_l (a b : jsstring) : noWsPair (a ++ b) -> noWsPair a.
Proof.
  induction a as [|x a IH]; simpl; [tauto|]. intros [Hx Hr]. split; [|auto].
  destruct a; simpl in *; [exact I|exact Hx].
Qed.

Lemma noWsPair_lookup (s : jsstring) (i : nat) (a b : Z) :
  noWsPair s -> s !! i = Some a -> s !! S i = Some b ->
  isWhiteSpace a && isWhiteSpace b = false.
Proof.
  revert i. induction s as [|x s IH]; intros i Hs Ha Hb; [discriminate|].
  destruct i as [|i]; simpl in *.
  - destruct s as [|y s]; [discriminate|]. simpl in Hb.
    injection Ha as ->. injection Hb as ->. tauto.
  - apply (IH i); tauto.
Qed.

Lemma collapseFrom_ws (b : bool) (s : jsstring) (c : Z) :
  c ∈ collapseFrom b s -> isWhiteSpace c = true -> c = 32.
Proof.
  revert b. induction s as [|x s IH]; intros b; simpl.
  - intros Hin. inversion Hin.
  - destruct (isWhiteSpace x) eqn:Hx.
    + destruct b; [apply IH|].
      intros [->|Hin]%elem_of_cons; [reflexivity|]. eapply IH, Hin.
    + intros [->|Hin]%elem_of_cons; [congruence|]. eapply IH, Hin.
Qed.

Lemma collapseFrom_shape (b : bool) (s : jsstring) :
  noWsPair (collapseFrom b s) /\
  (b = true -> forall c, head (collapseFrom b s) = Some c -> isWhiteSpace c = false).
Proof.
  revert b. induction s as [|x s IH]; intros b; simpl.
  - split; [exact I|discriminate].
  - destruct (isWhiteSpace x) eqn:Hx.
    + destruct b.
      * apply IH.
      * split; [|discriminate]. simpl.
        destruct (IH true) as [Hn Hh]. split; [|exact Hn].
        destruct (collapseFrom true s) as [|y t] eqn:Ht; [exact I|].
        rewrite (Hh eq_refl y eq_refl). reflexivity.
    + split.
      * simpl. destruct (IH false) as [Hn _]. split; [|exact Hn].
        destruct (collapseFrom false s); [exact I|]. rewrite Hx. reflexivity.
      * intros _ c [= <-]. exact Hx.
Qed.

Lemma collapseFrom_id (b : bool) (s : jsstring) :
  (forall c, c ∈ s -> isWhiteSpace c = true -> c = 32) ->
  noWsPair s ->
  (b = true -> forall c, head s = Some c -> isWhiteSpace c = false) ->
  collapseFrom b s = s.
Proof.
  revert b. induction s as [|x s IH]; intros b Hws Hn Hh; simpl; [reflexivity|].
  simpl in Hn. destruct Hn as [Hx Hn].
  assert (Hws' : forall c, c ∈ s -> isWhiteSpace c = true -> c = 32).
  { intros c Hc. apply Hws. right. exact Hc. }
  destruct (isWhiteSpace x) eqn:Ex.
  - destruct b.
    + rewrite (Hh eq_refl x eq_refl) in Ex. discriminate.
    + rewrite (Hws x) by (left || exact Ex). f_equal.
      apply IH; [exact Hws'|exact Hn|].
      intros _ c Hc. destruct s as [|y s]; [discriminate|].
      injection Hc as ->. simpl in Hx. exact Hx.
  - f_equal. apply IH; [exact Hws'|exact Hn|discriminate].
Qed.

Lemma replaceChar_cons (c d x : Z) (s : jsstring) :
  replaceChar c d (x :: s) = (if x =? c then d else x) :: replaceChar c d s.
Proof. reflexivity. Qed.

Lemma replaceChar_id (c d : Z) (s : jsstring) :
  c ∉ s -> replaceChar c d s = s.
Proof.
  induction s as [|x s IH]; intros Hc; [reflexivity|].
  rewrite replaceChar_cons, IH by (intros Hin; apply Hc; right; exact Hin).
  destruct (Z.eqb_spec x c) as [->|]; [|reflexivity].
  exfalso. apply Hc. left.
Qed.

Lemma replaceChar_notin (c d : Z) (s : jsstring) :
  c <> d -> c ∉ replaceChar c d s.
Proof.
  intros Hcd. induction s as [|x s IH].
  - apply not_elem_of_nil.
  - rewrite replaceChar_cons. intros [Heq|Hin]%elem_of_cons; [|exact (IH Hin)].
    destruct (Z.eqb_spec x c); congruence.
Qed.

Lemma cleaned_nil : cleaned [].
Proof.
  repeat split; try discriminate. intros c Hc. inversion Hc.
Qed.

Lemma trim_collapse_cleaned (s : jsstring) : cleaned (trim (collapseSpaces s)).
Proof.
  destruct (trim_sub (collapseSpaces s)) as (pre & post & Hsub).
  repeat split.
  - intros c Hc. apply (collapseFrom_ws false s). fold (collapseSpaces s).
    rewrite Hsub. rewrite !elem_of_app. tauto.
  - destruct (collapseFrom_shape false s) as [Hn _]. fold (collapseSpaces s) in Hn.
    rewrite Hsub in Hn. eapply noWsPair_app_l, noWsPair_app_r, Hn.
  - apply trim_head.
  - apply trim_last.
Qed.

Lemma cleanText_cleaned (text : JsText) : cleaned (cleanText text).
Proof.
  destruct text as [| |[|c s]]; simpl; try apply cleaned_nil.
  apply trim_collapse_cleaned.
Qed.

Lemma cleaned_fixed (s : jsstring) : cleaned s -> cleanText (TStr s) = s.
Proof.
  intros (Hws & Hn & Hh & Hl). destruct s as [|c s]; [reflexivity|].
  unfold cleanText.
  assert (H160 : 160 ∉ c :: s).
  { intros Hin. specialize (Hws 160 Hin eq_refl). discriminate. }
  assert (H10 : 10 ∉ c :: s).
  { intros Hin. specialize (Hws 10 Hin eq_refl). discriminate. }
  rewrite (replaceChar_id 160), (replaceChar_id 10) by assumption.
  unfold collapseSpaces. rewrite collapseFrom_id; [|assumption|assumption|discriminate].
  apply trim_id; assumption.
Qed.

End StringFacts.

(** C8.  [cleanText] is a total normalizer and idempotent: null and undefined
    give the empty string; the output of any input holds no non-breaking
    space (160) and no newline (10), never two spaces in a row, no white
    space at its start or end; and cleaning the output again returns it
    unchanged. *)
Theorem cleanText_total_idempotent (text : JsText) :
  cleanText TNull = [] /\ cleanText TUndefined = [] /\
  (160 ∉ cleanText text) /\ (10 ∉ cleanText text) /\
  (forall i, cleanText text !! i = Some 32 -> cleanText text !! S i <> Some 32) /\
  (forall c, head (cleanText text) = Some c -> isWhiteSpace c = false) /\
  (forall c, last (cleanText text) = Some c -> isWhiteSpace c = false) /\
  cleanText (TStr (cleanText text)) = cleanText text.
Proof.
  pose proof (cleanText_cleaned text) as Hc.
  split; [reflexivity|]. split; [reflexivity|].
  destruct Hc as (Hws & Hn & Hh & Hl).
  split; [|split; [|split; [|split; [exact Hh|split; [exact Hl|]]]]].
  - intros Hin. specialize (Hws 160 Hin eq_refl). discriminate.
  - intros Hin. specialize (Hws 10 Hin eq_refl). discriminate.
  - intros i Hi Hsi.
    pose proof (noWsPair_lookup _ i 32 32 Hn Hi Hsi) as Hp. discriminate.
  - apply cleaned_fixed. repeat split; assumption.
Qed.

Lemma cleanText_total_idempotent_witness :
  cleanText (TStr ([32; 160] ++ lit "A" ++ [10; 9; 32] ++ lit "B" ++ [13])) = lit "A B" /\
  cleanText (TStr (lit "A B")) = lit "A B" /\
  cleanText (TStr (lit "A B")) !! 2%nat <> Some 32.
Proof.
  destruct (cleanText_total_idempotent
              (TStr ([32; 160] ++ lit "A" ++ [10; 9; 32] ++ lit "B" ++ [13])))
    as (_ & _ & _ & _ & Hpair & _ & _ & Hfix).
  split; [reflexivity|]. split; [exact Hfix|].
  apply (Hpair 1%nat). reflexivity.
Defined.

(** ** [cfDecodeEmail] *)

Section Decode.

Lemma cfLoop_step (encoded : jsstring) (r : number) (n : nat) (email : jsstring) :
  cfLoop encoded r n email =
  if decide (n < length encoded)%nat
  then cfLoop encoded r (n + 2) (email ++ [cfChar encoded r n])
  else email.
Proof.
  rewrite cfLoop_equation_1. destruct (decide (n < length encoded)%nat); reflexivity.
Qed.

Lemma cfIterations_step (encoded : jsstring) (n : nat) :
  (n < length encoded)%nat ->
  cfIterations encoded n = S (cfIterations encoded (n + 2)).
Proof.
  intros Hn. unfold cfIterations.
  destruct (decide (length encoded = n + 1)%nat) as [Heq|Hne].
  - replace (length encoded - n + 1)%nat with 2%nat by lia.
    replace (length encoded - (n + 2) + 1)%nat with 1%nat by lia. reflexivity.
  - replace (length encoded - n + 1)%nat
      with (length encoded - (n + 2) + 1 + 1 * 2)%nat by lia.
    rewrite Nat.div_add by lia. lia.
Qed.

Lemma cfIterations_done (encoded : jsstring) (n : nat) :
  ~ (n < length encoded)%nat -> cfIterations encoded n = 0%nat.
Proof.
  intros Hn. unfold cfIterations.
  replace (length encoded - n + 1)%nat with 1%nat by lia. reflexivity.
Qed.

(** The loop in closed form: one code unit for every second index. *)
Lemma cfLoop_closed (encoded : jsstring) (r : number) (n : nat) (email : jsstring) :
  cfLoop encoded r n email =
  email ++ ((fun i => cfChar encoded r (n + 2 * i)) <$> seq 0 (cfIterations encoded n)).
Proof.
  remember (length encoded - n)%nat as k eqn:Hk.
  revert n email Hk. induction k as [k IH] using lt_wf_ind. intros n email Hk.
  rewrite cfLoop_step. destruct (decide (n < length encoded)%nat) as [Hlt|Hge].
  - rewrite (IH (length encoded - (n + 2))%nat) by lia.
    rewrite (cfIterations_step _ _ Hlt). simpl seq. rewrite fmap_cons.
    rewrite <- app_assoc. simpl. f_equal. f_equal.
    + f_equal. lia.
    + rewrite <- seq_shift, <- list_fmap_compose.
      apply list_fmap_ext. intros _ i _. simpl. f_equal. lia.
  - rewrite (cfIterations_done _ _ Hge). simpl. rewrite app_nil_r. reflexivity.
Qed.

Lemma toInt32_small (z : Z) :
  -2147483648 <= z < 2147483648 -> toInt32 (Num z) = z.
Proof. intros Hz. unfold toInt32. rewrite Z.mod_small; lia. Qed.

Lemma bitXor_NaN_r (x : number) : bitXor x NaN = bitXor x (Num 0).
Proof. reflexivity. Qed.

Lemma lxor_byte (a b : Z) :
  0 <= a < 256 -> 0 <= b < 256 -> 0 <= Z.lxor a b < 256.
Proof.
  intros Ha Hb.
  assert (Hnn : 0 <= Z.lxor a b) by (apply Z.lxor_nonneg; lia).
  split; [exact Hnn|].
  destruct (Z.eq_dec (Z.lxor a b) 0) as [->|Hne]; [lia|].
  change 256 with (2 ^ 8). apply Z.log2_lt_pow2; [lia|].
  pose proof (Z.log2_lxor a b ltac:(lia) ltac:(lia)) as Hl.
  assert (Hla : Z.log2 a < 8).
  { destruct (Z.eq_dec a 0) as [->|]; [reflexivity|].
    apply Z.log2_lt_pow2; [lia|]. change (2 ^ 8) with 256. lia. }
  assert (Hlb : Z.log2 b < 8).
  { destruct (Z.eq_dec b 0) as [->|]; [reflexivity|].
    apply Z.log2_lt_pow2; [lia|]. change (2 ^ 8) with 256. lia. }
  lia.
Qed.

Lemma lxor_cancel (c r : Z) : Z.lxor (Z.lxor c r) r = c.
Proof. rewrite Z.lxor_assoc, Z.lxor_nilpotent, Z.lxor_0_r. reflexivity. Qed.

(** Two hexadecimal digits read back as the byte they render, in either
    case: checked on each of the 256 bytes. *)
Lemma parseInt16_hex2 (upper : bool) (v : Z) :
  0 <= v < 256 -> parseInt16 (hex2 upper v) = Num v.
Proof.
  intros Hv.
  assert (Hall : Forall (fun v => parseInt16 (hex2 upper v) = Num v) (seqZ 0 256)).
  { apply (bool_decide_unpack _). destruct upper; vm_compute; exact I. }
  rewrite Forall_forall in Hall. apply Hall. apply elem_of_seqZ. lia.
Qed.

Lemma cfChar_encoded (upper : bool) (pre rest : jsstring) (r c : Z) :
  0 <= r < 256 -> 0 <= c < 256 ->
  cfChar (pre ++ hex2 upper (Z.lxor c r) ++ rest) (Num r) (length pre) = c.
Proof.
  intros Hr Hc. unfold cfChar, substr.
  rewrite drop_app_length. change (take 2 (hex2 upper (Z.lxor c r) ++ rest))
    with (hex2 upper (Z.lxor c r)).
  pose proof (lxor_byte c r Hc Hr) as Hx.
  rewrite parseInt16_hex2 by exact Hx.
  unfold bitXor. rewrite !toInt32_small by lia. rewrite lxor_cancel.
  unfold fromCharCode, toUint16. apply Z.mod_small. lia.
Qed.

Lemma cfLoop_encoded (upper : bool) (r : Z) (s pre email : jsstring) :
  0 <= r < 256 -> Forall (fun c => 0 <= c < 256) s ->
  cfLoop (pre ++ concat ((fun c => hex2 upper (Z.lxor c r)) <$> s))
    (Num r) (length pre) email
  = email ++ s.
Proof.
  intros Hr Hs. revert pre email.
  induction Hs as [|c s Hc Hs IH]; intros pre email.
  - simpl. rewrite app_nil_r, cfLoop_step.
    destruct (decide (length pre < length pre)%nat); [lia|].
    rewrite app_nil_r. reflexivity.
  - rewrite fmap_cons. cbn [concat]. rewrite cfLoop_step.
    destruct (decide _) as [_|Hge].
    + rewrite cfChar_encoded by assumption.
      rewrite (app_assoc pre).
      replace (length pre + 2)%nat with (length (pre ++ hex2 upper (Z.lxor c r)))
        by (rewrite length_app; reflexivity).
      rewrite IH, <- app_assoc. reflexivity.
    + exfalso. apply Hge. rewrite !length_app. simpl. lia.
Qed.

End Decode.

(** C2.  [cfDecodeEmail] inverts the encoding: for every key byte [r] and
    every string [s] of character codes below 256, decoding the two
    hexadecimal digits of [r] followed by the two hexadecimal digits of
    [c XOR r] for each character [c] of [s] returns exactly [s].  The digits
    may be in lower or in upper case. *)
Theorem cfDecodeEmail_inverts (upper : bool) (r : Z) (s : jsstring) :
  0 <= r < 256 ->
  Forall (fun c => 0 <= c < 256) s ->
  cfDecodeEmail (cfEncodeEmail upper r s) = Normal s.
Proof.
  intros Hr Hs. unfold cfDecodeEmail, cfEncodeEmail, tryCatch. f_equal.
  change (substr (hex2 upper r ++ _) 0 2) with (hex2 upper r).
  rewrite parseInt16_hex2 by exact Hr.
  change 2%nat with (length (hex2 upper r)) at 1.
  apply (cfLoop_encoded upper r s (hex2 upper r) [] Hr Hs).
Qed.

Lemma cfDecodeEmail_inverts_witness :
  cfEncodeEmail false 66 (lit "a@b.o") = lit "422302206c2d" /\
  cfDecodeEmail (lit "422302206c2d") = Normal (lit "a@b.o").
Proof.
  split; [vm_compute; reflexivity|].
  apply (cfDecodeEmail_inverts false 66 (lit "a@b.o")).
  - lia.
  - apply (bool_decide_unpack _). vm_compute. exact I.
Defined.

(** C9.  [cfDecodeEmail] is total and never throws: every input string gives
    a string, of one code unit for each pair of characters after the first
    two; an input of length at most 2 gives the empty string; and when the
    leading two characters are not hexadecimal the key reads as NaN, which
    the xor treats as 0, and a string is returned all the same. *)
Theorem cfDecodeEmail_total (encoded : jsstring) :
  (exists email, cfDecodeEmail encoded = Normal email /\
                 length email = ((length encoded - 1) / 2)%nat) /\
  ((length encoded <= 2)%nat -> cfDecodeEmail encoded = Normal []) /\
  (parseInt16 (substr encoded 0 2) = NaN ->
   cfDecodeEmail encoded = Normal (cfLoop encoded (Num 0) 2 [])).
Proof.
  unfold cfDecodeEmail, tryCatch. repeat split.
  - eexists. split; [reflexivity|].
    rewrite cfLoop_closed, app_nil_l, length_fmap, length_seq.
    unfold cfIterations.
    destruct encoded as [|a [|b encoded]]; [reflexivity..|].
    cbn [length]. f_equal. lia.
  - intros Hlen. f_equal. rewrite cfLoop_step.
    destruct (decide (2 < length encoded)%nat); [lia|reflexivity].
  - intros ->. f_equal. rewrite !cfLoop_closed. reflexivity.
Qed.

Lemma cfDecodeEmail_total_witness :
  cfDecodeEmail (lit "4") = Normal [] /\
  cfDecodeEmail (lit "zz41") = Normal (lit "A").
Proof.
  split.
  - destruct (cfDecodeEmail_total (lit "4")) as (_ & Hshort & _).
    apply Hshort. vm_compute. lia.
  - destruct (cfDecodeEmail_total (lit "zz41")) as (_ & _ & Hnan).
    rewrite Hnan; [|reflexivity].
    rewrite cfLoop_step. simpl. rewrite cfLoop_step. reflexivity.
Defined.

Example encodeURIComponent_sample :
  encodeURIComponent (lit "a b?c=" ++ [233; 8364])
  = Normal (lit "a%20b%3Fc%3D%C3%A9%E2%82%AC").
Proof. vm_compute. reflexivity. Qed.

Example snapshot_elements :
  querySelectorAll snapshotDoc [] (tagSel "th") =
  [[0; 0; 0; 0; 0; 0]; [0; 0; 0; 0; 1; 0]; [0; 0; 0; 0; 2; 1]]%nat.
Proof. vm_compute. reflexivity. Qed.

Example snapshot_lookup :
  findValueByLabel offline snapshotDoc (lit "USDOT Number:") = lit "123" /\
  findValueByLabel offline snapshotDoc (lit "Legal Name:") = lit "ACME TRUCKING" /\
  findValueByLabel offline snapshotDoc (lit "DBA Name:") = [] /\
  findValueByLabel offline snapshotDoc (lit "Phone:") = [] /\
  findMarked snapshotDoc "Cargo Carried" = [lit "General Freight"].
Proof. vm_compute. repeat split; reflexivity. Qed.

(** ** The DOM *)

Section DomFacts.

Lemma find_first {A} (f : A -> bool) (pre post : list A) (x : A) :
  Forall (fun y => f y = false) pre -> f x = true ->
  List.find f (pre ++ x :: post) = Some x.
Proof.
  intros Hpre Hx. induction Hpre as [|y pre Hy _ IH]; simpl.
  - rewrite Hx. reflexivity.
  - rewrite Hy. exact IH.
Qed.

Lemma find_nowhere {A} (f : A -> bool) (l : list A) :
  Forall (fun y => f y = false) l -> List.find f l = None.
Proof.
  intros Hl. induction Hl as [|y l Hy _ IH]; simpl; [reflexivity|].
  rewrite Hy. exact IH.
Qed.

Lemma parentPath_snoc (par : path) (i : nat) : parentPath (par ++ [i]) = par.
Proof.
  unfold parentPath. rewrite length_app. simpl.
  replace (length par + 1 - 1)%nat with (length par) by lia.
  apply take_app_length.
Qed.

Lemma firstElementIndex_some (ns : list Node) (i j : nat) :
  firstElementIndex ns i = Some j ->
  (i <= j)%nat /\
  (exists n, ns !! (j - i)%nat = Some n /\ isElement n = true) /\
  (forall k n, (k < j - i)%nat -> ns !! k = Some n -> isElement n = false).
Proof.
  revert i. induction ns as [|m ns IH]; intros i; simpl; [discriminate|].
  destruct (isElement m) eqn:Hm.
  - intros [= <-]. split; [lia|]. rewrite Nat.sub_diag. split.
    + exists m. split; [reflexivity|exact Hm].
    + intros k n Hk. lia.
  - intros Hj. destruct (IH _ Hj) as (Hle & (n & Hn & He) & Hbefore).
    split; [lia|]. split.
    + exists n. split; [|exact He].
      replace (j - i)%nat with (S (j - S i)) by lia. exact Hn.
    + intros k n' Hk Hlk. destruct k as [|k].
      * simpl in Hlk. injection Hlk as <-. exact Hm.
      * simpl in Hlk. apply (Hbefore k); [lia|exact Hlk].
Qed.

Lemma firstElementIndex_none (ns : list Node) (i : nat) :
  firstElementIndex ns i = None ->
  forall k n, ns !! k = Some n -> isElement n = false.
Proof.
  revert i. induction ns as [|m ns IH]; intros i; simpl.
  - intros _ k n Hk. rewrite lookup_nil in Hk. discriminate.
  - destruct (isElement m) eqn:Hm; [discriminate|].
    intros Hnone [|k] n Hk; simpl in Hk.
    + injection Hk as <-. exact Hm.
    + exact (IH _ Hnone k n Hk).
Qed.

(** [nextElementSibling] is the nearest later sibling that is an element. *)
Lemma nextElementSibling_some (doc : Document) (p q : path) :
  nextElementSibling doc p = Some q -> immediatelyFollows doc p q.
Proof.
  unfold nextElementSibling. destruct (last p) as [i|] eqn:Hlast; [|discriminate].
  apply last_Some in Hlast as [par ->]. rewrite parentPath_snoc.
  destruct (firstElementIndex _ _) as [j|] eqn:Hj; [|discriminate].
  intros [= <-]. apply firstElementIndex_some in Hj as (Hle & (n & Hn & He) & Hbefore).
  exists par, i, j. repeat split; [lia| |].
  - exists n. split; [|exact He]. rewrite lookup_drop in Hn.
    replace (S i + (j - S i))%nat with j in Hn by lia. exact Hn.
  - intros k m Hk Hm. apply (Hbefore (k - S i)%nat); [lia|].
    rewrite lookup_drop. replace (S i + (k - S i))%nat with k by lia. exact Hm.
Qed.

Lemma nextElementSibling_none (doc : Document) (p : path) :
  nextElementSibling doc p = None -> noFollowingElement doc p.
Proof.
  unfold nextElementSibling. intros Hnone par i k n -> Hk Hn.
  rewrite last_snoc, parentPath_snoc in Hnone.
  destruct (firstElementIndex _ _) eqn:Hj; [discriminate|].
  apply (firstElementIndex_none _ _ Hj (k - S i)%nat).
  rewrite lookup_drop. replace (S i + (k - S i))%nat with k by lia. exact Hn.
Qed.

(** What a tag selector selects is an element of that tag. *)
Lemma querySelectorAll_tag (doc : Document) (scope p : path) (t : string) :
  p ∈ querySelectorAll doc scope (tagSel t) ->
  exists attrs cs, nodeAt doc p = Some (Element t attrs cs).
Proof.
  unfold querySelectorAll. rewrite list_elem_of_filter. intros [Hm _].
  apply Is_true_eq_true in Hm. apply andb_true_iff in Hm as [_ Hm].
  unfold matchSelector, tagSel in Hm. simpl in Hm.
  rewrite orb_false_r, andb_true_r in Hm. unfold matchCompound in Hm.
  destruct (nodeAt doc p) as [[| |tag attrs cs]|]; simpl in Hm; try discriminate.
  rewrite andb_true_r in Hm. apply String.eqb_eq in Hm as ->.
  exists attrs, cs. reflexivity.
Qed.

End DomFacts.

(** C7.  [findValueByLabel] returns the cleaned text of the cell immediately
    following the first table-header cell whose cleaned text contains the
    label, and the empty string when no header cell contains the label or the
    first one that does has no following sibling element.  The header cells
    are the [th] elements in document order; the text of the cell is its
    [innerText], or its [textContent] when that is empty. *)
Theorem findValueByLabel_first_header (H : Host) (doc : Document) (label : jsstring) :
  (forall th, th ∈ querySelectorAll doc [] (tagSel "th") ->
     exists attrs cs, nodeAt doc th = Some (Element "th" attrs cs)) /\
  (forall pre th post,
     querySelectorAll doc [] (tagSel "th") = pre ++ th :: post ->
     Forall (fun t => holdsLabel doc label t = false) pre ->
     holdsLabel doc label th = true ->
     (forall cell, nextElementSibling doc th = Some cell ->
        immediatelyFollows doc th cell /\
        findValueByLabel H doc label = cleanText (TStr (cellText H doc cell))) /\
     (nextElementSibling doc th = None ->
        noFollowingElement doc th /\ findValueByLabel H doc label = [])) /\
  (Forall (fun t => holdsLabel doc label t = false)
     (querySelectorAll doc [] (tagSel "th")) ->
   findValueByLabel H doc label = []).
Proof.
  split; [|split].
  - intros th. apply querySelectorAll_tag.
  - intros pre th post Hths Hpre Hth.
    assert (Hfind : List.find (holdsLabel doc label)
                      (querySelectorAll doc [] (tagSel "th")) = Some th).
    { rewrite Hths. apply find_first; assumption. }
    unfold findValueByLabel. fold (holdsLabel doc label). rewrite Hfind. split.
    + intros cell Hcell. rewrite Hcell. split; [|reflexivity].
      apply nextElementSibling_some, Hcell.
    + intros Hnone. rewrite Hnone. split; [|reflexivity].
      apply nextElementSibling_none, Hnone.
  - intros Hnone. unfold findValueByLabel. fold (holdsLabel doc label).
    rewrite (find_nowhere _ _ Hnone). reflexivity.
Qed.

Lemma findValueByLabel_first_header_witness :
  findValueByLabel offline snapshotDoc (lit "Legal Name:") = lit "ACME TRUCKING" /\
  findValueByLabel offline snapshotDoc (lit "DBA Name:") = [] /\
  findValueByLabel offline snapshotDoc (lit "Phone:") = [].
Proof.
  destruct (findValueByLabel_first_header offline snapshotDoc (lit "Legal Name:"))
    as (_ & Hhit & _).
  destruct (findValueByLabel_first_header offline snapshotDoc (lit "DBA Name:"))
    as (_ & Hlast & _).
  destruct (findValueByLabel_first_header offline snapshotDoc (lit "Phone:"))
    as (_ & _ & Hmiss).
  split; [|split].
  - destruct (Hhit [[0; 0; 0; 0; 0; 0]] [0; 0; 0; 0; 1; 0] [[0; 0; 0; 0; 2; 1]])%nat
      as [Hcell _].
    + vm_compute. reflexivity.
    + apply (bool_decide_unpack _). vm_compute. exact I.
    + vm_compute. reflexivity.
    + destruct (Hcell [0; 0; 0; 0; 1; 1]%nat) as [_ ->]; vm_compute; reflexivity.
  - destruct (Hlast [[0; 0; 0; 0; 0; 0]; [0; 0; 0; 0; 1; 0]] [0; 0; 0; 0; 2; 1] [])%nat
      as [_ Hend].
    + vm_compute. reflexivity.
    + apply (bool_decide_unpack _). vm_compute. exact I.
    + vm_compute. reflexivity.
    + apply Hend. vm_compute. reflexivity.
  - apply Hmiss. apply (bool_decide_unpack _). vm_compute. exact I.
Defined.

(** ** The network layer *)

Section Network.
Context (H : Host).

Lemma tryCatch_returns {A} (body : outcome A) (handler : JsError -> outcome A) :
  (forall e, returns (handler e)) -> returns (tryCatch body handler).
Proof.
  intros Hh. destruct body as [a|e]; simpl; [exists a; reflexivity|apply Hh].
Qed.

Lemma returns_Normal {A} (a : A) : returns (Normal a).
Proof. exists a. reflexivity. Qed.

Lemma directAttempt_returns (targetUrl : jsstring) :
  returns (directAttempt H targetUrl).
Proof. apply tryCatch_returns. intros e. apply returns_Normal. Qed.

Lemma directAttempt_fails (targetUrl : jsstring) :
  directFails H targetUrl ->
  directAttempt H targetUrl = Normal (Some JNull) \/
  directAttempt H targetUrl = Normal None.
Proof.
  unfold directFails, directAttempt, directBody.
  destruct (fetch H targetUrl) as [response|e]; simpl; [|left; reflexivity].
  intros [Hok|[e He]].
  - rewrite Hok. right. reflexivity.
  - destruct (resp_ok response); [|right; reflexivity]. left.
    destruct (from_option _ _ _).
    + rewrite He. reflexivity.
    + destruct (resp_text response); [discriminate|reflexivity].
Qed.

Lemma proxyAttempt_returns (g : jsstring -> outcome jsstring) (targetUrl : jsstring) :
  returns (proxyAttempt H g targetUrl).
Proof. apply tryCatch_returns. intros e. apply returns_Normal. Qed.

Lemma proxyAttempt_fails (g : jsstring -> outcome jsstring) (targetUrl : jsstring) :
  proxyFails H (g targetUrl) -> proxyAttempt H g targetUrl = Normal None.
Proof.
  unfold proxyFails, requestFails, proxyAttempt.
  destruct (g targetUrl) as [url|e]; simpl; [|reflexivity].
  destruct (fetch H url) as [response|e]; simpl; [|reflexivity].
  intros [Hok|[e He]].
  - rewrite Hok. reflexivity.
  - rewrite He. destruct (resp_ok response); reflexivity.
Qed.

Lemma proxyAttempt_answers (g : jsstring -> outcome jsstring)
    (targetUrl url text : jsstring) (response : Response) :
  g targetUrl = Normal url -> fetch H url = Normal response ->
  resp_ok response = true -> resp_text response = Normal text ->
  proxyAttempt H g targetUrl = Normal (Some (parsedOrText H text)).
Proof.
  intros Hg Hf Hok Ht. unfold proxyAttempt, parsedOrText.
  rewrite Hg. simpl. rewrite Hf. simpl. rewrite Hok, Ht. simpl.
  destruct (JSON_parse H text); reflexivity.
Qed.

Lemma proxyLoop_returns (gens : list (jsstring -> outcome jsstring))
    (targetUrl : jsstring) :
  returns (proxyLoop H gens targetUrl).
Proof.
  induction gens as [|g gens IH]; simpl; [apply returns_Normal|].
  destruct (proxyAttempt_returns g targetUrl) as [[v|] ->]; simpl.
  - apply returns_Normal.
  - exact IH.
Qed.

Lemma fetchUrl_returns (targetUrl : jsstring) (useProxy : bool) :
  returns (fetchUrl H targetUrl useProxy).
Proof.
  unfold fetchUrl. destruct useProxy; cbn [negb bind].
  - apply proxyLoop_returns.
  - destruct (directAttempt_returns targetUrl) as [[v|] ->]; cbn [bind].
    + apply returns_Normal.
    + apply proxyLoop_returns.
Qed.

Lemma fetchUrl_proxies_fail (targetUrl : jsstring) :
  proxyFails H (allorigins targetUrl) -> proxyFails H (codetabs targetUrl) ->
  fetchUrl H targetUrl true = Normal JNull.
Proof.
  intros Ha Hc. unfold fetchUrl. simpl.
  rewrite (proxyAttempt_fails allorigins), (proxyAttempt_fails codetabs) by assumption.
  reflexivity.
Qed.

End Network.

(** C3, as the code has it.  When [useProxy] is false and the direct request
    throws, [fetchUrl] returns null at once, without trying a proxy; when the
    direct response is ok it returns its body, or null when reading the body
    throws; when it is not ok it goes on as with [useProxy] true.  With
    [useProxy] true it asks allorigins, and codetabs when allorigins failed,
    and returns the parsed JSON, or else the text, of the first that answers.
    When every request made has failed it returns null. *)
Theorem fetchUrl_recovery (H : Host) (targetUrl : jsstring) :
  (forall e, fetch H targetUrl = Throw e ->
     fetchUrl H targetUrl false = Normal JNull) /\
  (forall response,
     fetch H targetUrl = Normal response -> resp_ok response = true ->
     fetchUrl H targetUrl false
     = match directBody response with
       | Normal v => Normal v
       | Throw _ => Normal JNull
       end) /\
  (forall response, fetch H targetUrl = Normal response ->
     resp_ok response = false ->
     fetchUrl H targetUrl false = fetchUrl H targetUrl true) /\
  (forall url response text,
     allorigins targetUrl = Normal url -> fetch H url = Normal response ->
     resp_ok response = true -> resp_text response = Normal text ->
     fetchUrl H targetUrl true = Normal (parsedOrText H text)) /\
  (forall url response text,
     proxyFails H (allorigins targetUrl) ->
     codetabs targetUrl = Normal url -> fetch H url = Normal response ->
     resp_ok response = true -> resp_text response = Normal text ->
     fetchUrl H targetUrl true = Normal (parsedOrText H text)) /\
  (proxyFails H (allorigins targetUrl) -> proxyFails H (codetabs targetUrl) ->
     fetchUrl H targetUrl true = Normal JNull) /\
  (directFails H targetUrl ->
     proxyFails H (allorigins targetUrl) -> proxyFails H (codetabs targetUrl) ->
     fetchUrl H targetUrl false = Normal JNull).
Proof.
  repeat split.
  - intros e He. unfold fetchUrl, directAttempt. rewrite He. reflexivity.
  - intros response Hf Hok. unfold fetchUrl, directAttempt, directBody.
    rewrite Hf. simpl. rewrite Hok.
    destruct (from_option _ _ _).
    + destruct (resp_json response); reflexivity.
    + destruct (resp_text response); reflexivity.
  - intros response Hf Hok. unfold fetchUrl, directAttempt. rewrite Hf. simpl.
    rewrite Hok. reflexivity.
  - intros url response text Hg Hf Hok Ht. unfold fetchUrl. simpl.
    rewrite (proxyAttempt_answers H allorigins _ _ _ _ Hg Hf Hok Ht). reflexivity.
  - intros url response text Ha Hg Hf Hok Ht. unfold fetchUrl. simpl.
    rewrite (proxyAttempt_fails H allorigins _ Ha). simpl.
    rewrite (proxyAttempt_answers H codetabs _ _ _ _ Hg Hf Hok Ht). reflexivity.
  - apply fetchUrl_proxies_fail.
  - intros Hd Ha Hc. pose proof (fetchUrl_proxies_fail H targetUrl Ha Hc) as Hp.
    unfold fetchUrl in *. simpl in *.
    destruct (directAttempt_fails H targetUrl Hd) as [-> | ->]; simpl;
      [reflexivity|exact Hp].
Qed.

Lemma fetchUrl_recovery_witness :
  fetchUrl offline (lit "page") false = Normal JNull /\
  fetchUrl behindProxy (lit "page") true = Normal (JStr (lit "hello")) /\
  fetchUrl offline (lit "page") true = Normal JNull.
Proof.
  destruct (fetchUrl_recovery offline (lit "page"))
    as (Hthrow & _ & _ & _ & _ & Hnone & _).
  destruct (fetchUrl_recovery behindProxy (lit "page")) as (_ & _ & _ & Hfirst & _).
  split; [|split].
  - apply (Hthrow failedToFetch). reflexivity.
  - apply (Hfirst (lit "https://api.allorigins.win/raw?url=page")
             (textResponse (lit "hello")) (lit "hello")); reflexivity.
  - apply Hnone; exact I.
Defined.

(** C3 as stated fails: the direct request throws, the first proxy of the
    chain would answer, and [fetchUrl] returns null without asking it. *)
Lemma fetchUrl_direct_throw_skips_proxies :
  fetch behindProxy (lit "page") = Throw failedToFetch /\
  fetchUrl behindProxy (lit "page") true = Normal (JStr (lit "hello")) /\
  fetchUrl behindProxy (lit "page") false = Normal JNull /\
  fetchUrl behindProxy (lit "page") false <> fetchUrl behindProxy (lit "page") true.
Proof.
  repeat split; try (vm_compute; reflexivity).
  vm_compute. discriminate.
Qed.

(** ** Failures of the scrapers and loaders *)

Section Failures.
Context (H : Host).

Lemma bind_returns {A B} (c : outcome A) (k : A -> outcome B) :
  returns c -> (forall a, returns (k a)) -> returns (bind c k).
Proof. intros [a ->] Hk. apply Hk. Qed.

Lemma cfDecodeEmail_returns (encoded : jsstring) : returns (cfDecodeEmail encoded).
Proof. eexists. reflexivity. Qed.

Lemma emailOfLabel_returns (doc : Document) (label : path) :
  returns (emailOfLabel doc label).
Proof.
  unfold emailOfLabel.
  destruct (includes _ _); [|apply returns_Normal].
  destruct (parentElement label); [|apply returns_Normal].
  destruct (querySelector _ _ _).
  - apply bind_returns; [apply cfDecodeEmail_returns|].
    intros e. apply returns_Normal.
  - destruct (_ && _); apply returns_Normal.
Qed.

Lemma emailFromLabels_returns (doc : Document) (labels : list path) :
  returns (emailFromLabels doc labels).
Proof.
  induction labels as [|label rest IH]; [apply returns_Normal|].
  cbn [emailFromLabels]. apply bind_returns; [apply emailOfLabel_returns|].
  intros [s|]; [apply returns_Normal|exact IH].
Qed.

Lemma fetchCarrierEmailFromSMS_returns (dotNumber : jsstring) (useProxy : bool) :
  returns (fetchCarrierEmailFromSMS H dotNumber useProxy).
Proof.
  unfold fetchCarrierEmailFromSMS. destruct (_ || _); [apply returns_Normal|].
  apply bind_returns; [apply fetchUrl_returns|].
  intros [| | | |s| |]; try apply returns_Normal. apply emailFromLabels_returns.
Qed.


















End Failures.

(** C5.  [scrapeRealCarrier] and [fetchSafetyData] ask the backend first and
    return what it yields whenever it yields something (a truthy value),
    whatever the network would answer; the fallback runs only when the
    backend yields nothing. *)
Theorem backend_first (H : Host) :
  (forall mcNumber useProxy v,
     fetchCarrierFromBackend H mcNumber = Normal v -> truthy v = true ->
     scrapeRealCarrier H mcNumber useProxy = Normal v) /\
  (forall dot v,
     fetchSafetyFromBackend H dot = Normal v -> truthy v = true ->
     fetchSafetyData H dot = Normal v) /\
  (forall mcNumber useProxy v,
     fetchCarrierFromBackend H mcNumber = Normal v -> truthy v = false ->
     scrapeRealCarrier H mcNumber useProxy
     = scrapeRealCarrier_fallback H mcNumber useProxy) /\
  (forall dot v,
     fetchSafetyFromBackend H dot = Normal v -> truthy v = false ->
     fetchSafetyData H dot = fetchSafetyData_fallback H dot).
Proof.
  repeat split.
  - intros mc useProxy v Hb Ht. unfold scrapeRealCarrier. rewrite Hb. simpl.
    rewrite Ht. reflexivity.
  - intros dot v Hb Ht. unfold fetchSafetyData. rewrite Hb. simpl.
    rewrite Ht. reflexivity.
  - intros mc useProxy v Hb Ht. unfold scrapeRealCarrier. rewrite Hb. simpl.
    rewrite Ht. reflexivity.
  - intros dot v Hb Ht. unfold fetchSafetyData. rewrite Hb. simpl.
    rewrite Ht. reflexivity.
Qed.

Lemma backend_first_witness :
  scrapeRealCarrier backedHost (lit "999") false = Normal backendCarrier /\
  fetchSafetyData backedHost (lit "123") = Normal backendSafety /\
  scrapeRealCarrier offline (lit "999") true = Normal JNull.
Proof.
  destruct (backend_first backedHost) as (Hcarrier & Hsafety & _).
  destruct (backend_first offline) as (_ & _ & Hfallback & _).
  split; [|split].
  - apply Hcarrier; reflexivity.
  - apply Hsafety; reflexivity.
  - rewrite (Hfallback (lit "999") true JNull); reflexivity.
Defined.

Example scrape_live :
  exists carrier,
    scrapeRealCarrier liveHost (lit "999") false = Normal (JObj carrier) /\
    carrier !! "dotNumber" = Some (JStr (lit "123")) /\
    carrier !! "legalName" = Some (JStr (lit "ACME TRUCKING")) /\
    carrier !! "email" = Some (JStr (lit "a@b.o")) /\
    carrier !! "cargoCarried" = Some (JArr [JStr (lit "General Freight")]) /\
    carrier !! "phone" = Some (JStr []).
Proof. eexists. split; [vm_compute; reflexivity|]. repeat split. Qed.

(** ** What a failure leaves *)

Section WhatFailureLeaves.
Context (H : Host).


Lemma fetchCarrierEmailFromSMS_no_page (dotNumber : jsstring) (useProxy : bool)
    (result : JsValue) :
  fetchUrl H (registrationUrl dotNumber) useProxy = Normal result ->
  isString result = false ->
  fetchCarrierEmailFromSMS H dotNumber useProxy = Normal [].
Proof.
  intros Hf Hs. unfold fetchCarrierEmailFromSMS.
  destruct (_ || _); [reflexivity|]. cbv zeta. rewrite Hf. cbn [bind].
  destruct result; try reflexivity. discriminate.
Qed.




End WhatFailureLeaves.




(** ** The scraping fallback *)

Section Fallback.
Context (H : Host).

Lemma carrierLiteral_email (doc : Document) (mcNumber : jsstring) :
  carrierLiteral H doc mcNumber !! "email" = Some (JStr []).
Proof. reflexivity. Qed.

Lemma carrierLiteral_labelled (doc : Document) (mcNumber : jsstring) :
  Forall (fun '(prop, label) =>
            carrierLiteral H doc mcNumber !! prop
            = Some (JStr (findValueByLabel H doc (lit label))))
    labelledFields.
Proof. repeat constructor. Qed.

Lemma carrierLiteral_marked (doc : Document) (mcNumber : jsstring) :
  Forall (fun '(prop, summary) =>
            carrierLiteral H doc mcNumber !! prop
            = Some (JArr (JStr <$> findMarked doc summary)))
    markedFields.
Proof. repeat constructor. Qed.

End Fallback.

Section EmailLoop.

Lemma emailFromLabels_first (doc : Document) (before : list path) (label : path)
    (rest : list path) (s : jsstring) :
  Forall (fun l => emailOfLabel doc l = Normal None) before ->
  emailOfLabel doc label = Normal (Some s) ->
  emailFromLabels doc (before ++ label :: rest) = Normal s.
Proof.
  intros Hbefore Hlabel.
  induction Hbefore as [|l before Hl _ IH]; cbn [app emailFromLabels].
  - rewrite Hlabel. reflexivity.
  - rewrite Hl. exact IH.
Qed.

Lemma emailFromLabels_none (doc : Document) (labels : list path) :
  Forall (fun l => emailOfLabel doc l = Normal None) labels ->
  emailFromLabels doc labels = Normal [].
Proof.
  induction 1 as [|l labels Hl _ IH]; cbn [emailFromLabels]; [reflexivity|].
  rewrite Hl. exact IH.
Qed.

Lemma emailOfLabel_skips (doc : Document) (label : path) :
  includes (textContent doc label) (lit "Email:") = false \/
  parentElement label = None ->
  emailOfLabel doc label = Normal None.
Proof.
  unfold emailOfLabel. intros [-> | Hp]; [reflexivity|].
  rewrite Hp. destruct (includes _ _); reflexivity.
Qed.

Lemma emailOfLabel_decodes (doc : Document) (label parent cfEmail : path) :
  includes (textContent doc label) (lit "Email:") = true ->
  parentElement label = Some parent ->
  querySelector doc parent [[[SelHasAttr "data-cfemail"]]] = Some cfEmail ->
  exists s,
    cfDecodeEmail (default [] (getAttribute doc cfEmail "data-cfemail")) = Normal s /\
    emailOfLabel doc label = Normal (Some s).
Proof.
  intros Hinc Hpar Hcf. unfold emailOfLabel. rewrite Hinc, Hpar, Hcf.
  eexists. split; reflexivity.
Qed.

Lemma emailOfLabel_plain (doc : Document) (label parent : path) :
  includes (textContent doc label) (lit "Email:") = true ->
  parentElement label = Some parent ->
  querySelector doc parent [[[SelHasAttr "data-cfemail"]]] = None ->
  emailOfLabel doc label
  = Normal
      (if truthy (JStr (cleanText
                          (TStr (removeFirst (lit "Email:") (textContent doc parent)))))
          && includes (cleanText
                         (TStr (removeFirst (lit "Email:") (textContent doc parent))))
               (lit "@")
       then Some (cleanText
                    (TStr (removeFirst (lit "Email:") (textContent doc parent))))
       else None).
Proof.
  intros Hinc Hpar Hcf. unfold emailOfLabel. rewrite Hinc, Hpar, Hcf. cbv zeta.
  destruct (_ && _); reflexivity.
Qed.

End EmailLoop.

(** C4, as the code has it.  After the backend yielded nothing,
    [scrapeRealCarrier] (a) fetches the snapshot page through [fetchUrl] and
    returns null when no string comes back; (b) parses it and returns null
    when the tree has no [center] element; (c) looks fifteen fields up by
    label and three list fields up by the marks of a summary table; (e)
    shapes the record, with the MC number, the date and an empty email;
    (d) and last sets the email to what [fetchCarrierEmailFromSMS] returns for
    the DOT number found: nothing for an empty or UNKNOWN number or when no
    string comes back of the second fetch, of the registration page, and
    otherwise what the labels of the parsed page give.  The labels are tried
    in document order and the first that yields an address gives the result:
    a label that holds "Email:" and whose parent holds a [data-cfemail]
    element yields the decoded attribute; such a label whose parent holds
    none yields the cleaned text of the parent without its first "Email:"
    when that is not empty and contains "@"; every other label yields
    nothing; and when no label yields, the email is empty. *)
Theorem scrape_fallback_steps (H : Host) (mcNumber : jsstring) (useProxy : bool) :
  (forall html,
     fetchUrl H (snapshotUrl mcNumber) useProxy = Normal html ->
     isString html = false ->
     scrapeRealCarrier_fallback H mcNumber useProxy = Normal JNull) /\
  (forall html,
     fetchUrl H (snapshotUrl mcNumber) useProxy = Normal (JStr html) ->
     querySelector (parseFromString H html) [] (tagSel "center") = None ->
     scrapeRealCarrier_fallback H mcNumber useProxy = Normal JNull) /\
  (forall html,
     fetchUrl H (snapshotUrl mcNumber) useProxy = Normal (JStr html) ->
     is_Some (querySelector (parseFromString H html) [] (tagSel "center")) ->
     exists email,
       fetchCarrierEmailFromSMS H
         (findValueByLabel H (parseFromString H html) (lit "USDOT Number:"))
         useProxy = Normal email /\
       scrapeRealCarrier_fallback H mcNumber useProxy
       = Normal (JObj (<["email" := JStr email]>
                         (carrierLiteral H (parseFromString H html) mcNumber)))) /\
  (forall doc prop label,
     (prop, label) ∈ labelledFields ->
     carrierLiteral H doc mcNumber !! prop
     = Some (JStr (findValueByLabel H doc (lit label)))) /\
  (forall doc prop summary,
     (prop, summary) ∈ markedFields ->
     carrierLiteral H doc mcNumber !! prop
     = Some (JArr (JStr <$> findMarked doc summary))) /\
  (forall doc,
     carrierLiteral H doc mcNumber !! "mcNumber" = Some (JStr mcNumber) /\
     carrierLiteral H doc mcNumber !! "dateScraped" = Some (JStr (todayLocaleDate H)) /\
     carrierLiteral H doc mcNumber !! "email" = Some (JStr [])) /\
  fetchCarrierEmailFromSMS H [] useProxy = Normal [] /\
  fetchCarrierEmailFromSMS H (lit "UNKNOWN") useProxy = Normal [] /\
  (forall dotNumber result,
     fetchUrl H (registrationUrl dotNumber) useProxy = Normal result ->
     isString result = false ->
     fetchCarrierEmailFromSMS H dotNumber useProxy = Normal []) /\
  (forall dotNumber page,
     dotNumber <> [] -> dotNumber <> lit "UNKNOWN" ->
     fetchUrl H (registrationUrl dotNumber) useProxy = Normal (JStr page) ->
     fetchCarrierEmailFromSMS H dotNumber useProxy
     = emailFromLabels (parseFromString H page)
         (querySelectorAll (parseFromString H page) [] (tagSel "label"))) /\
  (forall doc before label rest s,
     Forall (fun l => emailOfLabel doc l = Normal None) before ->
     emailOfLabel doc label = Normal (Some s) ->
     emailFromLabels doc (before ++ label :: rest) = Normal s) /\
  (forall doc labels,
     Forall (fun l => emailOfLabel doc l = Normal None) labels ->
     emailFromLabels doc labels = Normal []) /\
  (forall doc label parent cfEmail,
     includes (textContent doc label) (lit "Email:") = true ->
     parentElement label = Some parent ->
     querySelector doc parent [[[SelHasAttr "data-cfemail"]]] = Some cfEmail ->
     exists s,
       cfDecodeEmail (default [] (getAttribute doc cfEmail "data-cfemail"))
       = Normal s /\
       emailOfLabel doc label = Normal (Some s)) /\
  (forall doc label parent,
     includes (textContent doc label) (lit "Email:") = true ->
     parentElement label = Some parent ->
     querySelector doc parent [[[SelHasAttr "data-cfemail"]]] = None ->
     emailOfLabel doc label
     = Normal
         (if truthy (JStr (cleanText
                             (TStr (removeFirst (lit "Email:")
                                      (textContent doc parent)))))
             && includes (cleanText
                            (TStr (removeFirst (lit "Email:")
                                     (textContent doc parent))))
                  (lit "@")
          then Some (cleanText
                       (TStr (removeFirst (lit "Email:") (textContent doc parent))))
          else None)) /\
  (forall doc label,
     includes (textContent doc label) (lit "Email:") = false \/
     parentElement label = None ->
     emailOfLabel doc label = Normal None).
Proof.
  split.
  { intros html Hf Hs. unfold scrapeRealCarrier_fallback. rewrite Hf. cbn [bind].
    destruct html; try reflexivity. discriminate. }
  split.
  { intros html Hf Hc. unfold scrapeRealCarrier_fallback. rewrite Hf. cbn [bind].
    rewrite Hc. reflexivity. }
  split.
  { intros html Hf [c Hc]. unfold scrapeRealCarrier_fallback. rewrite Hf.
    cbn [bind]. rewrite Hc.
    destruct (truthy (JStr (findValueByLabel H (parseFromString H html)
                              (lit "USDOT Number:")))) eqn:Hdot.
    - destruct (fetchCarrierEmailFromSMS_returns H
                  (findValueByLabel H (parseFromString H html) (lit "USDOT Number:"))
                  useProxy) as [email He].
      exists email. rewrite He. split; reflexivity.
    - exists []. split.
      + destruct (findValueByLabel H (parseFromString H html) (lit "USDOT Number:"));
          [reflexivity|discriminate].
      + rewrite insert_id; [reflexivity|]. apply carrierLiteral_email. }
  split.
  { intros doc prop label Hin.
    pose proof (carrierLiteral_labelled H doc mcNumber) as Hall.
    rewrite Forall_forall in Hall. exact (Hall _ Hin). }
  split.
  { intros doc prop summary Hin.
    pose proof (carrierLiteral_marked H doc mcNumber) as Hall.
    rewrite Forall_forall in Hall. exact (Hall _ Hin). }
  split; [intros doc; repeat split|].
  split; [reflexivity|]. split; [reflexivity|].
  split; [intros dotNumber result; apply fetchCarrierEmailFromSMS_no_page|].
  split.
  { intros dotNumber page Hne Hunk Hf. unfold fetchCarrierEmailFromSMS.
    destruct dotNumber as [|c d]; [congruence|]. unfold jsEqb.
    rewrite (bool_decide_eq_false_2 _ Hunk), (bool_decide_eq_false_2 _ Hne).
    cbn [truthy negb orb]. cbv zeta. rewrite Hf. reflexivity. }
  split; [intros doc before label rest s; apply emailFromLabels_first|].
  split; [intros doc labels; apply emailFromLabels_none|].
  split; [intros doc label parent cfEmail; apply emailOfLabel_decodes|].
  split; [intros doc label parent; apply emailOfLabel_plain|].
  intros doc label; apply emailOfLabel_skips.
Qed.

Lemma scrape_fallback_steps_witness :
  scrapeRealCarrier_fallback bareHost (lit "999") false = Normal JNull /\
  (exists carrier,
     scrapeRealCarrier_fallback liveHost (lit "999") false = Normal (JObj carrier) /\
     carrier !! "email" = Some (JStr (lit "a@b.o"))) /\
  carrierLiteral liveHost snapshotDoc (lit "999") !! "legalName"
  = Some (JStr (lit "ACME TRUCKING")) /\
  fetchCarrierEmailFromSMS liveHost (lit "123") false = Normal (lit "a@b.o") /\
  emailFromLabels mixedSmsDoc [[0; 0]; [1; 0]]%nat = Normal (lit "plain@x.com") /\
  emailFromLabels mixedSmsDoc [[1; 0]%nat] = Normal (lit "a@b.o").
Proof.
  destruct (scrape_fallback_steps bareHost (lit "999") false) as (_ & Hbare & _).
  destruct (scrape_fallback_steps liveHost (lit "999") false)
    as (_ & _ & Hlive & Hlab & _ & _ & _ & _ & _ & Hsms & Hfirst & _ & Hdec
        & Hplain & _).
  split; [|split; [|split; [|split; [|split]]]].
  - apply (Hbare (lit "snapshot")); reflexivity.
  - destruct (Hlive (lit "snapshot")) as (email & Hemail & Hres).
    + reflexivity.
    + eexists. reflexivity.
    + eexists. split; [exact Hres|]. rewrite lookup_insert_eq.
      vm_compute in Hemail. injection Hemail as <-. reflexivity.
  - rewrite (Hlab snapshotDoc "legalName" "Legal Name:").
    + vm_compute. reflexivity.
    + apply (bool_decide_unpack _). vm_compute. exact I.
  - rewrite (Hsms (lit "123") (lit "registration"));
      [|discriminate|discriminate|reflexivity].
    change (emailFromLabels smsDoc ([] ++ [[0; 0; 0; 0]%nat]) = Normal (lit "a@b.o")).
    apply Hfirst; [constructor|].
    destruct (Hdec smsDoc [0; 0; 0; 0] [0; 0; 0] [0; 0; 0; 1; 0])%nat
      as (s & Hs & Hyield); [reflexivity|reflexivity|reflexivity|].
    rewrite Hyield. vm_compute in Hs. injection Hs as <-. reflexivity.
  - apply (Hfirst mixedSmsDoc [] [0; 0]%nat [[1; 0]%nat]); [constructor|].
    rewrite (Hplain mixedSmsDoc [0; 0] [0])%nat; reflexivity.
  - apply (Hfirst mixedSmsDoc [] [1; 0]%nat []); [constructor|].
    destruct (Hdec mixedSmsDoc [1; 0] [1] [1; 1])%nat
      as (s & Hs & Hyield); [reflexivity|reflexivity|reflexivity|].
    rewrite Hyield. vm_compute in Hs. injection Hs as <-. reflexivity.
Defined.

(** C4 as stated fails.  On a page that is fetched and parsed and that holds
    the labelled rows but no [center] element, the linear sequence of the
    claim shapes a record while the code returns null; and on a page whose
    address sits on the registration page, the linear sequence has no email
    while the code fetches that second page and decodes it. *)
Lemma scrape_not_linear :
  scrapeRealCarrier bareHost (lit "999") false = Normal JNull /\
  (exists carrier, scrapeLinear_spec bareHost (lit "999") false = Normal (JObj carrier) /\
                   carrier !! "dotNumber" = Some (JStr (lit "123"))) /\
  (exists carrier, scrapeLinear_spec liveHost (lit "999") false = Normal (JObj carrier) /\
                   carrier !! "email" = Some (JStr [])) /\
  (exists carrier, scrapeRealCarrier liveHost (lit "999") false = Normal (JObj carrier) /\
                   carrier !! "email" = Some (JStr (lit "a@b.o"))) /\
  scrapeRealCarrier bareHost (lit "999") false
  <> scrapeLinear_spec bareHost (lit "999") false.
Proof.
  split; [vm_compute; reflexivity|].
  split; [eexists; split; [vm_compute; reflexivity|reflexivity]|].
  split; [eexists; split; [vm_compute; reflexivity|reflexivity]|].
  split; [eexists; split; [vm_compute; reflexivity|reflexivity]|].
  vm_compute. discriminate.
Qed.

(** ** The storage boundary *)

Section Storage.
Context (H : Host).

Lemma mapM_pure {A B} (f : A -> outcome B) (g : A -> B) (l : list A) :
  (forall x, f x = Normal (g x)) -> mapM f l = Normal (g <$> l).
Proof.
  intros Hf. induction l as [|x l IH]; [reflexivity|].
  cbn [mapM]. rewrite Hf, IH. reflexivity.
Qed.

Lemma mapM_length {A B} (f : A -> outcome B) (l : list A) (l' : list B) :
  mapM f l = Normal l' -> length l' = length l.
Proof.
  revert l'. induction l as [|x l IH]; intros l'; cbn [mapM].
  - intros [= <-]. reflexivity.
  - destruct (f x) as [y|e]; [|discriminate]. cbn [bind].
    destruct (mapM f l) as [ys|e]; [|discriminate]. cbn [bind].
    intros [= <-]. simpl. f_equal. apply IH. reflexivity.
Qed.

Lemma mapM_fmap {A B C} (f : B -> outcome C) (h : A -> B) (l : list A) :
  mapM f (h <$> l) = mapM (f ∘ h) l.
Proof.
  induction l as [|x l IH]; [reflexivity|].
  rewrite fmap_cons. cbn [mapM]. rewrite IH. reflexivity.
Qed.

Lemma readField_object (obj : gmap string JsValue)
    (f : string * string * option JsValue) :
  readField (JObj obj) f = Normal (fieldOf obj f).
Proof. destruct f as [[target name] dflt]. reflexivity. Qed.

Lemma carrierRecord_object (carrier : gmap string JsValue) :
  carrierRecord (JObj carrier) = Normal (object (fieldOf carrier <$> recordFields)).
Proof.
  unfold carrierRecord.
  rewrite (mapM_pure _ (fieldOf carrier)) by apply readField_object. reflexivity.
Qed.

Lemma toCarrier_object (row : gmap string JsValue) :
  toCarrier (JObj row) = Normal (JObj (object (fieldOf row <$> carrierFields))).
Proof.
  unfold toCarrier.
  rewrite (mapM_pure _ (fieldOf row)) by apply readField_object. reflexivity.
Qed.

(** Every column of the record holds what its line of the literal says. *)
Lemma record_columns (carrier : gmap string JsValue) :
  Forall (fun f => object (fieldOf carrier <$> recordFields) !! (fieldOf carrier f).1
                   = Some (fieldOf carrier f).2)
    recordFields.
Proof. repeat constructor. Qed.

Lemma carrier_properties (row : gmap string JsValue) :
  Forall (fun f => object (fieldOf row <$> carrierFields) !! (fieldOf row f).1
                   = Some (fieldOf row f).2)
    carrierFields.
Proof. repeat constructor. Qed.

Lemma optionalScalars_lines :
  Forall (fun '(column, name) => (column, name, Some JNull) ∈ recordFields)
    optionalScalars.
Proof. repeat constructor; listed. Qed.

Lemma listFields_lines :
  Forall (fun '(column, name) =>
            (column, name, Some (JArr [])) ∈ recordFields /\
            (name, column, Some (JArr [])) ∈ carrierFields)
    listFields.
Proof. repeat constructor; listed. Qed.

Lemma orElse_falsy (v d : JsValue) : truthy v = false -> orElse v d = d.
Proof. unfold orElse. intros ->. reflexivity. Qed.

Lemma record_lookup (carrier : gmap string JsValue) (column name : string)
    (dflt : JsValue) :
  (column, name, Some dflt) ∈ recordFields ->
  object (fieldOf carrier <$> recordFields) !! column
  = Some (orElse (prop carrier name) dflt).
Proof.
  intros Hin. pose proof (record_columns carrier) as Hall.
  rewrite Forall_forall in Hall. exact (Hall _ Hin).
Qed.

Lemma carrier_lookup (row : gmap string JsValue) (name column : string)
    (dflt : JsValue) :
  (name, column, Some dflt) ∈ carrierFields ->
  object (fieldOf row <$> carrierFields) !! name
  = Some (orElse (prop row column) dflt).
Proof.
  intros Hin. pose proof (carrier_properties row) as Hall.
  rewrite Forall_forall in Hall. exact (Hall _ Hin).
Qed.

End Storage.

(** C6.  Optional-field defaulting at the storage boundary.  For every
    carrier object, [saveCarrierToSupabase] hands to the upsert on [carriers]
    a record in which each optional scalar property that is absent or falsy
    is null and each list property ([operationClassification],
    [carrierOperation], [cargoCarried]) that is absent (or falsy) is the
    empty array; and [fetchCarriersFromSupabase] returns, for every row, a
    carrier in which each list column that is absent is the empty array. *)
Theorem optional_field_defaulting (H : Host) :
  (forall carrier : gmap string JsValue,
     exists record,
       carrierRecord (JObj carrier) = Normal record /\
       saveCarrierToSupabase H (JObj carrier)
       = tryCatch
           (error <- upsert H "carriers" record "mc_number";;
            Normal {| success := bool_decide (error = None);
                      save_error := message <$> error |})
           (fun err => Normal {| success := false;
                                 save_error := Some (message err) |}) /\
       (forall column name,
          (column, name) ∈ optionalScalars ->
          carrier !! name = None \/ truthy (prop carrier name) = false ->
          record !! column = Some JNull) /\
       (forall column name,
          (column, name) ∈ listFields ->
          carrier !! name = None \/ truthy (prop carrier name) = false ->
          record !! column = Some (JArr []))) /\
  (forall row : gmap string JsValue,
     exists carrier,
       toCarrier (JObj row) = Normal (JObj carrier) /\
       forall column name,
         (column, name) ∈ listFields ->
         row !! column = None \/ truthy (prop row column) = false ->
         carrier !! name = Some (JArr [])) /\
  (forall filters (rows : list (gmap string JsValue)) res,
     runQuery H (carrierQuery filters) = Normal res ->
     q_error res = None -> q_data res = Some (JObj <$> rows) ->
     exists carriers : list (gmap string JsValue),
       fetchCarriersFromSupabase H filters = Normal (JObj <$> carriers) /\
       Forall2 (fun row carrier => toCarrier (JObj row) = Normal (JObj carrier))
         rows carriers).
Proof.
  assert (Hfalsy : forall (obj : gmap string JsValue) name,
            obj !! name = None \/ truthy (prop obj name) = false ->
            truthy (prop obj name) = false).
  { intros obj name [Habs|Hf]; [|exact Hf]. unfold prop. rewrite Habs. reflexivity. }
  split; [|split].
  - intros carrier. exists (object (fieldOf carrier <$> recordFields)).
    split; [apply carrierRecord_object|]. split; [|split].
    + unfold saveCarrierToSupabase. rewrite carrierRecord_object. cbn [bind].
      destruct (upsert H _ _ _) as [[e|]|e]; reflexivity.
    + intros column name Hin Hc.
      pose proof optionalScalars_lines as Hall. rewrite Forall_forall in Hall.
      rewrite (record_lookup carrier column name JNull (Hall _ Hin)).
      rewrite orElse_falsy by (apply Hfalsy, Hc). reflexivity.
    + intros column name Hin Hc.
      pose proof listFields_lines as Hall. rewrite Forall_forall in Hall.
      destruct (Hall _ Hin) as [Hline _].
      rewrite (record_lookup carrier column name (JArr []) Hline).
      rewrite orElse_falsy by (apply Hfalsy, Hc). reflexivity.
  - intros row. exists (object (fieldOf row <$> carrierFields)).
    split; [apply toCarrier_object|].
    intros column name Hin Hc.
    pose proof listFields_lines as Hall. rewrite Forall_forall in Hall.
    destruct (Hall _ Hin) as [_ Hline].
    rewrite (carrier_lookup row name column (JArr []) Hline).
    rewrite orElse_falsy by (apply Hfalsy, Hc). reflexivity.
  - intros filters rows res Hrun Herr Hdata.
    exists ((fun row => object (fieldOf row <$> carrierFields)) <$> rows). split.
    + unfold fetchCarriersFromSupabase. rewrite Hrun. cbn [bind].
      rewrite Herr, Hdata. cbn [default from_option]. unfold id.
      rewrite mapM_fmap, <- list_fmap_compose.
      rewrite (mapM_pure _ (JObj ∘ (fun row => object (fieldOf row <$> carrierFields))));
        [reflexivity|].
      intros row. apply toCarrier_object.
    + apply Forall2_fmap_r, Forall_Forall2_diag, Forall_forall.
      intros row _. apply toCarrier_object.
Qed.

Lemma optional_field_defaulting_witness :
  (exists record,
     carrierRecord (JObj sparseCarrier) = Normal record /\
     record !! "email" = Some JNull /\
     record !! "mailing_address" = Some JNull /\
     record !! "cargo_carried" = Some (JArr []) /\
     record !! "carrier_operation" = Some (JArr [JStr (lit "Interstate")])) /\
  (exists carrier,
     toCarrier (storedRow "3") = Normal (JObj carrier) /\
     carrier !! "cargoCarried" = Some (JArr [])) /\
  (exists carriers,
     fetchCarriersFromSupabase (database threeRows) (limitFilter (Num 2))
     = Normal carriers /\ length carriers = 2%nat).
Proof.
  destruct (optional_field_defaulting (database threeRows)) as (Hsave & Hrow & Hfetch).
  split; [|split].
  - destruct (Hsave sparseCarrier) as (record & Hrec & _ & Hnull & Hlist).
    exists record. split; [exact Hrec|]. split; [|split; [|split]].
    + apply (Hnull "email" "email"); [listed|]. right. reflexivity.
    + apply (Hnull "mailing_address" "mailingAddress"); [listed|].
      left. reflexivity.
    + apply (Hlist "cargo_carried" "cargoCarried"); [listed|].
      left. reflexivity.
    + rewrite carrierRecord_object in Hrec. injection Hrec as <-. reflexivity.
  - destruct (Hrow (object [("mc_number", JStr (lit "3")); ("email", JNull)]))
      as (carrier & Hc & Hlist).
    exists carrier. split; [exact Hc|].
    apply (Hlist "cargo_carried" "cargoCarried"); [listed|]. left. reflexivity.
  - destruct (Hfetch (limitFilter (Num 2))
                [object [("mc_number", JStr (lit "3")); ("email", JNull)];
                 object [("mc_number", JStr (lit "2")); ("email", JNull)]]
                {| q_data := Some (take 2 threeRows); q_error := None |})
      as (carriers & Hres & Hall); [reflexivity..|].
    exists (JObj <$> carriers). split; [exact Hres|].
    rewrite length_fmap. apply Forall2_length in Hall. rewrite <- Hall. reflexivity.
Defined.

(** ** The carrier query *)

Section CarrierQuery.

Lemma carrierQuery_shape (filters : CarrierFilters) :
  exists ops,
    q_ops (carrierQuery filters)
    = ops ++ [QOrder "created_at" false; QLimit (Num (applicableLimit filters))] /\
    forallb isFilterOp ops = true.
Proof.
  unfold carrierQuery. cbn [q_ops].
  match goal with
  | |- context [?q ++ [QOrder "created_at" false]] => set (filtered := q)
  end.
  exists filtered. split.
  - clearbody filtered. unfold applicableLimit, optNum.
    destruct (f_limit filters) as [[n|]|]; cbn [from_option truthy default id].
    + destruct (n =? 0); cbn [negb]; rewrite <- app_assoc; reflexivity.
    + rewrite <- app_assoc; reflexivity.
    + rewrite <- app_assoc; reflexivity.
  - subst filtered.
    repeat match goal with
           | |- context [if ?b then _ else _] => destruct b
           end; reflexivity.
Qed.

Lemma database_honoursLimit (rows : list JsValue) : honoursLimit (database rows).
Proof.
  intros q ops n res rows' Hrun Hdata Hops. simpl in Hrun.
  rewrite Hops, last_snoc in Hrun.
  destruct (n <? 0) eqn:Hn; injection Hrun as <-; simpl in Hdata; [discriminate|].
  injection Hdata as <-. rewrite length_take. apply Z.ltb_ge in Hn. lia.
Qed.

End CarrierQuery.

(** C10, as the code has it.  The query that [fetchCarriersFromSupabase]
    builds ends, after its filters, with the order by [created_at]
    descending and then one row limit: [filters.limit] when that is a
    non-zero number, and 200 when it is absent, zero or NaN.  With a database
    that returns no more rows than the limit it is sent, the list returned
    never has more rows than that limit. *)
Theorem carriers_ordered_and_bounded (H : Host) (filters : CarrierFilters) :
  honoursLimit H ->
  (exists ops,
     q_ops (carrierQuery filters)
     = ops ++ [QOrder "created_at" false; QLimit (Num (applicableLimit filters))] /\
     forallb isFilterOp ops = true) /\
  (forall n, f_limit filters = Some (Num n) -> n <> 0 -> applicableLimit filters = n) /\
  (f_limit filters = None \/ f_limit filters = Some (Num 0) \/
   f_limit filters = Some NaN -> applicableLimit filters = 200) /\
  (exists rows,
     fetchCarriersFromSupabase H filters = Normal rows /\
     Z.of_nat (length rows) <= Z.max 0 (applicableLimit filters)).
Proof.
  intros Hlimit. split; [apply carrierQuery_shape|]. split; [|split].
  - intros n Hn Hne. unfold applicableLimit. rewrite Hn.
    destruct (Z.eqb_spec n 0); [contradiction|reflexivity].
  - unfold applicableLimit. intros [-> | [-> | ->]]; reflexivity.
  - destruct (carrierQuery_shape filters) as (ops & Hops & _).
    unfold fetchCarriersFromSupabase.
    destruct (runQuery H (carrierQuery filters)) as [res|e] eqn:Hrun; cbn [bind tryCatch].
    + destruct (q_error res); [exists []; split; [reflexivity|simpl; lia]|].
      destruct (mapM toCarrier (default [] (q_data res))) as [rows|e] eqn:Hmap;
        [|exists []; split; [reflexivity|simpl; lia]].
      exists rows. split; [reflexivity|].
      apply mapM_length in Hmap. rewrite Hmap.
      destruct (q_data res) as [data|] eqn:Hdata; [|simpl; lia].
      apply (Hlimit (carrierQuery filters)
               (ops ++ [QOrder "created_at" false])
               (applicableLimit filters) res data Hrun Hdata).
      rewrite Hops, <- app_assoc. reflexivity.
    + exists []. split; [reflexivity|simpl; lia].
Qed.

Lemma carriers_ordered_and_bounded_witness :
  q_ops (carrierQuery (limitFilter (Num 2)))
  = [QOrder "created_at" false; QLimit (Num 2)] /\
  exists rows,
    fetchCarriersFromSupabase (database threeRows) (limitFilter (Num 2)) = Normal rows /\
    Z.of_nat (length rows) <= 2.
Proof.
  destruct (carriers_ordered_and_bounded (database threeRows) (limitFilter (Num 2))
              (database_honoursLimit threeRows)) as (_ & _ & _ & Hrows).
  split; [reflexivity|exact Hrows].
Defined.

(** C10 as stated fails: with [limit] set to 0 the query is limited to 200
    rows, not to 0, and a database that honours the limit returns rows. *)
Lemma limit_zero_is_default :
  f_limit (limitFilter (Num 0)) = Some (Num 0) /\
  last (q_ops (carrierQuery (limitFilter (Num 0)))) = Some (QLimit (Num 200)) /\
  last (q_ops (carrierQuery (limitFilter (Num 0)))) <> Some (QLimit (Num 0)) /\
  exists rows,
    fetchCarriersFromSupabase (database threeRows) (limitFilter (Num 0)) = Normal rows /\
    length rows = 3%nat.
Proof.
  split; [reflexivity|]. split; [reflexivity|]. split; [discriminate|].
  eexists. split; [vm_compute; reflexivity|reflexivity].
Qed.

(** * Further properties *)

(** ** Text normalisation *)

Section VisibleText.

Lemma visible_app (a b : jsstring) : visible (a ++ b) = visible a ++ visible b.
Proof. apply List.filter_app. Qed.

Lemma visible_reverse (s : jsstring) : visible (reverse s) = reverse (visible s).
Proof.
  induction s as [|c s IH]; [reflexivity|].
  rewrite reverse_cons, visible_app, IH. simpl.
  destruct (isWhiteSpace c); simpl.
  - rewrite app_nil_r. reflexivity.
  - rewrite reverse_cons. reflexivity.
Qed.

Lemma visible_dropWhile (s : jsstring) : visible (dropWhile isWhiteSpace s) = visible s.
Proof.
  induction s as [|c s IH]; [reflexivity|]. simpl.
  destruct (isWhiteSpace c) eqn:Hc; simpl; [exact IH|]. rewrite Hc. reflexivity.
Qed.

Lemma visible_trim (s : jsstring) : visible (trim s) = visible s.
Proof.
  unfold trim, trimEnd, trimStart.
  rewrite visible_reverse, visible_dropWhile, visible_reverse, reverse_involutive.
  apply visible_dropWhile.
Qed.

Lemma visible_collapseFrom (b : bool) (s : jsstring) :
  visible (collapseFrom b s) = visible s.
Proof.
  revert b. induction s as [|c s IH]; intros b; [reflexivity|]. simpl.
  destruct (isWhiteSpace c) eqn:Hc; simpl.
  - destruct b; simpl; apply IH.
  - rewrite Hc. simpl. f_equal. apply IH.
Qed.

Lemma visible_replaceChar (c : Z) (s : jsstring) :
  isWhiteSpace c = true -> visible (replaceChar c 32 s) = visible s.
Proof.
  intros Hc. induction s as [|x s IH]; [reflexivity|].
  rewrite replaceChar_cons. simpl. rewrite IH.
  destruct (Z.eqb_spec x c) as [->|]; [|reflexivity].
  rewrite Hc. reflexivity.
Qed.

Lemma visible_nil_blank (s : jsstring) :
  visible s = [] <-> forallb isWhiteSpace s = true.
Proof.
  induction s as [|c s IH]; simpl; [tauto|].
  destruct (isWhiteSpace c); simpl; [exact IH|]. split; discriminate.
Qed.

End VisibleText.

(** X1.  [cleanText] touches white space only: the code units of its result
    that are not white space are those of its argument, in the same order. *)
Theorem cleanText_keeps_visible (s : jsstring) :
  visible (cleanText (TStr s)) = visible s.
Proof.
  destruct s as [|c s]; [reflexivity|]. unfold cleanText, collapseSpaces.
  rewrite visible_trim, visible_collapseFrom.
  rewrite !visible_replaceChar by reflexivity. reflexivity.
Qed.

(** X2.  [cleanText] gives the empty string exactly for the strings made of
    white space only (the empty string among them). *)
Theorem cleanText_empty_iff_blank (s : jsstring) :
  cleanText (TStr s) = [] <-> forallb isWhiteSpace s = true.
Proof.
  rewrite <- visible_nil_blank, <- (cleanText_keeps_visible s). split.
  - intros ->. reflexivity.
  - intros Hv. destruct (cleanText_cleaned (TStr s)) as (_ & _ & Hh & _).
    destruct (cleanText (TStr s)) as [|c t]; [reflexivity|].
    simpl in Hv. rewrite (Hh c eq_refl) in Hv. discriminate.
Qed.

(** ** Decoding hexadecimal digits *)

Section HexBytes.

Lemma isHexDigit_listed (c : Z) :
  isHexDigit c = true -> c ∈ seqZ 48 10 ++ seqZ 65 6 ++ seqZ 97 6.
Proof.
  unfold isHexDigit, hexVal, inRange. rewrite !elem_of_app, !elem_of_seqZ.
  destruct (Z.leb_spec 48 c), (Z.leb_spec c 57), (Z.leb_spec 97 c),
    (Z.leb_spec c 102), (Z.leb_spec 65 c), (Z.leb_spec c 70);
    cbn [andb]; intros Hc; try discriminate Hc; lia.
Qed.

Lemma parseInt16_hex (s : jsstring) :
  Forall (fun c => isHexDigit c = true) s -> (length s <= 2)%nat ->
  byteOrNaN (parseInt16 s) = true.
Proof.
  assert (Hall : Forall (fun a =>
                   byteOrNaN (parseInt16 [a]) = true /\
                   Forall (fun b => byteOrNaN (parseInt16 [a; b]) = true)
                     (seqZ 48 10 ++ seqZ 65 6 ++ seqZ 97 6))
                   (seqZ 48 10 ++ seqZ 65 6 ++ seqZ 97 6)).
  { apply (bool_decide_unpack _). vm_compute. exact I. }
  rewrite Forall_forall in Hall.
  intros Hs Hlen. destruct s as [|a [|b [|c s]]]; [reflexivity| | |simpl in Hlen; lia].
  - apply Forall_cons in Hs as [Ha _].
    apply (Hall a), isHexDigit_listed, Ha.
  - apply Forall_cons in Hs as [Ha Hs]. apply Forall_cons in Hs as [Hb _].
    destruct (Hall a (isHexDigit_listed a Ha)) as [_ Hpairs].
    rewrite Forall_forall in Hpairs. apply Hpairs, isHexDigit_listed, Hb.
Qed.

Lemma isByte_lxor (a b : Z) :
  isByte a = true -> isByte b = true -> isByte (Z.lxor a b) = true.
Proof.
  unfold isByte. intros Ha Hb.
  pose proof (lxor_byte a b ltac:(lia) ltac:(lia)). lia.
Qed.

Lemma xor_of_bytes (x r : number) :
  byteOrNaN x = true -> byteOrNaN r = true ->
  isByte (fromCharCode (bitXor x r)) = true.
Proof.
  intros Hx Hr.
  assert (Hint : forall y, byteOrNaN y = true -> isByte (toInt32 y) = true).
  { intros [z|]; [|reflexivity]. cbn [byteOrNaN toInt32]. unfold isByte.
    intros Hz. replace ((z + 2147483648) mod 4294967296 - 2147483648) with z;
      [exact Hz|].
    rewrite Z.mod_small; lia. }
  pose proof (isByte_lxor _ _ (Hint x Hx) (Hint r Hr)) as Hb.
  unfold fromCharCode, bitXor, toUint16. unfold isByte in *.
  rewrite Z.mod_small; [exact Hb|lia].
Qed.

Lemma cfChar_byte (encoded : jsstring) (n : nat) :
  Forall (fun c => isHexDigit c = true) encoded ->
  isByte (cfChar encoded (parseInt16 (substr encoded 0 2)) n) = true.
Proof.
  intros Hhex. unfold cfChar.
  apply xor_of_bytes; apply parseInt16_hex; unfold substr;
    first [apply Forall_take, Forall_drop, Hhex | rewrite length_take; lia].
Qed.

End HexBytes.

(** X3.  For an encoded string made of hexadecimal digits only, every code
    unit of the address that [cfDecodeEmail] returns is a byte, below 256:
    the key and every pair read are bytes, and so is their XOR. *)
Theorem cfDecodeEmail_hex_bytes (encoded email : jsstring) :
  forallb isHexDigit encoded = true ->
  cfDecodeEmail encoded = Normal email ->
  forallb isByte email = true.
Proof.
  intros Hhex. unfold cfDecodeEmail, tryCatch. intros [= <-].
  rewrite cfLoop_closed, app_nil_l.
  apply forallb_forall. intros c Hc.
  apply list_elem_of_In, list_elem_of_fmap in Hc as (i & -> & _).
  apply cfChar_byte, Forall_forall. intros d Hd.
  rewrite forallb_forall in Hhex. apply Hhex, list_elem_of_In, Hd.
Qed.

Lemma cfDecodeEmail_hex_bytes_witness :
  cfDecodeEmail (lit "422302206c2d") = Normal (lit "a@b.o") /\
  forallb isByte (lit "a@b.o") = true.
Proof.
  assert (Hrun : cfDecodeEmail (lit "422302206c2d") = Normal (lit "a@b.o"))
    by (vm_compute; reflexivity).
  split; [exact Hrun|].
  apply (cfDecodeEmail_hex_bytes (lit "422302206c2d")); [reflexivity|exact Hrun].
Defined.

(** ** Proxy URLs *)

Section ProxyUrls.

Lemma hex2_safe (b : Z) :
  0 <= b < 256 -> forallb querySafe (37 :: hex2 true b) = true.
Proof.
  intros Hb.
  assert (Hall : Forall (fun b => forallb querySafe (37 :: hex2 true b) = true)
                   (seqZ 0 256)).
  { apply (bool_decide_unpack _). vm_compute. exact I. }
  rewrite Forall_forall in Hall. apply Hall, elem_of_seqZ. lia.
Qed.

Lemma utf8_octets (cp : Z) :
  0 <= cp < 1114112 -> Forall (fun b => 0 <= b < 256) (utf8 cp).
Proof.
  intros Hcp. unfold utf8.
  repeat match goal with
         | |- context [if ?a <? ?b then _ else _] => destruct (Z.ltb_spec a b)
         end; repeat constructor;
    try (Z.div_mod_to_equations; lia); lia.
Qed.

Lemma percentEncode_safe (cp : Z) :
  0 <= cp < 1114112 -> forallb querySafe (percentEncode cp) = true.
Proof.
  intros Hcp. unfold percentEncode.
  induction (utf8_octets cp Hcp) as [|b bs Hb _ IH]; [reflexivity|].
  rewrite fmap_cons. cbn [concat]. rewrite forallb_app, IH, (hex2_safe b Hb).
  reflexivity.
Qed.

Lemma encodeURIComponent_safe_upto (n : nat) (s e : jsstring) :
  (length s <= n)%nat -> wellFormed s ->
  encodeURIComponent s = Normal e -> forallb querySafe e = true.
Proof.
  revert s e. induction n as [|n IH]; intros s e Hlen Hwf.
  - destruct s; [|simpl in Hlen; lia]. intros [= <-]. reflexivity.
  - destruct s as [|c s]; [intros [= <-]; reflexivity|].
    apply Forall_cons in Hwf as [Hc Hwf]. simpl in Hlen.
    cbn [encodeURIComponent].
    destruct (isUnreserved c) eqn:Hu.
    + destruct (encodeURIComponent s) as [r|] eqn:Hr; [|discriminate].
      intros [= <-]. simpl. unfold querySafe at 1. rewrite Hu. simpl.
      apply (IH s r); [lia|exact Hwf|exact Hr].
    + destruct (inRange 56320 57343 c); [discriminate|].
      destruct (inRange 55296 56319 c) eqn:Hhigh.
      * destruct s as [|d s]; [discriminate|].
        destruct (inRange 56320 57343 d) eqn:Hlow; [|discriminate].
        apply Forall_cons in Hwf as [Hd Hwf]. simpl in Hlen.
        destruct (encodeURIComponent s) as [r|] eqn:Hr; [|discriminate].
        intros [= <-]. rewrite forallb_app, (IH s r); [|lia|exact Hwf|exact Hr].
        rewrite percentEncode_safe; [reflexivity|].
        unfold inRange in Hhigh, Hlow. lia.
      * destruct (encodeURIComponent s) as [r|] eqn:Hr; [|discriminate].
        intros [= <-]. rewrite forallb_app, (IH s r); [|lia|exact Hwf|exact Hr].
        rewrite percentEncode_safe; [reflexivity|lia].
Qed.

Lemma encodeURIComponent_safe (s e : jsstring) :
  wellFormed s -> encodeURIComponent s = Normal e -> forallb querySafe e = true.
Proof. apply (encodeURIComponent_safe_upto (length s)). lia. Qed.

Lemma proxyAttempt_no_url (H : Host) (g : jsstring -> outcome jsstring)
    (targetUrl : jsstring) (e : JsError) :
  g targetUrl = Throw e -> proxyAttempt H g targetUrl = Normal None.
Proof. intros Hg. unfold proxyAttempt. rewrite Hg. reflexivity. Qed.

End ProxyUrls.

(** X4.  The URL that either proxy generator builds for a target is the
    address of the proxy followed by the target as one query value: after
    the prefix come only letters, digits, [- _ . ! ~ * ' ( )] and percent
    escapes, so no [&], [=], [#] or space of the target reaches the proxy
    URL. *)
Theorem proxy_url_is_escaped (targetUrl url : jsstring) :
  wellFormed targetUrl ->
  (allorigins targetUrl = Normal url ->
   exists e, url = lit "https://api.allorigins.win/raw?url=" ++ e /\
             forallb querySafe e = true) /\
  (codetabs targetUrl = Normal url ->
   exists e, url = lit "https://api.codetabs.com/v1/proxy?quest=" ++ e /\
             forallb querySafe e = true).
Proof.
  intros Hwf. unfold allorigins, codetabs.
  destruct (encodeURIComponent targetUrl) as [e|] eqn:He; simpl;
    split; intros [= <-]; exists e;
    (split; [reflexivity|exact (encodeURIComponent_safe _ _ Hwf He)]).
Qed.

Lemma proxy_url_is_escaped_witness :
  exists e,
    lit "https://api.allorigins.win/raw?url=https%3A%2F%2Fx.gov%2Fq%3Fa%3D1%26b%3D%202"
    = lit "https://api.allorigins.win/raw?url=" ++ e /\
    forallb querySafe e = true.
Proof.
  apply (proxy_url_is_escaped (lit "https://x.gov/q?a=1&b= 2")).
  - apply (bool_decide_unpack _). vm_compute. exact I.
  - vm_compute. reflexivity.
Defined.

(** X5.  When [encodeURIComponent] rejects the target (it holds a lone
    surrogate), [fetchUrl] with [useProxy] true returns null whatever the
    network would answer: both proxy attempts fail before any request. *)
Theorem fetchUrl_unencodable_target (H : Host) (targetUrl : jsstring) (e : JsError) :
  encodeURIComponent targetUrl = Throw e ->
  fetchUrl H targetUrl true = Normal JNull.
Proof.
  intros He. unfold fetchUrl. cbn [negb bind proxyGenerators proxyLoop].
  rewrite (proxyAttempt_no_url H allorigins targetUrl e),
    (proxyAttempt_no_url H codetabs targetUrl e); [reflexivity| |];
    unfold allorigins, codetabs; rewrite He; reflexivity.
Qed.

Lemma fetchUrl_unencodable_target_witness :
  fetchUrl liveHost (lit "https://safer.fmcsa.dot.gov/" ++ [55357]) true = Normal JNull /\
  fetchUrl liveHost (lit "https://safer.fmcsa.dot.gov/" ++ [55357]) false
  = Normal (JStr (lit "snapshot")).
Proof.
  split.
  - apply (fetchUrl_unencodable_target liveHost _ uriError). vm_compute. reflexivity.
  - vm_compute. reflexivity.
Defined.

(** X6.  With [useProxy] true, [fetchUrl] never asks for the target itself:
    its result is determined by what the two proxy URLs answer and by
    [JSON.parse]. *)
Theorem fetchUrl_proxy_only (H1 H2 : Host) (targetUrl : jsstring) :
  (forall text, JSON_parse H1 text = JSON_parse H2 text) ->
  (forall url, allorigins targetUrl = Normal url \/ codetabs targetUrl = Normal url ->
               fetch H1 url = fetch H2 url) ->
  fetchUrl H1 targetUrl true = fetchUrl H2 targetUrl true.
Proof.
  intros Hjson Hfetch.
  assert (Hatt : forall g, g targetUrl = allorigins targetUrl \/
                           g targetUrl = codetabs targetUrl ->
                           proxyAttempt H1 g targetUrl = proxyAttempt H2 g targetUrl).
  { intros g Hg. unfold proxyAttempt.
    destruct (g targetUrl) as [url|] eqn:Hurl; [|reflexivity]. cbn [bind].
    rewrite (Hfetch url) by (destruct Hg as [<-|<-]; auto).
    destruct (fetch H2 url) as [response|]; [|reflexivity]. cbn [bind].
    destruct (resp_ok response); [|reflexivity].
    destruct (resp_text response) as [text|]; [|reflexivity]. cbn [bind].
    rewrite Hjson. reflexivity. }
  unfold fetchUrl. cbn [negb bind proxyGenerators proxyLoop].
  rewrite (Hatt allorigins), (Hatt codetabs) by auto. reflexivity.
Qed.

Lemma fetchUrl_proxy_only_witness :
  fetchUrl behindProxy (lit "page") true
  = fetchUrl (withNetwork
                (fun url => if jsEqb url (lit "page")
                            then Normal (textResponse (lit "direct"))
                            else fetch behindProxy url)
                (fun _ => []) offline)
      (lit "page") true.
Proof.
  apply fetchUrl_proxy_only.
  - reflexivity.
  - intros url [Hu|Hu]; vm_compute in Hu; injection Hu as <-; reflexivity.
Defined.

(** ** What the scrapers extract *)

Section Extracted.
Context (H : Host).

Lemma markedCells_cleaned (doc : Document) (cells : list path) :
  Forall (fun v => cleanText (TStr v) = v) (markedCells doc cells).
Proof.
  induction cells as [|cell rest IH]; cbn [markedCells]; [constructor|].
  apply Forall_app. split; [|exact IH].
  destruct (jsEqb _ _); [|constructor].
  destruct (nextElementSibling doc cell); repeat constructor.
  apply cleaned_fixed, cleanText_cleaned.
Qed.

Lemma markedCells_length (doc : Document) (cells : list path) :
  (length (markedCells doc cells) <= length cells)%nat.
Proof.
  induction cells as [|cell rest IH]; cbn [markedCells]; [reflexivity|].
  rewrite length_app. simpl.
  destruct (jsEqb _ _); [|simpl; lia].
  destruct (nextElementSibling doc cell); simpl; lia.
Qed.

Lemma categories_truthy (i : nat) (category : jsstring) :
  categories !! i = Some category -> truthy (JStr category) = true.
Proof.
  intros Hi. apply list_elem_of_lookup_2 in Hi. revert category Hi.
  apply Forall_forall. repeat constructor.
Qed.

Lemma scoreCells_beyond (doc : Document) (cells : list path) (i : nat) :
  (7 <= i)%nat -> scoreCells doc cells i = [].
Proof.
  revert i. induction cells as [|cell rest IH]; intros i Hi; [reflexivity|].
  cbn [scoreCells]. rewrite (IH (S i)) by lia.
  rewrite (lookup_ge_None_2 categories i) by (change (length categories) with 7%nat; lia).
  reflexivity.
Qed.

Lemma scoreCells_length (doc : Document) (cells : list path) (i : nat) :
  length (scoreCells doc cells i) = (length cells `min` (7 - i))%nat.
Proof.
  revert i. induction cells as [|cell rest IH]; intros i; [reflexivity|].
  destruct (decide (7 <= i)%nat) as [Hi|Hi].
  - rewrite scoreCells_beyond by exact Hi. cbn [length]. lia.
  - cbn [scoreCells]. rewrite length_app, IH.
    destruct (categories !! i) as [category|] eqn:Hc.
    + rewrite (categories_truthy _ _ Hc). cbn [length]. lia.
    + apply lookup_ge_None_1 in Hc. change (length categories) with 7%nat in Hc. lia.
Qed.

Lemma scoreCells_entry (doc : Document) (cells : list path) (i k : nat)
    (entry : JsValue) :
  scoreCells doc cells i !! k = Some entry ->
  exists category measure,
    categories !! (i + k)%nat = Some category /\ measure <> [] /\
    entry = JObj (object [("category", JStr category); ("measure", JStr measure)]).
Proof.
  revert i k. induction cells as [|cell rest IH]; intros i k; [discriminate|].
  cbn [scoreCells].
  destruct (categories !! i) as [category|] eqn:Hc.
  - rewrite (categories_truthy _ _ Hc).
    match goal with |- context [orElse (JStr ?v) _] => generalize v end.
    intros val. destruct k as [|k]; cbn [app lookup list_lookup].
    + intros Heq. apply (inj Some) in Heq. subst entry.
      rewrite Nat.add_0_r. destruct val as [|c v].
      * exists category, (lit "0.00").
        split; [exact Hc|]. split; [vm_compute; discriminate|reflexivity].
      * exists category, (c :: v).
        split; [exact Hc|]. split; [discriminate|reflexivity].
    + intros Hk. destruct (IH _ _ Hk) as (cat & m & Hcat & Hm & He).
      exists cat, m. repeat split; [|exact Hm|exact He].
      rewrite <- Hcat. f_equal. lia.
  - cbn [app]. intros Hk. destruct (IH _ _ Hk) as (cat & m & Hcat & Hm & He).
    apply lookup_ge_None_1 in Hc. apply lookup_lt_Some in Hcat.
    change (length categories) with 7%nat in *. lia.
Qed.

Lemma emailFromLabels_plain (doc : Document) (labels : list path) (s : jsstring) :
  (forall parent, querySelector doc parent [[[SelHasAttr "data-cfemail"]]] = None) ->
  emailFromLabels doc labels = Normal s ->
  s = [] \/ (includes s (lit "@") = true /\ cleanText (TStr s) = s).
Proof.
  intros Hno. induction labels as [|label rest IH]; cbn [emailFromLabels].
  - intros [= <-]. left. reflexivity.
  - unfold emailOfLabel.
    destruct (includes (textContent doc label) (lit "Email:")); [|exact IH].
    destruct (parentElement label) as [parent|]; [|exact IH].
    rewrite Hno.
    pose proof (cleanText_cleaned
                  (TStr (removeFirst (lit "Email:") (textContent doc parent)))) as Hclean.
    revert Hclean.
    generalize (cleanText (TStr (removeFirst (lit "Email:") (textContent doc parent)))).
    intros text Hclean.
    destruct (truthy (JStr text) && includes text (lit "@")) eqn:Hat; cbn [bind];
      [|exact IH].
    intros Heq. injection Heq as <-. right.
    apply andb_true_iff in Hat as [_ Hat].
    split; [exact Hat|]. apply cleaned_fixed, Hclean.
Qed.

End Extracted.

(** X7.  Every value that [findValueByLabel] returns is in the normal form
    of [cleanText]: cleaning it again changes nothing, so a scraped field
    never starts or ends with white space and never holds a newline, a
    non-breaking space or two spaces in a row. *)
Theorem findValueByLabel_normalised (H : Host) (doc : Document) (label : jsstring) :
  cleanText (TStr (findValueByLabel H doc label)) = findValueByLabel H doc label.
Proof.
  unfold findValueByLabel.
  destruct (List.find _ _) as [th|]; [|reflexivity].
  destruct (nextElementSibling doc th); [|reflexivity].
  apply cleaned_fixed, cleanText_cleaned.
Qed.

(** X8.  [findMarked] returns at most one entry for each [td] of the first
    table with the given summary, each of them in the normal form of
    [cleanText], and no entry when there is no such table. *)
Theorem findMarked_entries (doc : Document) (summary : string) :
  Forall (fun v => cleanText (TStr v) = v) (findMarked doc summary) /\
  (forall table,
     querySelector doc [] [[[SelTag "table"; SelAttrEq "summary" (lit summary)]]]
     = Some table ->
     (length (findMarked doc summary)
      <= length (querySelectorAll doc table (tagSel "td")))%nat) /\
  (querySelector doc [] [[[SelTag "table"; SelAttrEq "summary" (lit summary)]]] = None ->
   findMarked doc summary = []).
Proof.
  unfold findMarked. split; [|split].
  - destruct (querySelector _ _ _); [apply markedCells_cleaned|constructor].
  - intros table ->. apply markedCells_length.
  - intros ->. reflexivity.
Qed.

Lemma findMarked_entries_witness :
  (length (findMarked snapshotDoc "Cargo Carried") <= 4)%nat /\
  findMarked snapshotDoc "Carrier Operation" = [].
Proof.
  destruct (findMarked_entries snapshotDoc "Cargo Carried") as (_ & Hlen & _).
  destruct (findMarked_entries snapshotDoc "Carrier Operation") as (_ & _ & Hnone).
  split.
  - apply (Hlen [0; 0; 0; 1]%nat). vm_compute. reflexivity.
  - apply Hnone. vm_compute. reflexivity.
Defined.

(** X9.  The score loop of [fetchSafetyData] gives one entry for each of the
    first seven cells of the summary row and none for a later cell; the
    entry at position [k] carries the [k]-th category, and its measure is
    never the empty string (an empty cell reads 0.00). *)
Theorem scoreCells_by_category (doc : Document) (cells : list path) :
  length (scoreCells doc cells 0) = (length cells `min` 7)%nat /\
  (forall k entry,
     scoreCells doc cells 0 !! k = Some entry ->
     exists category measure,
       categories !! k = Some category /\ measure <> [] /\
       entry = JObj (object [("category", JStr category);
                             ("measure", JStr measure)])).
Proof.
  split; [apply scoreCells_length|].
  intros k entry Hk. exact (scoreCells_entry doc cells 0 k entry Hk).
Qed.

Lemma scoreCells_by_category_witness :
  exists category measure,
    categories !! 2%nat = Some category /\ measure <> [] /\
    JObj (object [("category", JStr (lit "HOS Compliance"));
                  ("measure", JStr (lit "0.00"))])
    = JObj (object [("category", JStr category); ("measure", JStr measure)]).
Proof.
  destruct (scoreCells_by_category scoreDoc
              (querySelectorAll scoreDoc [0; 0]%nat (tagSel "td"))) as [_ Hentry].
  apply (Hentry 2%nat). vm_compute. reflexivity.
Defined.

(** X10.  When the registration page holds no [data-cfemail] attribute, the
    address that the label loop of [fetchCarrierEmailFromSMS] returns is
    either empty or a cleaned text that contains [@]. *)
Theorem plain_email_has_at (doc : Document) (labels : list path) (s : jsstring) :
  (forall parent, querySelector doc parent [[[SelHasAttr "data-cfemail"]]] = None) ->
  emailFromLabels doc labels = Normal s ->
  s = [] \/ (includes s (lit "@") = true /\ cleanText (TStr s) = s).
Proof. apply emailFromLabels_plain. Qed.

Section NoMatch.

Lemma querySelector_none (doc : Document) (sel : selector) (scope : path) :
  Forall (fun p => matchSelector doc sel p = false) (allElements doc) ->
  querySelector doc scope sel = None.
Proof.
  intros Hall. unfold querySelector, querySelectorAll.
  induction Hall as [|p ps Hp _ IH]; [reflexivity|].
  rewrite filter_cons. rewrite Hp, andb_false_r.
  destruct (decide _) as [[]|_]. exact IH.
Qed.

End NoMatch.

Lemma plain_email_has_at_witness :
  emailFromLabels plainSmsDoc [[0; 0]%nat] = Normal (lit "dispatch@acme.example") /\
  (lit "dispatch@acme.example" = [] \/
   (includes (lit "dispatch@acme.example") (lit "@") = true /\
    cleanText (TStr (lit "dispatch@acme.example")) = lit "dispatch@acme.example")).
Proof.
  assert (Hrun : emailFromLabels plainSmsDoc [[0; 0]%nat]
                 = Normal (lit "dispatch@acme.example")) by (vm_compute; reflexivity).
  split; [exact Hrun|].
  apply (plain_email_has_at plainSmsDoc [[0; 0]%nat]); [|exact Hrun].
  intros parent. apply querySelector_none.
  apply (bool_decide_unpack _). vm_compute. exact I.
Defined.

(** ** The shape of the records *)

Section Shapes.
Context (H : Host).

Lemma carrierLiteral_dom (doc : Document) (mcNumber : jsstring) :
  dom (carrierLiteral H doc mcNumber) = list_to_set carrierKeys.
Proof.
  unfold carrierLiteral, object. rewrite dom_list_to_map_L.
  rewrite fmap_reverse. cbn [fmap list_fmap fst].
  apply (bool_decide_unpack _). vm_compute. exact I.
Qed.

Lemma carrierLiteral_mc (doc : Document) (mcNumber : jsstring) :
  carrierLiteral H doc mcNumber !! "mcNumber" = Some (JStr mcNumber).
Proof. reflexivity. Qed.

End Shapes.

Section RecordShapes.
Context (H : Host).

Lemma strings_flat (l : list jsstring) : forallb isString (JStr <$> l) = true.
Proof. induction l as [|s l IH]; [reflexivity|exact IH]. Qed.

Lemma carrierLiteral_flat_keys (doc : Document) (mcNumber : jsstring) :
  Forall (fun k => exists v, carrierLiteral H doc mcNumber !! k = Some v /\
                             flatValue v = true)
    carrierKeys.
Proof.
  repeat constructor;
    (eexists; split; [reflexivity|]; first [reflexivity | apply strings_flat]).
Qed.

Lemma carrierLiteral_flat (doc : Document) (mcNumber : jsstring) (k : string)
    (v : JsValue) :
  carrierLiteral H doc mcNumber !! k = Some v -> flatValue v = true.
Proof.
  intros Hk. assert (Hin : k ∈ carrierKeys).
  { apply (elem_of_list_to_set (C:=gset string)).
    rewrite <- (carrierLiteral_dom H doc mcNumber). apply elem_of_dom. eauto. }
  pose proof (carrierLiteral_flat_keys doc mcNumber) as Hall.
  rewrite Forall_forall in Hall. destruct (Hall k Hin) as (v' & Hv' & Hflat).
  congruence.
Qed.

Lemma Normal_eq {A} (a b : A) : Normal a = Normal b -> a = b.
Proof. intros Heq. injection Heq as ->. reflexivity. Qed.

Lemma JObj_eq (a b : gmap string JsValue) : JObj a = JObj b -> a = b.
Proof. intros Heq. injection Heq as ->. reflexivity. Qed.

Lemma scraped_is_literal (mcNumber : jsstring) (useProxy : bool)
    (carrier : gmap string JsValue) :
  scrapeRealCarrier_fallback H mcNumber useProxy = Normal (JObj carrier) ->
  exists doc email,
    carrier = <["email" := JStr email]> (carrierLiteral H doc mcNumber).
Proof.
  unfold scrapeRealCarrier_fallback.
  destruct (fetchUrl H (snapshotUrl mcNumber) useProxy) as [html|]; [|discriminate].
  cbn [bind]. destruct html as [| | | |html| |]; try discriminate.
  destruct (querySelector _ _ _); [|discriminate].
  destruct (truthy _).
  - destruct (fetchCarrierEmailFromSMS H _ useProxy) as [email|]; [|discriminate].
    cbn [bind]. intros Heq. apply Normal_eq, JObj_eq in Heq. subst carrier. eauto.
  - intros Heq. apply Normal_eq, JObj_eq in Heq. subst carrier.
    exists (parseFromString H html), [].
    symmetry. apply insert_id. reflexivity.
Qed.

Lemma recordColumns_dom (carrier : gmap string JsValue) :
  dom (object (fieldOf carrier <$> recordFields)) = list_to_set recordColumns.
Proof.
  unfold object. rewrite dom_list_to_map_L, fmap_reverse.
  cbn [fmap list_fmap fst recordFields fieldOf].
  apply (bool_decide_unpack _). vm_compute. exact I.
Qed.

Lemma orElse_twice (v d : JsValue) : orElse (orElse v d) d = orElse v d.
Proof. unfold orElse. destruct (truthy v) eqn:Hv; [rewrite Hv|]; destruct (truthy d); reflexivity. Qed.

End RecordShapes.

(** X11.  Whenever the scraping fallback returns a record, the record is
    flat and of one shape: it has exactly the twenty-one properties of
    [CarrierData] that the scraper fills, [mcNumber] is the number asked for,
    and every value is a string or a list of strings. *)
Theorem scraped_record_shape (H : Host) (mcNumber : jsstring) (useProxy : bool)
    (carrier : gmap string JsValue) :
  scrapeRealCarrier_fallback H mcNumber useProxy = Normal (JObj carrier) ->
  dom carrier = list_to_set carrierKeys /\
  carrier !! "mcNumber" = Some (JStr mcNumber) /\
  (forall k v, carrier !! k = Some v -> flatValue v = true).
Proof.
  intros Hrun. destruct (scraped_is_literal H _ _ _ Hrun) as (doc & email & ->).
  split; [|split].
  - rewrite dom_insert_L, carrierLiteral_dom.
    apply (bool_decide_unpack _). vm_compute. exact I.
  - rewrite lookup_insert_ne by discriminate. reflexivity.
  - intros k v. destruct (decide (k = "email")) as [->|Hne].
    + rewrite lookup_insert_eq. intros [= <-]. reflexivity.
    + rewrite lookup_insert_ne by congruence. apply carrierLiteral_flat.
Qed.

Lemma scraped_record_shape_witness :
  exists carrier,
    scrapeRealCarrier_fallback liveHost (lit "999") false = Normal (JObj carrier) /\
    dom carrier = list_to_set carrierKeys /\
    carrier !! "mcNumber" = Some (JStr (lit "999")).
Proof.
  assert (Hrun : exists carrier,
             scrapeRealCarrier_fallback liveHost (lit "999") false
             = Normal (JObj carrier)) by (eexists; vm_compute; reflexivity).
  destruct Hrun as [carrier Hrun]. exists carrier. split; [exact Hrun|].
  destruct (scraped_record_shape liveHost _ _ _ Hrun) as (Hdom & Hmc & _).
  split; assumption.
Defined.

(** X12.  For every carrier object, the record that [saveCarrierToSupabase]
    builds has exactly the twenty-seven columns of its literal, whatever the
    object holds; [id], [created_at] and [updated_at] are never written. *)
Theorem saved_record_columns (carrier record : gmap string JsValue) :
  carrierRecord (JObj carrier) = Normal record ->
  dom record = list_to_set recordColumns /\
  record !! "id" = None /\ record !! "created_at" = None /\
  record !! "updated_at" = None.
Proof.
  rewrite carrierRecord_object. intros [= <-].
  split; [apply recordColumns_dom|].
  repeat split; apply not_elem_of_dom; rewrite recordColumns_dom;
    apply (bool_decide_unpack _); vm_compute; exact I.
Qed.

Lemma saved_record_columns_witness :
  exists record,
    carrierRecord (JObj sparseCarrier) = Normal record /\
    dom record = list_to_set recordColumns.
Proof.
  exists (object (fieldOf sparseCarrier <$> recordFields)).
  assert (Hrec : carrierRecord (JObj sparseCarrier)
                 = Normal (object (fieldOf sparseCarrier <$> recordFields)))
    by apply carrierRecord_object.
  split; [exact Hrec|]. apply (saved_record_columns sparseCarrier _ Hrec).
Defined.

(** X13.  Saving then reading back.  The carrier that [toCarrier] reads of
    the record built from a carrier object has, for each of the twenty-seven
    properties, the original value when that was truthy, null for a falsy
    optional scalar, the empty array for a falsy list, and the original value
    for the six required properties. *)
Theorem save_then_read (carrier : gmap string JsValue) :
  exists record back,
    carrierRecord (JObj carrier) = Normal record /\
    toCarrier (JObj record) = Normal (JObj back) /\
    Forall (fun f => back !! f.1.2 = Some (fieldOf carrier f).2) recordFields /\
    (forall column name dflt v,
       (column, name, dflt) ∈ recordFields ->
       carrier !! name = Some v -> truthy v = true -> back !! name = Some v).
Proof.
  exists (object (fieldOf carrier <$> recordFields)),
    (object (fieldOf (object (fieldOf carrier <$> recordFields)) <$> carrierFields)).
  split; [apply carrierRecord_object|]. split; [apply toCarrier_object|].
  assert (Hall : Forall (fun f =>
            object (fieldOf (object (fieldOf carrier <$> recordFields)) <$> carrierFields)
              !! f.1.2 = Some (fieldOf carrier f).2) recordFields).
  { repeat constructor; apply (f_equal Some), orElse_twice. }
  split; [exact Hall|].
  intros column name dflt v Hin Hv Ht. rewrite Forall_forall in Hall.
  pose proof (Hall _ Hin) as Hback. cbn [fst snd fieldOf] in Hback. rewrite Hback.
  unfold prop. rewrite Hv. cbn [default from_option id].
  destruct dflt; [unfold orElse; rewrite Ht|]; reflexivity.
Qed.

Lemma save_then_read_witness :
  exists back : gmap string JsValue,
    back !! "phone" = Some (JStr (lit "555")) /\
    back !! "email" = Some JNull /\
    back !! "cargoCarried" = Some (JArr []).
Proof.
  destruct (save_then_read sparseCarrier) as (record & back & _ & _ & Hall & Htruthy).
  exists back. split; [|split].
  - apply (Htruthy "phone" "phone" (Some JNull)); [listed|reflexivity..].
  - rewrite Forall_forall in Hall.
    apply (Hall ("email", "email", Some JNull)). listed.
  - rewrite Forall_forall in Hall.
    apply (Hall ("cargo_carried", "cargoCarried", Some (JArr []))). listed.
Defined.

(** ** Saving and querying *)

Section SaveAndQuery.
Context (H : Host).

Lemma mapM_throws {A B} (f : A -> outcome B) (l : list A) (x : A) (e : JsError) :
  x ∈ l -> f x = Throw e -> exists e', mapM f l = Throw e'.
Proof.
  intros Hin Hx. induction Hin as [x l|x y l Hin IH]; cbn [mapM].
  - rewrite Hx. eexists. reflexivity.
  - destruct (f y); [|eexists; reflexivity]. cbn [bind].
    destruct (IH Hx) as [e' ->]. eexists. reflexivity.
Qed.

Lemma toCarrier_nullish (v : JsValue) :
  nullish v = true -> exists e, toCarrier v = Throw e.
Proof. destruct v; try discriminate; intros _; eexists; reflexivity. Qed.

End SaveAndQuery.

(** X14.  [saveCarrierToSupabase] never throws, and for a carrier object it
    reports success exactly when the upsert completes without an error;
    every failure comes with an error message. *)
Theorem save_reports_upsert (H : Host) (carrier : gmap string JsValue) :
  exists record result,
    carrierRecord (JObj carrier) = Normal record /\
    saveCarrierToSupabase H (JObj carrier) = Normal result /\
    (success result = true <-> upsert H "carriers" record "mc_number" = Normal None) /\
    (success result = false -> is_Some (save_error result)).
Proof.
  exists (object (fieldOf carrier <$> recordFields)).
  unfold saveCarrierToSupabase. rewrite carrierRecord_object. cbn [bind].
  destruct (upsert H _ _ _) as [[e|]|e]; cbn [bind tryCatch];
    eexists; (split; [reflexivity|]); (split; [reflexivity|]);
    cbn [success save_error]; (split; [split; intros; congruence|]);
    intros; eauto; discriminate.
Qed.

Lemma save_reports_upsert_witness :
  exists result,
    saveCarrierToSupabase offline (JObj sparseCarrier) = Normal result /\
    success result = true.
Proof.
  destruct (save_reports_upsert offline sparseCarrier)
    as (record & result & _ & Hrun & Hok & _).
  exists result. split; [exact Hrun|]. apply Hok. reflexivity.
Defined.

(** X15.  Handed null or undefined instead of a carrier,
    [saveCarrierToSupabase] reports a failure with a message and calls no
    upsert: the result is the same for every host. *)
Theorem save_of_nothing (carrier : JsValue) :
  nullish carrier = true ->
  exists msg, forall H,
    saveCarrierToSupabase H carrier
    = Normal {| success := false; save_error := Some msg |}.
Proof.
  destruct carrier; try discriminate; intros _; eexists; intros H; reflexivity.
Qed.

Lemma save_of_nothing_witness :
  exists msg,
    saveCarrierToSupabase offline JNull
    = Normal {| success := false; save_error := Some msg |}.
Proof.
  destruct (save_of_nothing JNull eq_refl) as [msg Hmsg].
  exists msg. apply Hmsg.
Defined.

(** X16.  The four numeric range filters ([powerUnitsMin], [powerUnitsMax],
    [driversMin], [driversMax]) have no effect: whatever they are set to, the
    query built and the rows returned are the same. *)
Theorem range_filters_ignored (H : Host) (filters : CarrierFilters)
    (powerUnitsMin powerUnitsMax driversMin driversMax : option number) :
  carrierQuery (withRanges filters powerUnitsMin powerUnitsMax driversMin driversMax)
  = carrierQuery filters /\
  fetchCarriersFromSupabase H
    (withRanges filters powerUnitsMin powerUnitsMax driversMin driversMax)
  = fetchCarriersFromSupabase H filters.
Proof.
  assert (Hq : carrierQuery
                 (withRanges filters powerUnitsMin powerUnitsMax driversMin driversMax)
               = carrierQuery filters) by reflexivity.
  split; [exact Hq|]. unfold fetchCarriersFromSupabase. rewrite Hq. reflexivity.
Qed.

(** X17.  A text filter ([mcNumber], [dotNumber], [legalName], [state]) set
    to the empty string is the same as one that is not set: it adds no
    condition to the query. *)
Theorem empty_filters_ignored (filters : CarrierFilters) :
  carrierQuery (withoutEmpty filters) = carrierQuery filters.
Proof.
  destruct filters as [mc dot name active state hasEmail p1 p2 d1 d2 limit].
  unfold carrierQuery, withoutEmpty. cbn [f_mcNumber f_dotNumber f_legalName
    f_active f_state f_hasEmail f_limit].
  destruct mc as [[|]|], dot as [[|]|], name as [[|]|], state as [[|]|];
    reflexivity.
Qed.

(** X18.  One row that is null or undefined among the rows of an answer
    empties the whole result: [fetchCarriersFromSupabase] then returns the
    empty list, not the other rows. *)
Theorem null_row_empties_result (H : Host) (filters : CarrierFilters)
    (res : QueryResult) (rows : list JsValue) (row : JsValue) :
  runQuery H (carrierQuery filters) = Normal res ->
  q_error res = None -> q_data res = Some rows ->
  row ∈ rows -> nullish row = true ->
  fetchCarriersFromSupabase H filters = Normal [].
Proof.
  intros Hrun Herr Hdata Hin Hnull. unfold fetchCarriersFromSupabase.
  rewrite Hrun. cbn [bind]. rewrite Herr, Hdata. cbn [default from_option]. unfold id.
  destruct (toCarrier_nullish row Hnull) as [e He].
  destruct (mapM_throws toCarrier rows row e Hin He) as [e' ->]. reflexivity.
Qed.

Lemma null_row_empties_result_witness :
  fetchCarriersFromSupabase (database [storedRow "3"; JNull; storedRow "1"]) noFilters
  = Normal [].
Proof.
  apply (null_row_empties_result _ noFilters
           {| q_data := Some [storedRow "3"; JNull; storedRow "1"]; q_error := None |}
           [storedRow "3"; JNull; storedRow "1"] JNull); try reflexivity.
  listed.
Defined.

(** ** Updates *)

Section UpdateFacts.
Context (update : string -> gmap string JsValue -> string -> jsstring
                  -> outcome (option JsError))
        (nowISOString : jsstring).

Lemma fallback_safety_shape (H : Host) (dot : jsstring) (v : JsValue) :
  fetchSafetyData_fallback H dot = Normal v ->
  exists rating ratingDate basicScores oosRates,
    v = JObj (object [("rating", JStr rating); ("ratingDate", JStr ratingDate);
                      ("basicScores", JArr basicScores);
                      ("oosRates", JArr oosRates)]).
Proof.
  unfold fetchSafetyData_fallback.
  destruct (fetchUrl H (profileUrl dot) true) as [html|]; [|discriminate].
  cbn [bind]. destruct html; try discriminate.
  intros Heq. apply Normal_eq in Heq. subst v. eauto 6.
Qed.

End UpdateFacts.

(** X19.  [updateCarrierInsurance] and [updateCarrierSafety] never throw.
    For an object they update the row of the given DOT number with exactly
    the columns named in the source and [updated_at], and report success
    exactly when the update completes without an error; for null or
    undefined they make no update and report, as the error, the message of
    the TypeError of the first property read ([policies], [rating]). *)
Theorem updates_report
    (update : string -> gmap string JsValue -> string -> jsstring
              -> outcome (option JsError))
    (nowISOString dotNumber : jsstring) (data : gmap string JsValue) :
  (exists result,
     updateCarrierInsurance update nowISOString dotNumber (JObj data) = Normal result /\
     (success result = true <->
      update "carriers"
        (object [("insurance_policies", prop data "policies");
                 ("updated_at", JStr nowISOString)])
        "dot_number" dotNumber = Normal None)) /\
  (exists result,
     updateCarrierSafety update nowISOString dotNumber (JObj data) = Normal result /\
     (success result = true <->
      update "carriers"
        (object [("safety_rating", prop data "rating");
                 ("safety_rating_date", prop data "ratingDate");
                 ("basic_scores", prop data "basicScores");
                 ("oos_rates", prop data "oosRates");
                 ("updated_at", JStr nowISOString)])
        "dot_number" dotNumber = Normal None)) /\
  (forall nothing, nullish nothing = true ->
     exists noPolicies noRating,
       getProp nothing "policies" = Throw noPolicies /\
       getProp nothing "rating" = Throw noRating /\
       updateCarrierInsurance update nowISOString dotNumber nothing
       = Normal {| success := false; save_error := Some (message noPolicies) |} /\
       updateCarrierSafety update nowISOString dotNumber nothing
       = Normal {| success := false; save_error := Some (message noRating) |}).
Proof.
  split; [|split].
  - unfold updateCarrierInsurance. cbn [getProp bind]. fold (prop data "policies").
    destruct (update _ _ _ _) as [[e|]|e]; cbn [bind tryCatch];
      eexists; (split; [reflexivity|]); cbn [success];
      split; intros; congruence.
  - unfold updateCarrierSafety. cbn [getProp bind].
    fold (prop data "rating") (prop data "ratingDate") (prop data "basicScores")
      (prop data "oosRates").
    destruct (update _ _ _ _) as [[e|]|e]; cbn [bind tryCatch];
      eexists; (split; [reflexivity|]); cbn [success];
      split; intros; congruence.
  - intros nothing Hn. destruct nothing; try discriminate;
      do 2 eexists; repeat split.
Qed.

Lemma updates_report_witness :
  (exists result,
     updateCarrierSafety sampleUpdate (lit "2026-11-02T09:00:00.000Z") (lit "123")
       (JObj ∅) = Normal result /\ success result = true) /\
  (exists result,
     updateCarrierSafety sampleUpdate (lit "2026-11-02T09:00:00.000Z") (lit "456")
       (JObj ∅) = Normal result /\ success result = false) /\
  (exists result,
     updateCarrierInsurance sampleUpdate (lit "2026-11-02T09:00:00.000Z") (lit "123")
       JNull = Normal result /\ success result = false).
Proof.
  destruct (updates_report sampleUpdate (lit "2026-11-02T09:00:00.000Z") (lit "123") ∅)
    as (_ & (stored & Hstored & Hiff) & Hnull).
  destruct (updates_report sampleUpdate (lit "2026-11-02T09:00:00.000Z") (lit "456") ∅)
    as (_ & (refused & Hrefused & Hiff') & _).
  destruct (Hnull JNull eq_refl) as (noPolicies & _ & _ & _ & Hins & _).
  split; [|split].
  - exists stored. split; [exact Hstored|]. apply Hiff. reflexivity.
  - exists refused. split; [exact Hrefused|].
    destruct (success refused) eqn:Hs; [|reflexivity].
    destruct Hiff' as [Hto _]. specialize (Hto eq_refl). discriminate Hto.
  - eexists. split; [exact Hins|]. reflexivity.
Defined.

(** X20.  What the scraping fallback of [fetchSafetyData] returns can always
    be stored: [updateCarrierSafety] reads its four properties without
    throwing and sends them, with [updated_at], as one update of the row of
    the DOT number. *)
Theorem scraped_safety_is_storable (H : Host)
    (update : string -> gmap string JsValue -> string -> jsstring
              -> outcome (option JsError))
    (nowISOString dot : jsstring) (safetyData : JsValue) :
  fetchSafetyData_fallback H dot = Normal safetyData ->
  exists rating ratingDate basicScores oosRates,
    updateCarrierSafety update nowISOString dot safetyData
    = tryCatch
        (error <- update "carriers"
                    (object [("safety_rating", JStr rating);
                             ("safety_rating_date", JStr ratingDate);
                             ("basic_scores", JArr basicScores);
                             ("oos_rates", JArr oosRates);
                             ("updated_at", JStr nowISOString)])
                    "dot_number" dot;;
         Normal {| success := bool_decide (error = None);
                   save_error := message <$> error |})
        (fun err => Normal {| success := false; save_error := Some (message err) |}).
Proof.
  intros Hrun.
  destruct (fallback_safety_shape H dot safetyData Hrun)
    as (rating & ratingDate & basicScores & oosRates & ->).
  exists rating, ratingDate, basicScores, oosRates.
  unfold updateCarrierSafety. cbn [getProp bind].
  change (default JUndefined (object _ !! "rating")) with (JStr rating).
  change (default JUndefined (object _ !! "ratingDate")) with (JStr ratingDate).
  change (default JUndefined (object _ !! "basicScores")) with (JArr basicScores).
  change (default JUndefined (object _ !! "oosRates")) with (JArr oosRates).
  cbn [bind]. destruct (update _ _ _ _) as [[e|]|e]; reflexivity.
Qed.

Lemma scraped_safety_is_storable_witness :
  exists safetyData,
    fetchSafetyData_fallback proxiedHost (lit "123") = Normal safetyData /\
    updateCarrierSafety sampleUpdate (lit "2026-11-02T09:00:00.000Z") (lit "123")
      safetyData
    = Normal {| success := true; save_error := None |}.
Proof.
  assert (Hrun : exists v, fetchSafetyData_fallback proxiedHost (lit "123") = Normal v)
    by (eexists; vm_compute; reflexivity).
  destruct Hrun as [v Hrun]. exists v. split; [exact Hrun|].
  destruct (scraped_safety_is_storable proxiedHost sampleUpdate
              (lit "2026-11-02T09:00:00.000Z") (lit "123") v Hrun)
    as (rating & ratingDate & scores & rates & ->).
  reflexivity.
Defined.

(** ** The register loader and its view *)

Section RegisterFacts.
Context (H : Host).

Lemma database_error_text (msg : jsstring) :
  lit "Database Error: " ++ msg ++ lit ". Showing mock data." <> [].
Proof. change (lit "Database Error: ") with (68 :: lit "atabase Error: "). discriminate. Qed.

Lemma filterM_sublist {A} (f : A -> outcome bool) (l l' : list A) :
  RegisterView.filterM f l = Normal l' -> sublist l' l.
Proof.
  revert l'. induction l as [|x l IH]; intros l'; cbn [RegisterView.filterM].
  - intros Heq. apply Normal_eq in Heq. subst. constructor.
  - destruct (f x) as [keep|]; [|discriminate]. cbn [bind].
    destruct (RegisterView.filterM f l) as [rest|]; [|discriminate]. cbn [bind].
    intros Heq. apply Normal_eq in Heq. subst l'.
    destruct keep; [apply sublist_skip|apply sublist_cons]; apply IH; reflexivity.
Qed.

Lemma filterM_kept {A} (f : A -> outcome bool) (l l' : list A) (x : A) :
  RegisterView.filterM f l = Normal l' -> x ∈ l' -> f x = Normal true.
Proof.
  revert l'. induction l as [|y l IH]; intros l'; cbn [RegisterView.filterM].
  - intros Heq. apply Normal_eq in Heq. subst. intros Hin. inversion Hin.
  - destruct (f y) as [keep|] eqn:Hy; [|discriminate]. cbn [bind].
    destruct (RegisterView.filterM f l) as [rest|]; [|discriminate]. cbn [bind].
    intros Heq. apply Normal_eq in Heq. subst l'.
    destruct keep.
    + intros [->|Hin]%elem_of_cons; [exact Hy|]. apply (IH rest); [reflexivity|exact Hin].
    + intros Hin. apply (IH rest); [reflexivity|exact Hin].
Qed.

Lemma filterM_throws {A} (f : A -> outcome bool) (l : list A) (x : A) (e : JsError) :
  x ∈ l -> f x = Throw e -> exists e', RegisterView.filterM f l = Throw e'.
Proof.
  intros Hin Hx. induction Hin as [x l|x y l Hin IH]; cbn [RegisterView.filterM].
  - rewrite Hx. eexists. reflexivity.
  - destruct (f y); [|eexists; reflexivity]. cbn [bind].
    destruct (IH Hx) as [e' ->]. eexists. reflexivity.
Qed.

End RegisterFacts.

(** Reading the fields of a register state that setters built. *)
Ltac regState :=
  cbn [fst snd FMCSARegister.isLoading FMCSARegister.lastUpdated
       FMCSARegister.error FMCSARegister.registerData
       FMCSARegister.setIsLoading FMCSARegister.setError
       FMCSARegister.setRegisterData FMCSARegister.setLastUpdated].

(** X21.  After [fetchRegisterData] the page is in one of two states, with
    the spinner off and the time of the load recorded: either the error text
    is empty and the entries are the mapped rows of a non-empty answer, or
    the error text is not empty and the entries are the two mock entries. *)
Theorem register_loaded_or_mocked (H : Host) (st : FMCSARegister.State) :
  let st' := after (FMCSARegister.fetchRegisterData H) st in
  FMCSARegister.isLoading st' = false /\
  FMCSARegister.lastUpdated st' = nowLocaleString H /\
  ((FMCSARegister.error st' = [] /\
    exists res rows,
      runQuery H FMCSARegister.registerQuery = Normal res /\
      q_error res = None /\ q_data res = Some rows /\ rows <> [] /\
      mapM (FMCSARegister.toEntry H) rows = Normal (FMCSARegister.registerData st')) \/
   (FMCSARegister.error st' <> [] /\
    FMCSARegister.registerData st' = FMCSARegister.mockData)).
Proof.
  unfold after, FMCSARegister.fetchRegisterData, FMCSARegister.loadMockData,
    tryCatchFinally, abind, modify, lift.
  cbn [fst snd].
  destruct (runQuery H FMCSARegister.registerQuery) as [res|e] eqn:Hrun.
  - destruct (q_error res) as [e|] eqn:Herr.
    + regState. repeat split. right. split; [apply database_error_text|reflexivity].
    + destruct (q_data res) as [[|item items]|] eqn:Hdata.
      * regState. repeat split. right. split; [apply database_error_text|reflexivity].
      * destruct (mapM (FMCSARegister.toEntry H) (item :: items)) as [mapped|e] eqn:Hmap.
        -- regState. repeat split. left. split; [reflexivity|].
           exists res, (item :: items). repeat split; try assumption. discriminate.
        -- regState. repeat split. right. split; [apply database_error_text|reflexivity].
      * regState. repeat split. right. split; [apply database_error_text|reflexivity].
  - regState. repeat split. right. split; [apply database_error_text|reflexivity].
Qed.

(** X22.  The filtered view shows entries of the register only, in their
    order, each of them accepted by the filter; when a category other than
    [all] is selected, every entry shown has exactly that category; and the
    table shows at most 500 of them. *)
Theorem filtered_view (toLowerCase : jsstring -> jsstring)
    (registerData filtered : list JsValue) (selectedCategory searchTerm : jsstring) :
  RegisterView.filteredData toLowerCase registerData selectedCategory searchTerm
  = Normal filtered ->
  sublist filtered registerData /\
  (selectedCategory <> lit "all" ->
   forall entry, entry ∈ filtered ->
     getProp entry "category" = Normal (JStr selectedCategory)) /\
  (length (RegisterView.shownRows filtered) <= 500)%nat /\
  sublist (RegisterView.shownRows filtered) registerData.
Proof.
  unfold RegisterView.filteredData. intros Hf.
  pose proof (filterM_sublist _ _ _ Hf) as Hsub.
  split; [exact Hsub|]. split; [|split].
  - intros Hcat entry Hin. pose proof (filterM_kept _ _ _ entry Hf Hin) as Hkeep.
    unfold RegisterView.matchesEntry in Hkeep. unfold jsEqb in Hkeep at 1.
    rewrite (bool_decide_eq_false_2 _ Hcat) in Hkeep.
    destruct (getProp entry "category") as [category|]; [|discriminate].
    cbn [bind] in Hkeep.
    destruct (getProp entry "title") as [title|]; [|discriminate].
    cbn [bind] in Hkeep.
    destruct (RegisterView.lowered toLowerCase _ title) as [t|]; [|discriminate].
    cbn [bind] in Hkeep.
    assert (Hc : RegisterView.isTheString category selectedCategory = true).
    { destruct (RegisterView.isTheString category selectedCategory); [reflexivity|].
      destruct (includes t _); cbn [bind] in Hkeep; [discriminate|].
      destruct (getProp entry "number"); [|discriminate]. cbn [bind] in Hkeep.
      destruct (RegisterView.lowered toLowerCase _ _); discriminate. }
    destruct category; try discriminate. unfold RegisterView.isTheString, jsEqb in Hc.
    apply bool_decide_eq_true_1 in Hc. subst. reflexivity.
  - unfold RegisterView.shownRows. rewrite length_take. lia.
  - unfold RegisterView.shownRows. etransitivity; [apply sublist_take|exact Hsub].
Qed.

Lemma filtered_view_witness :
  exists filtered,
    RegisterView.filteredData asciiLower FMCSARegister.mockData
      (lit "NAME CHANGE") (lit "PFL") = Normal filtered /\
    length filtered = 1%nat /\
    forall entry, entry ∈ filtered ->
      getProp entry "category" = Normal (JStr (lit "NAME CHANGE")).
Proof.
  assert (Hrun : exists filtered,
             RegisterView.filteredData asciiLower FMCSARegister.mockData
               (lit "NAME CHANGE") (lit "PFL") = Normal filtered /\
             length filtered = 1%nat)
    by (eexists; split; [vm_compute; reflexivity|reflexivity]).
  destruct Hrun as (filtered & Hrun & Hlen). exists filtered.
  split; [exact Hrun|]. split; [exact Hlen|].
  destruct (filtered_view asciiLower _ _ _ _ Hrun) as (_ & Hcat & _).
  apply Hcat. discriminate.
Defined.

(** X23.  A register row whose carrier name is not a string is loaded like
    any other, and then breaks the view: [fetchRegisterData] maps it to an
    entry with that title, and the filter throws on it for every category
    and search term. *)
Theorem non_string_title_breaks_view (H : Host)
    (toLowerCase : jsstring -> jsstring) (item : gmap string JsValue)
    (title entry : JsValue) (registerData : list JsValue)
    (selectedCategory searchTerm : jsstring) :
  item !! "carrier_name" = Some title ->
  nullish title = false -> isString title = false ->
  FMCSARegister.toEntry H (JObj item) = Normal entry ->
  entry ∈ registerData ->
  getProp entry "title" = Normal title /\
  exists e, RegisterView.filteredData toLowerCase registerData selectedCategory
              searchTerm = Throw e.
Proof.
  intros Hname Hnull Hstr Hentry Hin.
  unfold FMCSARegister.toEntry in Hentry. cbn [getProp bind] in Hentry.
  rewrite Hname in Hentry. cbn [default from_option id] in Hentry.
  apply Normal_eq in Hentry. subst entry.
  assert (Htitle : getProp (JObj (object
            [("number", default JUndefined (item !! "docket_number"));
             ("title", title);
             ("decided", JStr (dateToLocaleDate H
                                 (default JUndefined (item !! "published_date"))));
             ("category", orElse (default JUndefined (item !! "category"))
                            (JStr (lit "GRANT DECISION NOTICES")))])) "title"
          = Normal title) by reflexivity.
  split; [exact Htitle|].
  assert (Hthrow : exists e, RegisterView.lowered toLowerCase "entry.title" title = Throw e).
  { destruct title; try discriminate; eexists; reflexivity. }
  destruct Hthrow as [e He].
  apply (filterM_throws _ _ _ e Hin).
  unfold RegisterView.matchesEntry.
  destruct (jsEqb selectedCategory (lit "all")); cbn [bind].
  - rewrite Htitle. cbn [bind]. rewrite He. reflexivity.
  - match goal with |- context [getProp ?o "category"] =>
      assert (Hc : exists c, getProp o "category" = Normal c) by (eexists; reflexivity)
    end.
    destruct Hc as [c ->]. cbn [bind]. rewrite Htitle. cbn [bind]. rewrite He.
    reflexivity.
Qed.

Lemma non_string_title_breaks_view_witness :
  exists entry e,
    FMCSARegister.toEntry offline (JObj numericItem) = Normal entry /\
    RegisterView.filteredData asciiLower (FMCSARegister.mockData ++ [entry])
      (lit "all") [] = Throw e.
Proof.
  assert (Hrun : exists entry,
             FMCSARegister.toEntry offline (JObj numericItem) = Normal entry)
    by (eexists; vm_compute; reflexivity).
  destruct Hrun as [entry Hrun].
  destruct (non_string_title_breaks_view offline asciiLower numericItem
              (JNum (Num 42)) entry (FMCSARegister.mockData ++ [entry])
              (lit "all") []) as [_ [e He]];
    [reflexivity|reflexivity|reflexivity|exact Hrun| |].
  - apply elem_of_app. right. left.
  - exists entry, e. split; [exact Hrun|exact He].
Defined.

(** ** The handlers of the register page *)

(** Running a handler: unfold the state monad and take every case. *)
Ltac runHandler :=
  unfold RegisterPage.toast, after, tryCatchFinally, abind, modify, lift, aret;
  cbn [fst snd]; cbv beta;
  repeat (rewrite ?andb_false_r;
          match goal with
          | |- context [match ?x with _ => _ end] =>
              lazymatch x with
              | context [match _ with _ => _ end] => fail
              | _ => destruct x
              end
          end; cbv beta).

Ltac pageState :=
  cbn [fst snd RegisterPage.records RegisterPage.totalRecords
       RegisterPage.categories RegisterPage.availableDates
       RegisterPage.storedDates RegisterPage.selectedDate
       RegisterPage.isLoading RegisterPage.isScraping
       RegisterPage.isLoadingDates RegisterPage.toasts
       RegisterPage.setRecords RegisterPage.setTotalRecords
       RegisterPage.setCategories RegisterPage.setAvailableDates
       RegisterPage.setStoredDates RegisterPage.setSelectedDate
       RegisterPage.setIsLoading RegisterPage.setIsScraping
       RegisterPage.setIsLoadingDates].

Ltac pageStateIn Hx :=
  cbn [fst snd RegisterPage.records RegisterPage.totalRecords
       RegisterPage.categories RegisterPage.availableDates
       RegisterPage.storedDates RegisterPage.selectedDate
       RegisterPage.isLoading RegisterPage.isScraping
       RegisterPage.isLoadingDates RegisterPage.toasts
       RegisterPage.setRecords RegisterPage.setTotalRecords
       RegisterPage.setCategories RegisterPage.setAvailableDates
       RegisterPage.setStoredDates RegisterPage.setSelectedDate
       RegisterPage.setIsLoading RegisterPage.setIsScraping
       RegisterPage.setIsLoadingDates] in Hx.

Section PageFacts.
Context (H : Host).

Lemma fetchRecords_frame (selectedDate selectedCategory searchQuery : jsstring)
    (st : RegisterPage.State) :
  let st' := after (RegisterPage.fetchRecords H selectedDate selectedCategory
                      searchQuery) st in
  RegisterPage.toasts st' = RegisterPage.toasts st /\
  RegisterPage.availableDates st' = RegisterPage.availableDates st /\
  RegisterPage.storedDates st' = RegisterPage.storedDates st /\
  RegisterPage.selectedDate st' = RegisterPage.selectedDate st /\
  RegisterPage.isScraping st' = RegisterPage.isScraping st /\
  RegisterPage.isLoadingDates st' = RegisterPage.isLoadingDates st /\
  (selectedDate = [] -> st' = st) /\
  (selectedDate <> [] -> RegisterPage.isLoading st' = false).
Proof.
  unfold RegisterPage.fetchRecords.
  destruct selectedDate as [|c d]; cbn [truthy negb].
  - repeat split. congruence.
  - runHandler; pageState; repeat split; first [discriminate | intros; reflexivity].
Qed.

End PageFacts.

Lemma trim_nil_iff (s : jsstring) :
  trim s = [] <-> forallb isWhiteSpace s = true.
Proof.
  rewrite <- visible_nil_blank, <- (visible_trim s). split.
  - intros ->. reflexivity.
  - intros Hv. destruct (trim s) as [|c t] eqn:Ht; [reflexivity|].
    pose proof (trim_head s c) as Hh. rewrite Ht in Hh.
    simpl in Hv. rewrite (Hh eq_refl) in Hv. discriminate.
Qed.

(** X24.  The parameters of the records request always carry the selected
    date and the limit 1000; the category is sent exactly when one other
    than ALL is selected, and the search text exactly when it is not blank,
    trimmed of the white space around it. *)
Theorem records_request (selectedDate selectedCategory searchQuery : jsstring) :
  RegisterPage.recordsParams selectedDate selectedCategory searchQuery
    !! "register_date" = Some (JStr selectedDate) /\
  RegisterPage.recordsParams selectedDate selectedCategory searchQuery
    !! "limit" = Some (JStr (lit "1000")) /\
  RegisterPage.recordsParams selectedDate selectedCategory searchQuery
    !! "category"
  = (if bool_decide (selectedCategory = [] \/ selectedCategory = lit "ALL")
     then None else Some (JStr selectedCategory)) /\
  RegisterPage.recordsParams selectedDate selectedCategory searchQuery
    !! "search"
  = (if forallb isWhiteSpace searchQuery then None
     else Some (JStr (trim searchQuery))).
Proof.
  unfold RegisterPage.recordsParams.
  assert (Hblank : truthy (JStr (trim searchQuery))
                   = negb (forallb isWhiteSpace searchQuery)).
  { destruct (forallb isWhiteSpace searchQuery) eqn:Hb.
    - apply trim_nil_iff in Hb. rewrite Hb. reflexivity.
    - destruct (trim searchQuery) eqn:Ht; [|reflexivity].
      apply trim_nil_iff in Ht. congruence. }
  rewrite Hblank.
  assert (Hcat : truthy (JStr selectedCategory) && negb (jsEqb selectedCategory (lit "ALL"))
                 = negb (bool_decide (selectedCategory = [] \/ selectedCategory = lit "ALL"))).
  { unfold jsEqb. repeat case_bool_decide; destruct selectedCategory as [|c s];
      cbn [truthy andb negb]; try reflexivity; exfalso; intuition congruence. }
  rewrite Hcat.
  destruct (bool_decide (selectedCategory = [] \/ selectedCategory = lit "ALL"));
    destruct (forallb isWhiteSpace searchQuery); cbn [negb];
    repeat split;
    rewrite ?lookup_insert_eq, ?lookup_insert_ne by discriminate; reflexivity.
Qed.

Section PageTheorems.
Context (H : Host).

Lemma fetchRecords_answer (selectedDate selectedCategory searchQuery : jsstring)
    (st : RegisterPage.State) (response data : JsValue) :
  selectedDate <> [] ->
  apiInvoke H (lit "/api/v1/fmcsa/records") (lit "GET")
    (JObj (RegisterPage.recordsParams selectedDate selectedCategory searchQuery))
  = Normal response ->
  getProp response "data" = Normal data ->
  let st' := after (RegisterPage.fetchRecords H selectedDate selectedCategory
                      searchQuery) st in
  RegisterPage.records st' = orElse (optProp data "items") (JArr []) /\
  RegisterPage.totalRecords st' = orElse (optProp data "total") (JNum (Num 0)) /\
  RegisterPage.categories st' = orElse (optProp data "categories") (JArr []).
Proof.
  intros Hd Hcall Hdata. unfold RegisterPage.fetchRecords.
  destruct selectedDate as [|c d]; [congruence|]. cbn [truthy negb].
  unfold after, tryCatchFinally, abind, modify, lift. rewrite Hcall, Hdata.
  repeat split.
Qed.

Lemma fetchAvailableDates_frame (selectedDate : jsstring) (st : RegisterPage.State) :
  let st' := after (RegisterPage.fetchAvailableDates H selectedDate) st in
  RegisterPage.isLoadingDates st' = false /\
  (selectedDate <> [] -> RegisterPage.selectedDate st' = RegisterPage.selectedDate st) /\
  RegisterPage.records st' = RegisterPage.records st /\
  RegisterPage.totalRecords st' = RegisterPage.totalRecords st /\
  RegisterPage.categories st' = RegisterPage.categories st /\
  RegisterPage.isLoading st' = RegisterPage.isLoading st /\
  RegisterPage.isScraping st' = RegisterPage.isScraping st /\
  (length (RegisterPage.toasts st') <= length (RegisterPage.toasts st) + 1)%nat.
Proof.
  unfold RegisterPage.fetchAvailableDates.
  destruct selectedDate as [|c d]; cbn [truthy negb]; cbv zeta; rewrite ?andb_false_r;
    runHandler; pageState; rewrite ?length_app; cbn [length];
    repeat split; first [congruence | intros; reflexivity | lia].
Qed.

Lemma fetchAvailableDates_selects (selectedDate : jsstring) (st : RegisterPage.State)
    (response data storedResp storedData first : JsValue) :
  selectedDate = [] ->
  apiInvoke H (lit "/api/v1/fmcsa/dates") (lit "GET") RegisterPage.emptyObject
  = Normal response ->
  getProp response "data" = Normal data ->
  apiInvoke H (lit "/api/v1/fmcsa/stored-dates") (lit "GET")
    RegisterPage.emptyObject = Normal storedResp ->
  getProp storedResp "data" = Normal storedData ->
  RegisterPage.positive H
    (RegisterPage.lengthOf (orElse (optProp data "dates") (JArr []))) = true ->
  getProp (RegisterPage.first (orElse (optProp data "dates") (JArr [])))
    "fmcsa_date" = Normal first ->
  let st' := after (RegisterPage.fetchAvailableDates H selectedDate) st in
  RegisterPage.selectedDate st' = first /\
  RegisterPage.availableDates st' = orElse (optProp data "dates") (JArr []) /\
  RegisterPage.storedDates st' = orElse (optProp storedData "dates") (JArr []) /\
  RegisterPage.toasts st' = RegisterPage.toasts st.
Proof.
  intros -> Hdates Hdata Hstored Hsd Hpos Hfirst.
  unfold RegisterPage.fetchAvailableDates.
  unfold RegisterPage.toast, after, tryCatchFinally, abind, modify, lift, aret.
  cbn [fst snd truthy negb]. cbv beta zeta.
  rewrite Hdates, Hdata, Hstored, Hsd, Hpos, Hfirst. repeat split.
Qed.

Lemma handleScrape_frame (selectedDate selectedCategory searchQuery : jsstring)
    (st : RegisterPage.State) :
  let st' := after (RegisterPage.handleScrape H selectedDate selectedCategory
                      searchQuery) st in
  (length (RegisterPage.toasts st) < length (RegisterPage.toasts st'))%nat /\
  (selectedDate <> [] -> RegisterPage.isScraping st' = false) /\
  RegisterPage.availableDates st' = RegisterPage.availableDates st /\
  RegisterPage.selectedDate st' = RegisterPage.selectedDate st /\
  RegisterPage.isLoadingDates st' = RegisterPage.isLoadingDates st.
Proof.
  unfold RegisterPage.handleScrape.
  destruct selectedDate as [|c d]; cbn [truthy negb].
  - unfold after, RegisterPage.toast, modify. pageState. rewrite length_app.
    cbn [length]. repeat split; first [congruence | lia].
  - unfold RegisterPage.toast, after, tryCatchFinally, abind, modify, lift, aret;
      cbn [fst snd]; cbv beta.
    repeat (cbv beta; match goal with
           | |- context [RegisterPage.fetchRecords H ?a ?b ?q ?s] =>
               let Hf := fresh "Hf" in
               pose proof (fetchRecords_frame H a b q s) as Hf;
               unfold after in Hf; cbn zeta in Hf;
               destruct (RegisterPage.fetchRecords H a b q s) as [? ?];
               destruct Hf as (? & ? & ? & ? & ? & ? & _ & _)
           | |- context [match ?x with _ => _ end] =>
               lazymatch x with
               | context [match _ with _ => _ end] => fail
               | _ => destruct x
               end
           end);
      pageState;
      repeat match goal with
             | Hx : _ = _ |- _ => progress (pageStateIn Hx)
             end;
      rewrite ?length_app; cbn [length];
      repeat split; first [congruence | intros; reflexivity | lia | idtac].
    all: try (match goal with Ht : RegisterPage.toasts _ = _ |- _ => rewrite Ht end;
              rewrite ?length_app; cbn [length]; lia).
Qed.

End PageTheorems.

(** X25.  [fetchRecords] shows no toast and leaves the dates and the two
    other spinners alone; without a selected date it changes nothing at all,
    with one it always ends with the loading flag off; and when the API
    answers, the records, the total and the categories are those of the
    answer, or [[]], 0 and [[]] where the answer has none. *)
Theorem fetchRecords_effects (H : Host)
    (selectedDate selectedCategory searchQuery : jsstring) (st : RegisterPage.State) :
  (RegisterPage.toasts
     (after (RegisterPage.fetchRecords H selectedDate selectedCategory searchQuery) st)
   = RegisterPage.toasts st /\
   RegisterPage.availableDates
     (after (RegisterPage.fetchRecords H selectedDate selectedCategory searchQuery) st)
   = RegisterPage.availableDates st /\
   RegisterPage.storedDates
     (after (RegisterPage.fetchRecords H selectedDate selectedCategory searchQuery) st)
   = RegisterPage.storedDates st /\
   RegisterPage.selectedDate
     (after (RegisterPage.fetchRecords H selectedDate selectedCategory searchQuery) st)
   = RegisterPage.selectedDate st /\
   RegisterPage.isScraping
     (after (RegisterPage.fetchRecords H selectedDate selectedCategory searchQuery) st)
   = RegisterPage.isScraping st /\
   RegisterPage.isLoadingDates
     (after (RegisterPage.fetchRecords H selectedDate selectedCategory searchQuery) st)
   = RegisterPage.isLoadingDates st /\
   (selectedDate = [] ->
    after (RegisterPage.fetchRecords H selectedDate selectedCategory searchQuery) st
    = st) /\
   (selectedDate <> [] ->
    RegisterPage.isLoading
      (after (RegisterPage.fetchRecords H selectedDate selectedCategory searchQuery) st)
    = false)) /\
  (forall response data,
     selectedDate <> [] ->
     apiInvoke H (lit "/api/v1/fmcsa/records") (lit "GET")
       (JObj (RegisterPage.recordsParams selectedDate selectedCategory searchQuery))
     = Normal response ->
     getProp response "data" = Normal data ->
     RegisterPage.records
       (after (RegisterPage.fetchRecords H selectedDate selectedCategory searchQuery) st)
     = orElse (optProp data "items") (JArr []) /\
     RegisterPage.totalRecords
       (after (RegisterPage.fetchRecords H selectedDate selectedCategory searchQuery) st)
     = orElse (optProp data "total") (JNum (Num 0)) /\
     RegisterPage.categories
       (after (RegisterPage.fetchRecords H selectedDate selectedCategory searchQuery) st)
     = orElse (optProp data "categories") (JArr [])).
Proof.
  split; [apply fetchRecords_frame|].
  intros response data Hd Hcall Hdata.
  exact (fetchRecords_answer H _ _ _ st response data Hd Hcall Hdata).
Qed.

Lemma fetchRecords_effects_witness :
  RegisterPage.records
    (after (RegisterPage.fetchRecords nothingScraped (lit "2026-02-20") (lit "ALL") [])
       emptyPage) = JArr [] /\
  after (RegisterPage.fetchRecords nothingScraped [] (lit "ALL") []) emptyPage
  = emptyPage.
Proof.
  destruct (fetchRecords_effects nothingScraped (lit "2026-02-20") (lit "ALL") []
              emptyPage) as [_ Hanswer].
  destruct (fetchRecords_effects nothingScraped [] (lit "ALL") [] emptyPage)
    as [(_ & _ & _ & _ & _ & _ & Hnone & _) _].
  split; [|apply Hnone; reflexivity].
  destruct (Hanswer
              (JObj (object
                 [("data", JObj (object [("records_count", JNum (Num 0));
                                         ("message", JStr (lit "No records"))]))]))
              (JObj (object [("records_count", JNum (Num 0));
                             ("message", JStr (lit "No records"))])))
    as (Hrecords & _); [discriminate|reflexivity|reflexivity|].
  rewrite Hrecords. reflexivity.
Defined.

(** X26.  [fetchAvailableDates] always ends with the dates spinner off,
    never touches the records, the total, the categories or the two other
    spinners, and shows at most one toast.  Whether it selects a date depends
    on the [selectedDate] that the callback closed over, not on the date in
    the state: with a date in the closure the state's date is kept; with the
    empty string in the closure (the call of the mount effect), when both
    requests answer and there are dates, the state's date becomes the
    [fmcsa_date] of the first of them, whatever date the state held. *)
Theorem fetchAvailableDates_effects (H : Host) (selectedDate : jsstring)
    (st : RegisterPage.State) :
  RegisterPage.isLoadingDates
    (after (RegisterPage.fetchAvailableDates H selectedDate) st) = false /\
  (selectedDate <> [] ->
   RegisterPage.selectedDate (after (RegisterPage.fetchAvailableDates H selectedDate) st)
   = RegisterPage.selectedDate st) /\
  (forall response data storedResp storedData first,
     selectedDate = [] ->
     apiInvoke H (lit "/api/v1/fmcsa/dates") (lit "GET") RegisterPage.emptyObject
     = Normal response ->
     getProp response "data" = Normal data ->
     apiInvoke H (lit "/api/v1/fmcsa/stored-dates") (lit "GET")
       RegisterPage.emptyObject = Normal storedResp ->
     getProp storedResp "data" = Normal storedData ->
     RegisterPage.positive H
       (RegisterPage.lengthOf (orElse (optProp data "dates") (JArr []))) = true ->
     getProp (RegisterPage.first (orElse (optProp data "dates") (JArr [])))
       "fmcsa_date" = Normal first ->
     RegisterPage.selectedDate
       (after (RegisterPage.fetchAvailableDates H selectedDate) st) = first /\
     RegisterPage.availableDates
       (after (RegisterPage.fetchAvailableDates H selectedDate) st)
     = orElse (optProp data "dates") (JArr []) /\
     RegisterPage.storedDates
       (after (RegisterPage.fetchAvailableDates H selectedDate) st)
     = orElse (optProp storedData "dates") (JArr []) /\
     RegisterPage.toasts
       (after (RegisterPage.fetchAvailableDates H selectedDate) st)
     = RegisterPage.toasts st) /\
  RegisterPage.records (after (RegisterPage.fetchAvailableDates H selectedDate) st)
  = RegisterPage.records st /\
  RegisterPage.totalRecords (after (RegisterPage.fetchAvailableDates H selectedDate) st)
  = RegisterPage.totalRecords st /\
  RegisterPage.categories (after (RegisterPage.fetchAvailableDates H selectedDate) st)
  = RegisterPage.categories st /\
  RegisterPage.isLoading (after (RegisterPage.fetchAvailableDates H selectedDate) st)
  = RegisterPage.isLoading st /\
  RegisterPage.isScraping (after (RegisterPage.fetchAvailableDates H selectedDate) st)
  = RegisterPage.isScraping st /\
  (length (RegisterPage.toasts
             (after (RegisterPage.fetchAvailableDates H selectedDate) st))
   <= length (RegisterPage.toasts st) + 1)%nat.
Proof.
  destruct (fetchAvailableDates_frame H selectedDate st)
    as (Hoff & Hkept & Hframe).
  split; [exact Hoff|]. split; [exact Hkept|]. split; [|exact Hframe].
  intros response data storedResp storedData first Hd Hdates Hdata Hstored Hsd
    Hpos Hfirst.
  exact (fetchAvailableDates_selects H selectedDate st response data storedResp
           storedData first Hd Hdates Hdata Hstored Hsd Hpos Hfirst).
Qed.

Lemma fetchAvailableDates_effects_witness :
  RegisterPage.selectedDate emptyPage = JStr (lit "2026-02-20") /\
  RegisterPage.selectedDate
    (after (RegisterPage.fetchAvailableDates datesKnown (lit "2026-02-20")) emptyPage)
  = JStr (lit "2026-02-20") /\
  RegisterPage.selectedDate
    (after (RegisterPage.fetchAvailableDates datesKnown []) emptyPage)
  = JStr (lit "2026-02-27").
Proof.
  destruct (fetchAvailableDates_effects datesKnown (lit "2026-02-20") emptyPage)
    as (_ & Hkept & _).
  destruct (fetchAvailableDates_effects datesKnown [] emptyPage)
    as (_ & _ & Hselects & _).
  split; [reflexivity|]. split.
  - rewrite Hkept; [reflexivity|discriminate].
  - destruct (Hselects
                (JObj (object [("data", JObj (object [("dates", knownDates)]))]))
                (JObj (object [("dates", knownDates)]))
                (JObj (object [("data", JObj (object [("dates", knownDates)]))]))
                (JObj (object [("dates", knownDates)]))
                (JStr (lit "2026-02-27")))
      as (Hfirst & _); [reflexivity..|exact Hfirst].
Defined.

(** X27.  [handleScrape] always reports: whatever the API does, it shows at
    least one toast; with a date selected it ends with the scraping flag off;
    and it never changes the selected date, the available dates or the dates
    spinner. *)
Theorem handleScrape_effects (H : Host)
    (selectedDate selectedCategory searchQuery : jsstring) (st : RegisterPage.State) :
  (length (RegisterPage.toasts st)
   < length (RegisterPage.toasts
               (after (RegisterPage.handleScrape H selectedDate selectedCategory
                         searchQuery) st)))%nat /\
  (selectedDate <> [] ->
   RegisterPage.isScraping
     (after (RegisterPage.handleScrape H selectedDate selectedCategory searchQuery) st)
   = false) /\
  RegisterPage.availableDates
    (after (RegisterPage.handleScrape H selectedDate selectedCategory searchQuery) st)
  = RegisterPage.availableDates st /\
  RegisterPage.selectedDate
    (after (RegisterPage.handleScrape H selectedDate selectedCategory searchQuery) st)
  = RegisterPage.selectedDate st /\
  RegisterPage.isLoadingDates
    (after (RegisterPage.handleScrape H selectedDate selectedCategory searchQuery) st)
  = RegisterPage.isLoadingDates st.
Proof. apply handleScrape_frame. Qed.

Lemma handleScrape_effects_witness :
  RegisterPage.toasts
    (after (RegisterPage.handleScrape nothingScraped (lit "2026-02-20") (lit "ALL") [])
       emptyPage)
  = [("warning", JStr (lit "No records"))] /\
  RegisterPage.isScraping
    (after (RegisterPage.handleScrape nothingScraped (lit "2026-02-20") (lit "ALL") [])
       emptyPage) = false.
Proof.
  destruct (handleScrape_effects nothingScraped (lit "2026-02-20") (lit "ALL") []
              emptyPage) as (_ & Hoff & _).
  split; [vm_compute; reflexivity|]. apply Hoff. discriminate.
Defined.

Lemma cleanText_empty_iff_blank_witness : cleanText (TStr [32; 160; 10; 9]) = [].
Proof. apply cleanText_empty_iff_blank. reflexivity. Defined.
